(** * Synthetic gamma-spectrum generation: detector calibration, efficiency,
      decay-chain inference, scenario sampling and the compact label codec

    A shallow embedding of the Python sources under
    [vega_ml/synthetic_spectra] and the properties proved about it.

    Conventions of the embedding.
    - A Python [float] is an exact number: a rational ([Q]) wherever the code
      only adds, multiplies, divides, compares and truncates, a real ([R])
      where it calls [exp], [log1p], [sqrt] or a fractional power.  Rounding
      error, NaN and the infinities of IEEE doubles are outside the model,
      with one exception: the quotient that fixes the number of rows of a
      spectrogram is the binary64 quotient ([py_float_div]), because the
      truncation that follows it sees the rounding on ordinary inputs.
    - A Python [int] is a [Z]; [bytes] and [bytearray] are [list byte].
    - A raised exception is the [Raise] branch of [result]; every function
      that can raise returns a [result].
    - A [dict] with string keys is a [gmap string _]; a [set] of strings is a
      [gset string]; a [dict] whose iteration order matters is an association
      list in insertion order.
    - A numpy random generator is a state threaded through its draws. *)

From Stdlib Require Import ZArith QArith Qround Qabs Qminmax Qreals Reals Psatz.
From Stdlib Require Import Strings.Byte Sorting.Sorted SpecFloat.
From stdpp Require Import gmap strings pretty list.

Set Default Proof Using "Type".

(** ** Python values and exceptions *)

Inductive exn : Type :=
| ZeroDivisionError
| ValueError
| IndexError
| StructError.

Inductive result (A : Type) : Type :=
| Ok (a : A)
| Raise (e : exn).

Arguments Ok {A} a.
Arguments Raise {A} e.

#[global] Instance result_ret : MRet result := fun A a => Ok a.

#[global] Instance result_bind : MBind result := fun A B f m =>
  match m with
  | Ok a => f a
  | Raise e => Raise e
  end.

Definition is_Ok {A} (r : result A) : Prop :=
  match r with Ok _ => True | Raise _ => False end.

(** [int(x)] on a float: truncation toward zero. *)
Definition py_int (x : Q) : Z := Z.quot (Qnum x) (Z.pos (Qden x)).

(** [x / y] on floats: raises [ZeroDivisionError] when the divisor is zero. *)
Definition py_div (x y : Q) : result Q :=
  if Qeq_bool y 0 then Raise ZeroDivisionError else Ok (x / y)%Q.

(** *** binary64 rounding *)

(** The binary64 float nearest to a rational, ties to even: the numerator
    divided by the denominator, rounded once. *)
Definition float_of_Q (q : Q) : spec_float :=
  let num :=
    match Qnum q with
    | Z0 => S754_zero false
    | Zpos p => S754_finite false p 0
    | Zneg p => S754_finite true p 0
    end in
  SFdiv 53 1024 num (S754_finite false (Qden q) 0).

(** The value of that float.  A rational that overflows to an infinity is
    outside the model and is left as it is. *)
Definition binary64 (q : Q) : Q :=
  match float_of_Q q with
  | S754_zero _ => 0%Q
  | S754_finite s m e =>
      (inject_Z (if s then Zneg m else Zpos m) * Qpower 2 e)%Q
  | _ => q
  end.

(** [x / y] on floats as the machine computes it: the operands are the
    floats nearest to the values written, and the quotient is rounded to
    binary64.  [ZeroDivisionError] when the divisor is zero. *)
Definition py_float_div (x y : Q) : result Q :=
  if Qeq_bool y 0 then Raise ZeroDivisionError
  else Ok (binary64 (binary64 x / binary64 y)%Q).

(** ** config.py: detector configuration *)

Module Config.

Local Open Scope Q_scope.

Record DetectorConfig : Type := {
  name : string;
  energy_min_kev : Q;
  energy_max_kev : Q;
  num_channels : Z;
  skip_first_channel : bool;
  fwhm_at_662 : Q;
  fwhm_uncertainty : Q;
  crystal_type : string;
  sensitivity_cps_per_usvh : Q;
  detector_volume_cm3 : Q
}.

Definition get_channel_width_kev (self : DetectorConfig) : result Q :=
  py_div (energy_max_kev self - energy_min_kev self) (inject_Z (num_channels self)).

(** [np.arange(start, stop)] over integers: [start, start+1, ..., stop-1]. *)
Definition arange (start stop : Z) : list Z :=
  map (fun k => start + Z.of_nat k)%Z (seq 0 (Z.to_nat (stop - start))).

Definition get_energy_bins (self : DetectorConfig) : result (list Q) :=
  channel_width ← get_channel_width_kev self;
  let start_raw_channel := if skip_first_channel self then 1%Z else 0%Z in
  let raw_channels := arange start_raw_channel (num_channels self) in
  Ok (map (fun k => energy_min_kev self + (inject_Z k + 0.5) * channel_width)%Q
          raw_channels).

Definition energy_to_channel (self : DetectorConfig) (energy_kev : Q) : result Z :=
  channel_width ← get_channel_width_kev self;
  q ← py_div (energy_kev - energy_min_kev self) channel_width;
  let raw_channel := py_int q in
  let '(channel, max_channel) :=
    if skip_first_channel self
    then (raw_channel - 1, num_channels self - 2)%Z
    else (raw_channel, num_channels self - 1)%Z in
  Ok (Z.max 0 (Z.min max_channel channel)).

Definition channel_to_energy (self : DetectorConfig) (channel : Z) : result Q :=
  channel_width ← get_channel_width_kev self;
  let raw_channel := (channel + (if skip_first_channel self then 1 else 0))%Z in
  let raw_channel := Z.max 0 (Z.min (num_channels self - 1) raw_channel) in
  Ok (energy_min_kev self + (inject_Z raw_channel + 0.5) * channel_width)%Q.

Definition radiacode_101 : DetectorConfig := {|
  name := "Radiacode 101";
  energy_min_kev := 20.0;
  energy_max_kev := 3000.0;
  num_channels := 1024;
  skip_first_channel := true;
  fwhm_at_662 := 0.095;
  fwhm_uncertainty := 0.004;
  crystal_type := "CsI(Tl)";
  sensitivity_cps_per_usvh := 30.0;
  detector_volume_cm3 := 1.0
|}.

Definition radiacode_102 : DetectorConfig := {|
  name := "Radiacode 102";
  energy_min_kev := 20.0;
  energy_max_kev := 3000.0;
  num_channels := 1024;
  skip_first_channel := true;
  fwhm_at_662 := 0.095;
  fwhm_uncertainty := 0.004;
  crystal_type := "CsI(Tl)";
  sensitivity_cps_per_usvh := 30.0;
  detector_volume_cm3 := 1.0
|}.

Definition radiacode_103 : DetectorConfig := {|
  name := "Radiacode 103";
  energy_min_kev := 20.0;
  energy_max_kev := 3000.0;
  num_channels := 1024;
  skip_first_channel := true;
  fwhm_at_662 := 0.084;
  fwhm_uncertainty := 0.003;
  crystal_type := "CsI(Tl)";
  sensitivity_cps_per_usvh := 30.0;
  detector_volume_cm3 := 1.0
|}.

Definition radiacode_103g : DetectorConfig := {|
  name := "Radiacode 103G";
  energy_min_kev := 25.0;
  energy_max_kev := 3000.0;
  num_channels := 1024;
  skip_first_channel := true;
  fwhm_at_662 := 0.074;
  fwhm_uncertainty := 0.003;
  crystal_type := "GAGG(Ce)";
  sensitivity_cps_per_usvh := 40.0;
  detector_volume_cm3 := 1.0
|}.

Definition radiacode_110 : DetectorConfig := {|
  name := "Radiacode 110";
  energy_min_kev := 20.0;
  energy_max_kev := 3000.0;
  num_channels := 1024;
  skip_first_channel := true;
  fwhm_at_662 := 0.084;
  fwhm_uncertainty := 0.003;
  crystal_type := "CsI(Tl)";
  sensitivity_cps_per_usvh := 77.0;
  detector_volume_cm3 := 2.5
|}.

(** The preset table, in insertion order. *)
Definition RADIACODE_CONFIGS : list (string * DetectorConfig) :=
  [ ("radiacode_101", radiacode_101);
    ("radiacode_102", radiacode_102);
    ("radiacode_103", radiacode_103);
    ("radiacode_103g", radiacode_103g);
    ("radiacode_110", radiacode_110) ].

(** [RADIACODE_CONFIGS.get(key)] *)
Definition lookup_config (key : string) : option DetectorConfig :=
  snd <$> List.find (fun kv => String.eqb (fst kv) key) RADIACODE_CONFIGS.

Definition get_default_config : DetectorConfig := radiacode_103.

(** A preset is any value of the table. *)
Definition is_preset (cfg : DetectorConfig) : Prop :=
  In cfg (map snd RADIACODE_CONFIGS).

(** One channel width of a configuration, as a plain number. *)
Definition channel_width (cfg : DetectorConfig) : Q :=
  (energy_max_kev cfg - energy_min_kev cfg) / inject_Z (num_channels cfg).

(** Length of the spectrum array the detector model works on. *)
Definition usable_channels (cfg : DetectorConfig) : Z :=
  (num_channels cfg - (if skip_first_channel cfg then 1 else 0))%Z.

(** Largest index [energy_to_channel] may return. *)
Definition max_channel (cfg : DetectorConfig) : Z :=
  (if skip_first_channel cfg then num_channels cfg - 2 else num_channels cfg - 1)%Z.

(** The calibration round trip of an energy stays within [tol]. *)
Definition roundtrip_within (cfg : DetectorConfig) (E tol : Q) : Prop :=
  exists c e,
    energy_to_channel cfg E = Ok c /\
    channel_to_energy cfg c = Ok e /\
    Qabs (e - E) < tol.

(** A configuration the constructor accepts whose only channel is the one
    that is skipped: no usable channel is left. *)
Definition single_channel : DetectorConfig := {|
  name := "single channel";
  energy_min_kev := 20.0;
  energy_max_kev := 3000.0;
  num_channels := 1;
  skip_first_channel := true;
  fwhm_at_662 := 0.084;
  fwhm_uncertainty := 0.003;
  crystal_type := "CsI(Tl)";
  sensitivity_cps_per_usvh := 30.0;
  detector_volume_cm3 := 1.0
|}.

End Config.

(** ** ground_truth/isotope_data.py: the isotope database *)

Module IsotopeData.

Local Open Scope Q_scope.

(** One gamma line: (energy in keV, emission intensity). *)
Definition GammaLine : Type := (Q * Q)%type.

(** An isotope entry, with the fields the generation code reads: its name,
    its gamma lines and its daughters. *)
Record Isotope : Type := isotope {
  name : string;
  gamma_lines : list GammaLine;
  daughters : list string
}.

(** The database in insertion order; every name is registered once. *)
Definition ISOTOPE_DATABASE : list Isotope :=
  [ isotope "K-40" [(1460.83, 0.1066)] [];
    isotope "Be-7" [(477.6, 0.1044)] [];
    isotope "C-14" [] [];
    isotope "Na-22" [(1274.53, 0.9994); (511.0, 1.798)] [];
    isotope "U-238" [(49.55, 0.000064)] ["Th-234"];
    isotope "Th-234" [(63.29, 0.0484); (92.38, 0.0274); (92.80, 0.0271)]
      ["Pa-234m"];
    isotope "Pa-234m" [(766.36, 0.00294); (1001.03, 0.00842)] ["U-234"];
    isotope "U-234" [(53.20, 0.00123)] ["Th-230"];
    isotope "Th-230" [(67.67, 0.00377); (143.87, 0.00055)] ["Ra-226"];
    isotope "Ra-226" [(186.21, 0.0359)] ["Rn-222"];
    isotope "Rn-222" [(510.0, 0.00076)] ["Po-218"];
    isotope "Po-218" [] ["Pb-214"];
    isotope "Pb-214" [(241.98, 0.0743); (295.22, 0.1842); (351.93, 0.3560)]
      ["Bi-214"];
    isotope "Bi-214" [(609.31, 0.4549); (768.36, 0.0489); (1120.29, 0.1492);
      (1238.11, 0.0579); (1377.67, 0.0400); (1764.49, 0.1531); (2204.21,
      0.0508)] ["Po-214"];
    isotope "Po-214" [(799.7, 0.000104)] ["Pb-210"];
    isotope "Pb-210" [(46.54, 0.0425)] ["Bi-210"];
    isotope "Bi-210" [] ["Po-210"];
    isotope "Po-210" [(803.1, 0.0000122)] ["Pb-206"];
    isotope "Th-232" [(63.81, 0.000263)] ["Ra-228"];
    isotope "Ra-228" [] ["Ac-228"];
    isotope "Ac-228" [(129.07, 0.0242); (338.32, 0.1127); (463.00, 0.0440);
      (794.95, 0.0425); (911.20, 0.2580); (968.97, 0.1580); (1588.19,
      0.0324)] ["Th-228"];
    isotope "Th-228" [(84.37, 0.0122); (215.98, 0.00247)] ["Ra-224"];
    isotope "Ra-224" [(240.99, 0.0410)] ["Rn-220"];
    isotope "Rn-220" [(549.73, 0.00114)] ["Po-216"];
    isotope "Po-216" [] ["Pb-212"];
    isotope "Pb-212" [(238.63, 0.436); (300.09, 0.0319)] ["Bi-212"];
    isotope "Bi-212" [(727.33, 0.0658); (785.37, 0.0111); (1620.50, 0.0149)]
      ["Tl-208"; "Po-212"];
    isotope "Tl-208" [(277.37, 0.0664); (510.77, 0.225); (583.19, 0.8450);
      (860.56, 0.1265); (2614.51, 0.9979)] ["Pb-208"];
    isotope "Po-212" [] ["Pb-208"];
    isotope "U-235" [(143.76, 0.1096); (163.33, 0.0508); (185.72, 0.5720);
      (205.31, 0.0503)] ["Th-231"];
    isotope "Th-231" [(25.64, 0.145); (84.21, 0.066)] ["Pa-231"];
    isotope "Pa-231" [(27.36, 0.093); (283.67, 0.0177); (300.07, 0.0234);
      (302.67, 0.0227)] ["Ac-227"];
    isotope "Ac-227" [] ["Th-227"; "Fr-223"];
    isotope "Pb-211" [(404.85, 0.0376); (427.09, 0.0180); (832.01, 0.0351)] [];
    isotope "Bi-211" [(351.06, 0.1295)] [];
    isotope "Tl-207" [(897.80, 0.00261)] [];
    isotope "Am-241" [(26.34, 0.024); (59.54, 0.3592)] [];
    isotope "Cs-137" [(661.66, 0.8499)] ["Ba-137m"];
    isotope "Ba-137m" [(661.66, 0.8999)] [];
    isotope "Co-60" [(1173.23, 0.9985); (1332.49, 0.9998)] [];
    isotope "Ba-133" [(53.16, 0.0214); (79.61, 0.0265); (80.99, 0.329);
      (276.40, 0.0716); (302.85, 0.1834); (356.01, 0.6205); (383.85,
      0.0894)] [];
    isotope "Cd-109" [(88.03, 0.0364)] [];
    isotope "Eu-152" [(121.78, 0.2837); (244.70, 0.0753); (344.28, 0.2658);
      (411.12, 0.0224); (443.96, 0.0312); (778.90, 0.1297); (867.38,
      0.0423); (964.08, 0.1463); (1085.87, 0.1013); (1112.07, 0.1354);
      (1408.01, 0.2085)] [];
    isotope "Eu-154" [(123.07, 0.4040); (247.93, 0.0689); (591.76, 0.0495);
      (723.30, 0.2005); (756.80, 0.0453); (873.19, 0.1220); (996.29,
      0.1048); (1004.76, 0.1792); (1274.43, 0.3489)] [];
    isotope "Mn-54" [(834.85, 0.99976)] [];
    isotope "Zn-65" [(511.0, 0.0284); (1115.55, 0.5004)] [];
    isotope "Co-57" [(14.41, 0.0916); (122.06, 0.8560); (136.47, 0.1068)] [];
    isotope "Sr-85" [(514.0, 0.96)] [];
    isotope "Y-88" [(898.04, 0.937); (1836.06, 0.9921)] [];
    isotope "Ce-139" [(165.86, 0.7990)] [];
    isotope "Sn-113" [(391.70, 0.6497)] [];
    isotope "Hg-203" [(279.20, 0.8146)] [];
    isotope "Se-75" [(121.12, 0.172); (136.0, 0.585); (264.66, 0.589);
      (279.54, 0.252); (400.66, 0.1141)] [];
    isotope "Ir-192" [(295.96, 0.2872); (308.46, 0.2970); (316.51, 0.8286);
      (468.07, 0.4781); (604.41, 0.0823); (612.46, 0.0534)] [];
    isotope "Tc-99m" [(140.51, 0.8906)] [];
    isotope "I-131" [(80.19, 0.0262); (284.31, 0.0614); (364.49, 0.8170);
      (636.99, 0.0717); (722.91, 0.0177)] [];
    isotope "I-123" [(158.97, 0.833); (528.96, 0.0139)] [];
    isotope "F-18" [(511.0, 1.9346)] [];
    isotope "Ga-67" [(93.31, 0.3881); (184.58, 0.2141); (300.22, 0.1664);
      (393.53, 0.0456)] [];
    isotope "In-111" [(171.28, 0.9066); (245.35, 0.9409)] [];
    isotope "Tl-201" [(68.89, 0.266); (70.82, 0.447); (80.19, 0.205); (135.34,
      0.0256); (167.43, 0.100)] [];
    isotope "Lu-177" [(112.95, 0.0617); (208.37, 0.1036)] [];
    isotope "Sm-153" [(69.67, 0.0485); (103.18, 0.2925)] [];
    isotope "Xe-133" [(81.0, 0.370)] [];
    isotope "Ra-223" [(144.23, 0.0334); (154.21, 0.0566); (269.46, 0.1370);
      (323.87, 0.0398)] [];
    isotope "Cs-134" [(475.36, 0.0149); (563.25, 0.0836); (569.33, 0.1538);
      (604.72, 0.9762); (795.86, 0.8546); (801.95, 0.0873); (1167.97,
      0.0180); (1365.19, 0.0303)] [];
    isotope "Ru-106" [] ["Rh-106"];
    isotope "Rh-106" [(511.85, 0.2040); (621.93, 0.0993); (1050.47, 0.0156)]
      [];
    isotope "Ce-144" [(80.12, 0.0136); (133.52, 0.1109)] ["Pr-144"];
    isotope "Pr-144" [(696.51, 0.0134); (1489.16, 0.00284); (2185.66,
      0.00694)] [];
    isotope "Sb-125" [(176.31, 0.0685); (380.45, 0.0152); (427.87, 0.2956);
      (463.36, 0.1048); (600.60, 0.1776); (606.71, 0.0502); (635.95,
      0.1132); (671.44, 0.0180)] [];
    isotope "Co-58" [(511.0, 0.300); (810.76, 0.9945)] [];
    isotope "Sr-90" [] ["Y-90"];
    isotope "Y-90" [] [];
    isotope "I-129" [(39.58, 0.0751)] [];
    isotope "Fe-59" [(142.65, 0.0102); (192.35, 0.0303); (1099.25, 0.5650);
      (1291.60, 0.4320)] [];
    isotope "Cr-51" [(320.08, 0.0991)] [];
    isotope "Ta-182" [(67.75, 0.4130); (100.11, 0.1410); (152.43, 0.0693);
      (179.39, 0.0310); (222.11, 0.0749); (1121.30, 0.3490); (1189.05,
      0.1623); (1221.41, 0.2700); (1231.02, 0.1144)] [];
    isotope "Sc-46" [(889.28, 0.99984); (1120.55, 0.99987)] [];
    isotope "Au-198" [(411.80, 0.9562); (675.88, 0.0084)] [];
    isotope "Ag-110m" [(446.81, 0.0366); (620.36, 0.0278); (657.76, 0.9476);
      (677.62, 0.1067); (687.01, 0.0642); (706.68, 0.1664); (744.28,
      0.0466); (763.94, 0.2226); (818.03, 0.0730); (884.68, 0.7500);
      (937.49, 0.3491); (1384.29, 0.2510); (1475.79, 0.0399); (1505.03,
      0.1331)] [];
    isotope "Hf-181" [(133.02, 0.433); (136.26, 0.0585); (345.93, 0.1512);
      (482.18, 0.8050)] [] ].

Definition get_isotope (n : string) : option Isotope :=
  List.find (fun iso => String.eqb (name iso) n) ISOTOPE_DATABASE.

Definition get_all_isotopes : list Isotope := ISOTOPE_DATABASE.

End IsotopeData.

(** ** physics/spectrum_physics.py: detector efficiency and normalisation *)

Module Physics.

Import Config.
Local Open Scope R_scope.

(** [x ** y] on floats, for a base that is not negative and a positive
    exponent: [0.0 ** y] is [0.0].  A negative base with a fractional
    exponent gives a complex number in Python, which is outside this
    model. *)
Definition py_pow (x y : R) : R :=
  if Rle_dec x 0 then 0 else Rpower x y.

(** The configuration a call works with: the one it is given, or the
    default one. *)
Definition config_or_default (detector_config : option DetectorConfig)
    : DetectorConfig :=
  match detector_config with
  | None => get_default_config
  | Some c => c
  end.

(** [detector_efficiency] is modelled for a detector volume that is not
    negative, and the statements about its value assume one: on a negative
    volume the cube root is complex and the [min] that follows it raises
    [TypeError]. *)

Definition detector_efficiency
    (energy_kev : R) (detector_config : option DetectorConfig) : R :=
  let detector_config :=
    match detector_config with
    | None => get_default_config
    | Some c => c
    end in
  if Rlt_dec energy_kev 20 then 0
  else
    let low_eff := 1 - exp (- energy_kev / 50.0) in
    let high_eff := exp (- energy_kev / 2000.0) in
    let eff := 0.8 * low_eff * high_eff in
    let volume_factor :=
      py_pow (Q2R (detector_volume_cm3 detector_config) / 1.0) (1 / 3) in
    let eff := eff * Rmin 1.0 volume_factor in
    Rmax 0.0 (Rmin 1.0 eff).

(** A spectrum is the array of its entries in row-major order: the
    reductions below are taken over all entries, whatever the shape. *)
Definition ndarray : Type := list R.

(** [a.max()]: numpy raises [ValueError] on a zero-size array. *)
Definition ndarray_max (a : ndarray) : result R :=
  match a with
  | [] => Raise ValueError
  | x :: xs => Ok (fold_left Rmax xs x)
  end.

(** [a.sum()] *)
Definition ndarray_sum (a : ndarray) : R := fold_right Rplus 0 a.

(** [a / c], element by element. *)
Definition ndarray_div (a : ndarray) (c : R) : ndarray :=
  map (fun x => x / c) a.

Definition normalize_spectrum (spectrum : ndarray) (method : string)
    : result ndarray :=
  if String.eqb method "max" then
    max_val ← ndarray_max spectrum;
    if Rlt_dec 0 max_val then Ok (ndarray_div spectrum max_val)
    else Ok spectrum
  else if String.eqb method "sum" then
    let total := ndarray_sum spectrum in
    if Rlt_dec 0 total then Ok (ndarray_div spectrum total)
    else Ok spectrum
  else if String.eqb method "log" then
    let log_spec := map (fun x => ln (1 + x)) spectrum in
    max_val ← ndarray_max log_spec;
    if Rlt_dec 0 max_val then Ok (ndarray_div log_spec max_val)
    else Ok log_spec
  else if String.eqb method "sqrt" then
    let sqrt_spec := map sqrt spectrum in
    max_val ← ndarray_max sqrt_spec;
    if Rlt_dec 0 max_val then Ok (ndarray_div sqrt_spec max_val)
    else Ok sqrt_spec
  else Raise ValueError.

(** *** Resolution: the two FWHM formulas *)

(** [DetectorConfig.get_fwhm_at_energy] of config.py. *)
Definition get_fwhm_at_energy (self : DetectorConfig) (energy_kev : R) : R :=
  Q2R (fwhm_at_662 self) * sqrt (662.0 / energy_kev) * energy_kev.

(** [DetectorConfig.get_sigma_at_energy] of config.py. *)
Definition get_sigma_at_energy (self : DetectorConfig) (energy_kev : R) : R :=
  let fwhm := get_fwhm_at_energy self energy_kev in
  fwhm / 2.355.

Definition calculate_fwhm (energy_kev fwhm_at_662 : R) : R :=
  let fwhm_662_kev := fwhm_at_662 * 662.0 in
  let fwhm_kev := fwhm_662_kev * sqrt (energy_kev / 662.0) in
  fwhm_kev.

Definition fwhm_to_sigma (fwhm : R) : R :=
  fwhm / (2.0 * sqrt (2.0 * ln 2.0)).

(** *** Peaks *)

Record PeakParameters : Type := {
  energy_kev : R;
  intensity : R;
  activity_bq : R;
  live_time_s : R
}.

(** [np.zeros_like(a)] *)
Definition zeros_like (a : ndarray) : ndarray := map (fun _ => 0) a.

(** [a + b], element by element, on arrays of one shape. *)
Definition ndarray_add (a b : ndarray) : ndarray :=
  zip_with Rplus a b.

Definition gaussian_peak (energy_bins : ndarray)
    (peak_energy sigma amplitude : R) : ndarray :=
  let prob :=
    map (fun e => exp (- 0.5 * ((e - peak_energy) / sigma) ^ 2)) energy_bins in
  let prob := map (fun p => p / (sigma * sqrt (2 * PI))) prob in
  let bin_width :=
    match energy_bins with
    | e0 :: e1 :: _ => e1 - e0
    | _ => 1.0
    end in
  map (fun p => amplitude * p * bin_width) prob.

Definition calculate_expected_counts (peak_params : PeakParameters)
    (detector_config : option DetectorConfig) : R :=
  let efficiency :=
    detector_efficiency (energy_kev peak_params) detector_config in
  activity_bq peak_params * live_time_s peak_params
  * intensity peak_params * efficiency.

Definition generate_peak_spectrum (energy_bins : ndarray)
    (peak_params : PeakParameters) (detector_config : option DetectorConfig)
    : ndarray :=
  let cfg :=
    match detector_config with
    | None => get_default_config
    | Some c => c
    end in
  let amplitude := calculate_expected_counts peak_params (Some cfg) in
  if Rle_dec amplitude 0 then zeros_like energy_bins
  else
    let fwhm_kev :=
      calculate_fwhm (energy_kev peak_params) (Q2R (fwhm_at_662 cfg)) in
    let sigma := fwhm_to_sigma fwhm_kev in
    gaussian_peak energy_bins (energy_kev peak_params) sigma amplitude.

Definition generate_exponential_background (energy_bins : ndarray)
    (amplitude decay_constant : R) : ndarray :=
  map (fun e => amplitude * exp (- decay_constant * e)) energy_bins.

(** The method names the function accepts. *)
Definition normalization_methods : list string := ["max"; "sum"; "log"; "sqrt"].

End Physics.

(** ** ground_truth/decay_chains.py: chain signatures and parent inference *)

Module DecayChains.

Local Open Scope Q_scope.

Record ChainSignature : Type := {
  name : string;
  parent_chain : string;
  inferred_parent : string;
  required_daughters : gset string;
  optional_daughters : gset string;
  description : string
}.

(** The signature registry, in registration (insertion) order. *)
Definition CHAIN_SIGNATURES : list (string * ChainSignature) :=
  [ ("Rn-222_progeny",
     {| name := "Radon-222 Progeny";
        parent_chain := "U-238";
        inferred_parent := "Rn-222";
        required_daughters := {["Pb-214"; "Bi-214"]};
        optional_daughters := {["Po-214"]};
        description :=
          "Pb-214 + Bi-214 indicates airborne Rn-222 (radon) daughters" |});
    ("Ra-226_equilibrium",
     {| name := "Ra-226 Secular Equilibrium";
        parent_chain := "U-238";
        inferred_parent := "Ra-226";
        required_daughters := {["Pb-214"; "Bi-214"]};
        optional_daughters := {["Rn-222"; "Po-214"; "Pb-210"]};
        description := "Indicates Ra-226 or U-238 in secular equilibrium" |});
    ("Rn-220_progeny",
     {| name := "Thoron (Rn-220) Progeny";
        parent_chain := "Th-232";
        inferred_parent := "Rn-220";
        required_daughters := {["Pb-212"; "Bi-212"]};
        optional_daughters := {["Tl-208"; "Po-212"]};
        description := "Pb-212 + Bi-212 indicates Rn-220 (thoron) daughters" |});
    ("Th-232_equilibrium",
     {| name := "Th-232 Secular Equilibrium";
        parent_chain := "Th-232";
        inferred_parent := "Th-232";
        required_daughters := {["Ac-228"; "Pb-212"; "Tl-208"]};
        optional_daughters := {["Bi-212"; "Ra-224"]};
        description :=
          "Ac-228 + Pb-212 + Tl-208 indicates Th-232 chain in equilibrium" |});
    ("U-235_direct",
     {| name := "U-235 Direct";
        parent_chain := "U-235";
        inferred_parent := "U-235";
        required_daughters := {["U-235"]};
        optional_daughters := {["Th-231"; "Pa-231"]};
        description := "U-235 directly visible via 185.7 keV line" |}) ].

(** [len(s)] of a set, as a float operand. *)
Definition len (s : gset string) : Q := inject_Z (Z.of_nat (size s)).

(** One entry of the result list: (parent name, signature, confidence). *)
Definition Inference : Type := string * ChainSignature * Q.

Definition inf_parent (r : Inference) : string := r.1.1.
Definition inf_signature (r : Inference) : ChainSignature := r.1.2.
Definition inf_confidence (r : Inference) : Q := r.2.

(** The body of the loop over the registry: the entry appended for one
    signature, if any.  Both divisions are evaluated only under a guard that
    makes the divisor positive. *)
Definition match_signature
    (detected_isotopes : gset string) (signature : ChainSignature)
    : option Inference :=
  let required_found := detected_isotopes ∩ required_daughters signature in
  if bool_decide (0 < size required_found)%nat then
    let confidence := len required_found / len (required_daughters signature) in
    let optional_found := detected_isotopes ∩ optional_daughters signature in
    let confidence :=
      if bool_decide (0 < size (optional_daughters signature))%nat then
        let bonus :=
          0.1 * len optional_found / len (optional_daughters signature) in
        Qmin 1.0 (confidence + bonus)
      else confidence in
    Some (inferred_parent signature, signature, confidence)
  else None.

(** [results.sort(key=lambda x: x[2], reverse=True)]: Python's sort is
    stable, also under [reverse=True], so the result is the one list that is
    in descending key order and keeps entries of equal key in their original
    order.  Insertion from the right computes it. *)
Fixpoint insert_desc (x : Inference) (l : list Inference) : list Inference :=
  match l with
  | [] => [x]
  | y :: l' =>
      if Qlt_le_dec (inf_confidence x) (inf_confidence y)
      then y :: insert_desc x l'
      else x :: l
  end.

Definition sort_by_confidence_reverse (l : list Inference) : list Inference :=
  foldr insert_desc [] l.

Definition infer_parent_from (registry : list (string * ChainSignature))
    (detected_isotopes : gset string) : list Inference :=
  let results := omap (fun kv => match_signature detected_isotopes kv.2) registry in
  sort_by_confidence_reverse results.

Definition infer_parent_from_daughters (detected_isotopes : gset string)
    : list Inference :=
  infer_parent_from CHAIN_SIGNATURES detected_isotopes.

(** The confidence rule in the words of the specification:
    |required ∩ detected| / |required|, plus
    0.1 × (|optional ∩ detected| / |optional|) when the optional set is
    non-empty, capped at 1.0. *)
Definition spec_confidence
    (detected : gset string) (signature : ChainSignature) : Q :=
  let base :=
    len (required_daughters signature ∩ detected)
    / len (required_daughters signature) in
  let boost :=
    if decide (optional_daughters signature = ∅) then 0
    else 0.1 * (len (optional_daughters signature ∩ detected)
                / len (optional_daughters signature)) in
  Qmin 1 (base + boost).

(** The signatures a detected set matches, in registration order. *)
Definition matching_signatures (registry : list (string * ChainSignature))
    (detected : gset string) : list ChainSignature :=
  filter (fun s => required_daughters s ∩ detected ≠ ∅) (map snd registry).

(** *** Decay chains *)

Record DecayChainMember : Type := {
  isotope_name : string;
  branching_ratio : Q;
  decay_mode : string
}.

(** [DecayChainMember(name, decay_mode=m)]: the branching ratio keeps its
    default 1.0. *)
Definition member (n m : string) : DecayChainMember :=
  {| isotope_name := n; branching_ratio := 1.0; decay_mode := m |}.

(** [name] and [description] are taken by [ChainSignature] in this module;
    the chain's fields carry a [chain_] prefix. *)
Record DecayChain : Type := {
  chain_name : string;
  parent : string;
  members : list DecayChainMember;
  chain_description : string
}.

Definition get_member_names (self : DecayChain) : list string :=
  map isotope_name (members self).

(** The chain table, keyed by parent, in insertion order. *)
Definition DECAY_CHAINS : list (string * DecayChain) :=
  [ ("U-238",
     {| chain_name := "U-238 Decay Chain (Uranium Series)";
        parent := "U-238";
        chain_description := "14 step decay chain ending at stable Pb-206";
        members :=
          [ member "U-238" "alpha"; member "Th-234" "beta-";
            {| isotope_name := "Pa-234m"; branching_ratio := 0.998;
               decay_mode := "beta-" |};
            member "U-234" "alpha"; member "Th-230" "alpha";
            member "Ra-226" "alpha"; member "Rn-222" "alpha";
            member "Po-218" "alpha"; member "Pb-214" "beta-";
            {| isotope_name := "Bi-214"; branching_ratio := 0.9998;
               decay_mode := "beta-" |};
            member "Po-214" "alpha"; member "Pb-210" "beta-";
            member "Bi-210" "beta-"; member "Po-210" "alpha" ] |});
    ("Th-232",
     {| chain_name := "Th-232 Decay Chain (Thorium Series)";
        parent := "Th-232";
        chain_description := "10+ step decay chain ending at stable Pb-208";
        members :=
          [ member "Th-232" "alpha"; member "Ra-228" "beta-";
            member "Ac-228" "beta-"; member "Th-228" "alpha";
            member "Ra-224" "alpha"; member "Rn-220" "alpha";
            member "Po-216" "alpha"; member "Pb-212" "beta-";
            member "Bi-212" "beta-/alpha";
            {| isotope_name := "Tl-208"; branching_ratio := 0.3594;
               decay_mode := "beta-" |};
            {| isotope_name := "Po-212"; branching_ratio := 0.6406;
               decay_mode := "alpha" |} ] |});
    ("U-235",
     {| chain_name := "U-235 Decay Chain (Actinium Series)";
        parent := "U-235";
        chain_description := "11+ step decay chain ending at stable Pb-207";
        members :=
          [ member "U-235" "alpha"; member "Th-231" "beta-";
            member "Pa-231" "alpha"; member "Ac-227" "beta-/alpha";
            member "Pb-211" "beta-"; member "Bi-211" "alpha";
            member "Tl-207" "beta-" ] |});
    ("Cs-137",
     {| chain_name := "Cs-137 Decay";
        parent := "Cs-137";
        chain_description := "Cs-137 beta decay to Ba-137m metastable state";
        members := [ member "Cs-137" "beta-"; member "Ba-137m" "IT" ] |}) ].

(** [DECAY_CHAINS.get(name)] *)
Definition get_decay_chain (n : string) : option DecayChain :=
  snd <$> List.find (fun kv => String.eqb (fst kv) n) DECAY_CHAINS.

Definition get_chain_daughters (parent_name : string) (include_parent : bool)
    : list string :=
  match get_decay_chain parent_name with
  | None => if include_parent then [parent_name] else []
  | Some chain =>
      let daughters := get_member_names chain in
      match daughters with
      | first :: rest =>
          if negb include_parent && String.eqb first parent_name
          then rest else daughters
      | [] => daughters
      end
  end.

(** [get_equilibrium_ratios]: every member at ratio 1.0; an empty dict for
    an unregistered chain. *)
Definition get_equilibrium_ratios (chain : string) : gmap string Q :=
  match get_decay_chain chain with
  | None => ∅
  | Some c =>
      fold_left (fun d m => <[isotope_name m := 1.0]> d) (members c) ∅
  end.

(** [a] occurs at a smaller position of [l] than [b]. *)
Definition precedes {A} (l : list A) (a b : A) : Prop :=
  exists i j, (i < j)%nat /\ l !! i = Some a /\ l !! j = Some b.

(** Descending order of confidence. *)
Definition conf_ge (a b : Inference) : Prop :=
  inf_confidence b <= inf_confidence a.

End DecayChains.

(** ** generate_spectra_v4.py: master isotope index and the binary label codec *)

Module Labels.

Import IsotopeData.
Local Open Scope Q_scope.

(** [enumerate(l)] *)
Definition enumerate {A} (l : list A) : list (Z * A) :=
  imap (fun i x => (Z.of_nat i, x)) l.

(** A dict comprehension over a list of (key, value) pairs: a later pair
    overwrites an earlier one with the same key. *)
Definition dict_of_pairs `{Countable K} {V} (l : list (K * V)) : gmap K V :=
  fold_left (fun m kv => <[kv.1 := kv.2]> m) l ∅.

Definition _all_isotopes : list Isotope :=
  filter (fun iso => (0 < length (gamma_lines iso))%nat) get_all_isotopes.

Definition ISOTOPE_INDEX : gmap string Z :=
  dict_of_pairs (map (fun p => (name p.2, p.1)) (enumerate _all_isotopes)).

Definition INDEX_TO_ISOTOPE : gmap Z string :=
  dict_of_pairs (map (fun p => (p.1, name p.2)) (enumerate _all_isotopes)).

Definition NUM_ISOTOPES : nat := size ISOTOPE_INDEX.

(* The tables are closed terms: keep [simpl] from expanding them. *)
Arguments ISOTOPE_INDEX : simpl never.
Arguments INDEX_TO_ISOTOPE : simpl never.

(** [d.get(k, default)] *)
Definition dict_get `{Countable K} {V} (d : gmap K V) (k : K) (dflt : V) : V :=
  default dflt (d !! k).

(** A Python int as one byte, when it is in [range(256)]. *)
Definition byte_of_Z (v : Z) : option byte :=
  if (0 <=? v)%Z then Byte.of_N (Z.to_N v) else None.

Definition Z_of_byte (b : byte) : Z := Z.of_N (Byte.to_N b).

(** [data.append(v)] on a bytearray: [ValueError] outside [range(256)]. *)
Definition bytearray_append (data : list byte) (v : Z) : result (list byte) :=
  match byte_of_Z v with
  | Some b => Ok (data ++ [b])
  | None => Raise ValueError
  end.

(** [struct.pack('<H', v)]: two bytes, low byte first; [struct.error]
    outside [0, 65535]. *)
Definition struct_pack_H (v : Z) : result (list byte) :=
  if ((0 <=? v) && (v <=? 65535))%Z then
    match byte_of_Z (v mod 256), byte_of_Z (v / 256) with
    | Some lo, Some hi => Ok [lo; hi]
    | _, _ => Raise StructError
    end
  else Raise StructError.

(** [struct.unpack('<H', bs)[0]]: [struct.error] unless [bs] has two bytes. *)
Definition struct_unpack_H (bs : list byte) : result Z :=
  match bs with
  | [lo; hi] => Ok (Z_of_byte lo + 256 * Z_of_byte hi)%Z
  | _ => Raise StructError
  end.

(** [data[i]] on bytes: [IndexError] past the end. *)
Definition getitem (data : list byte) (i : nat) : result Z :=
  match data !! i with
  | Some b => Ok (Z_of_byte b)
  | None => Raise IndexError
  end.

(** [data[i:j]] *)
Definition slice (data : list byte) (i j : nat) : list byte :=
  take (j - i) (drop i data).

(** A [for] loop whose body updates one accumulator and may raise. *)
Fixpoint for_each {A B} (body : B -> A -> result B) (l : list A) (acc : B)
    : result B :=
  match l with
  | [] => Ok acc
  | x :: l' => acc' ← body acc x; for_each body l' acc'
  end.

(** The two statements that scale one activity to its uint16. *)
Definition scale_activity (activity : Q) : Z :=
  let scaled := py_int (Qmin activity 1000.0 * 65.535) in
  Z.max 0 (Z.min 65535 scaled).

Definition pack_labels
    (isotopes : list string) (activities : gmap string Q)
    (flags : gmap string bool) : result (list byte) :=
  let data := [] in
  let num_iso := Z.of_nat (length isotopes) in
  data ← bytearray_append data (Z.min num_iso 255);
  data ← for_each (fun data iso =>
            let idx := dict_get ISOTOPE_INDEX iso 0%Z in
            bytearray_append data idx)
          (take 255 isotopes) data;
  data ← for_each (fun data iso =>
            let activity := dict_get activities iso 0.0 in
            let scaled := scale_activity activity in
            packed ← struct_pack_H scaled;
            Ok (data ++ packed))
          (take 255 isotopes) data;
  let flag_byte := 0%Z in
  let flag_byte :=
    if dict_get flags "normalized" true then Z.lor flag_byte 1 else flag_byte in
  let flag_byte :=
    if dict_get flags "include_k40" true then Z.lor flag_byte 2 else flag_byte in
  let flag_byte :=
    if dict_get flags "include_radon" true then Z.lor flag_byte 4 else flag_byte in
  let flag_byte :=
    if dict_get flags "include_thorium" true then Z.lor flag_byte 8 else flag_byte in
  data ← bytearray_append data flag_byte;
  Ok data.

(** The dict [unpack_labels] returns. *)
Record Label : Type := {
  isotopes : list string;
  activities : gmap string Q;
  normalized : bool;
  include_k40 : bool;
  include_radon : bool;
  include_thorium : bool
}.

(** [INDEX_TO_ISOTOPE.get(idx, f"Unknown-{idx}")] *)
Definition isotope_of_index (idx : Z) : string :=
  dict_get INDEX_TO_ISOTOPE idx ("Unknown-" +:+ pretty idx).

(** First loop of [unpack_labels]: [num_iso] index bytes from [offset]. *)
Fixpoint read_isotopes (data : list byte) (num_iso : nat) (offset : nat)
    (acc : list string) : result (list string * nat) :=
  match num_iso with
  | O => Ok (acc, offset)
  | S n =>
      idx ← getitem data offset;
      read_isotopes data n (offset + 1) (acc ++ [isotope_of_index idx])
  end.

(** Second loop: one little-endian uint16 per decoded isotope name. *)
Fixpoint read_activities (data : list byte) (names : list string)
    (offset : nat) (acc : gmap string Q) : result (gmap string Q * nat) :=
  match names with
  | [] => Ok (acc, offset)
  | iso :: names' =>
      scaled ← struct_unpack_H (slice data offset (offset + 2));
      read_activities data names' (offset + 2)
        (<[iso := inject_Z scaled / 65.535]> acc)
  end.

(** [bool(flags & mask)] *)
Definition flag_set (flags mask : Z) : bool := negb (Z.land flags mask =? 0)%Z.

Definition unpack_labels (data : list byte) : result Label :=
  let offset := 0%nat in
  num_iso ← getitem data offset;
  let offset := (offset + 1)%nat in
  '(isotopes, offset) ← read_isotopes data (Z.to_nat num_iso) offset [];
  '(activities, offset) ← read_activities data isotopes offset ∅;
  flags ← getitem data offset;
  Ok {| isotopes := isotopes;
        activities := activities;
        normalized := flag_set flags 1;
        include_k40 := flag_set flags 2;
        include_radon := flag_set flags 4;
        include_thorium := flag_set flags 8 |}.

(** [round(x)]: the nearest integer, a half going to the even neighbour. *)
Definition py_round (x : Q) : Z :=
  let f := Qfloor x in
  match Qcompare (x - inject_Z f) (1 # 2) with
  | Lt => f
  | Gt => (f + 1)%Z
  | Eq => if Z.even f then f else (f + 1)%Z
  end.

(** [get_valid_isotopes]: the names of a pool that are in the index. *)
Definition get_valid_isotopes (isotope_list : list string) : list string :=
  filter (fun n => is_Some (ISOTOPE_INDEX !! n)) isotope_list.

(** *** Vocabulary for the layout of a packed label *)

(** The index byte written for a name: its index, or 0 when it has none. *)
Definition encode_index (iso : string) : Z := dict_get ISOTOPE_INDEX iso 0%Z.

(** The name the decoder gives back for a name that was encoded. *)
Definition decoded_name (iso : string) : string :=
  isotope_of_index (encode_index iso).

(** The byte of an int known to be in [range(256)]. *)
Definition byte_at (v : Z) : byte := default "000"%byte (byte_of_Z v).

Definition uint16_le (v : Z) : list byte :=
  [byte_at (v mod 256); byte_at (v / 256)].

Definition index_bytes (names : list string) : list byte :=
  map (fun iso => byte_at (encode_index iso)) names.

Definition stored_activity (activities : gmap string Q) (iso : string) : Z :=
  scale_activity (dict_get activities iso 0.0).

Definition activity_bytes (activities : gmap string Q) (names : list string)
    : list byte :=
  flat_map (fun iso => uint16_le (stored_activity activities iso)) names.

Definition flag_byte_of (flags : gmap string bool) : Z :=
  Z.lor (Z.lor (Z.lor (Z.lor 0
    (if dict_get flags "normalized" true then 1 else 0))
    (if dict_get flags "include_k40" true then 2 else 0))
    (if dict_get flags "include_radon" true then 4 else 0))
    (if dict_get flags "include_thorium" true then 8 else 0).

(** The activity dict the decoder builds from (name, stored value) pairs,
    assigned in order. *)
Definition assign_activities (pairs : list (string * Z)) (acc : gmap string Q)
    : gmap string Q :=
  fold_left (fun m p => <[p.1 := inject_Z p.2 / 65.535]> m) pairs acc.

(** A decoded activity is [v / 65.535] for a uint16 [v]. *)
Definition decoded_value (q : Q) : Prop :=
  exists v, (0 <= v <= 65535)%Z /\ q = inject_Z v / 65.535.

End Labels.

(** ** generator.py and generate_spectra_v4.py: sources and scenarios *)

Module Scenarios.

Import Labels.
Local Open Scope Q_scope.

(** [IsotopeSource] of generator.py. *)
Record IsotopeSource : Type := {
  isotope_name : string;
  activity_bq : Q;
  include_daughters : bool;
  activity_variation : Q
}.

(** [IsotopeSource(name, activity, include_daughters=d)]: the variation keeps
    its default 0.0. *)
Definition mk_source (n : string) (a : Q) (d : bool) : IsotopeSource :=
  {| isotope_name := n; activity_bq := a;
     include_daughters := d; activity_variation := 0.0 |}.

(** A [numpy.random.Generator]: each draw returns a value and the next
    state.  The bit generator behind it is numpy's, not the repository's. *)
Class Generator (G : Type) : Type := {
  (** [rng.random()] *)
  random : G -> Q * G;
  (** [rng.uniform(low, high)], for [low <= high] (numpy raises
      [ValueError] when [high < low]) *)
  uniform : Q -> Q -> G -> Q * G;
  (** [rng.integers(low, high)] *)
  integers : Z -> Z -> G -> Z * G;
  (** [rng.choice(n, p=probs)]: an index below [n] *)
  choice_index : nat -> list Q -> G -> nat * G;
  (** [rng.choice(pool)]: raises on an empty pool *)
  choice : list string -> G -> result string * G;
  (** [rng.choice(pool, size=k, replace=False)]: raises when [k] exceeds the
      pool *)
  choice_distinct : list string -> Z -> G -> result (list string) * G
}.

Definition CALIBRATION_ISOTOPES : list string :=
  ["Cs-137"; "Co-60"; "Am-241"; "Ba-133"; "Eu-152"; "Na-22"; "Co-57"; "Mn-54"].
Definition MEDICAL_ISOTOPES : list string :=
  ["Tc-99m"; "I-131"; "I-123"; "F-18"; "Ga-67"; "Ga-68"; "In-111"; "Lu-177";
   "Tl-201"].
Definition INDUSTRIAL_ISOTOPES : list string :=
  ["Ir-192"; "Se-75"; "Zn-65"; "Co-58"; "Cd-109"].
Definition URANIUM_238_CHAIN : list string :=
  ["U-238"; "Ra-226"; "Pb-214"; "Bi-214"].
Definition THORIUM_232_CHAIN : list string :=
  ["Th-232"; "Ac-228"; "Pb-212"; "Bi-212"; "Tl-208"].
Definition CHERNOBYL_FUKUSHIMA : list string := ["Cs-137"; "Cs-134"].
Definition FRESH_FALLOUT : list string :=
  ["I-131"; "Cs-137"; "Cs-134"; "Zr-95"; "Nb-95"].
Definition NORM_MATERIALS : list string := ["K-40"; "Ra-226"; "Th-232"; "U-238"].

Definition VALID_CALIBRATION := get_valid_isotopes CALIBRATION_ISOTOPES.
Definition VALID_MEDICAL := get_valid_isotopes MEDICAL_ISOTOPES.
Definition VALID_INDUSTRIAL := get_valid_isotopes INDUSTRIAL_ISOTOPES.
Definition VALID_U238_CHAIN := get_valid_isotopes URANIUM_238_CHAIN.
Definition VALID_TH232_CHAIN := get_valid_isotopes THORIUM_232_CHAIN.
Definition VALID_FALLOUT :=
  get_valid_isotopes (CHERNOBYL_FUKUSHIMA ++ FRESH_FALLOUT).
Definition VALID_NORM := get_valid_isotopes NORM_MATERIALS.

(** [x in pool] *)
Definition contains (pool : list string) (x : string) : bool :=
  bool_decide (x ∈ pool).

(** [x > y] on floats *)
Definition gt (x y : Q) : bool := if Qlt_le_dec y x then true else false.

(** [x < y] on floats *)
Definition lt (x y : Q) : bool := if Qlt_le_dec x y then true else false.

Section WithGenerator.

Context {G : Type} `{Generator G}.

Definition generate_fallout (rng : G) (activity_range : Q * Q)
    : list IsotopeSource * G :=
  let sources := [] in
  let '(cs137_activity, rng) := uniform activity_range.1 activity_range.2 rng in
  let '(age_factor, rng) := uniform 0.1 1.0 rng in
  let cs134_activity := cs137_activity * age_factor in
  let sources :=
    if contains VALID_FALLOUT "Cs-137"
    then sources ++ [mk_source "Cs-137" cs137_activity true]
    else sources in
  let sources :=
    if contains VALID_FALLOUT "Cs-134" && gt cs134_activity 0.5
    then sources ++ [mk_source "Cs-134" cs134_activity true]
    else sources in
  let '(u, rng) := random rng in
  if lt u 0.3 && contains VALID_FALLOUT "I-131" then
    let '(i131_activity, rng) := uniform 1 50 rng in
    (sources ++ [mk_source "I-131" i131_activity true], rng)
  else (sources, rng).

End WithGenerator.

(** A source list holds a source of the given isotope. *)
Definition has_source (n : string) (sources : list IsotopeSource) : Prop :=
  exists s, s ∈ sources /\ isotope_name s = n.

(** A generator that replays a fixed stream of unit variates; [uniform]
    scales a variate the way numpy does, [low + (high - low) * u]. *)
Record Tape : Type := { variates : nat -> Q; position : nat }.

Definition tape_next (t : Tape) : Q * Tape :=
  (variates t (position t),
   {| variates := variates t; position := S (position t) |}).

#[global] Instance tape_generator : Generator Tape := {|
  random := tape_next;
  uniform := fun low high t =>
    let '(u, t) := tape_next t in (low + (high - low) * u, t);
  integers := fun low high t =>
    let '(u, t) := tape_next t in
    ((low + Qfloor (inject_Z (high - low) * u))%Z, t);
  choice_index := fun n p t =>
    let '(u, t) := tape_next t in
    (Z.to_nat (Qfloor (inject_Z (Z.of_nat n) * u)), t);
  choice := fun pool t =>
    let '(u, t) := tape_next t in
    (match pool !! Z.to_nat (Qfloor (inject_Z (Z.of_nat (length pool)) * u)) with
     | Some x => Ok x
     | None => Raise ValueError
     end, t);
  choice_distinct := fun pool k t =>
    let '(u, t) := tape_next t in
    (if (k <=? Z.of_nat (length pool))%Z
     then Ok (take (Z.to_nat k) pool) else Raise ValueError, t)
|}.

(** The tape whose variates are the given list, then zeros. *)
Definition tape_of (l : list Q) : Tape :=
  {| variates := fun k => nth k l 0; position := 0 |}.

End Scenarios.

(** ** spectrum_physics.py (background, noise) and generator.py *)

Module Pipeline.

Import Config IsotopeData Physics Scenarios.
Local Open Scope R_scope.

(** numpy's process-global generator, the one behind [np.random.uniform],
    [np.random.poisson], [np.random.normal] and [np.random.randint]: each
    scalar draw returns a value and the next global state. *)
Class NumpyGlobal (St : Type) : Type := {
  np_random_uniform : R -> R -> St -> R * St;
  np_random_poisson : R -> St -> R * St;
  np_random_normal : R -> R -> St -> R * St;
  np_random_randint : Z -> Z -> St -> Z * St;
  np_random_seed : Z -> St -> St
}.

(** [list(set(l))]: the elements of [l] without repetition, in the order in
    which the interpreter iterates the set (an order the code does not
    choose). *)
Class SetOrder : Type := {
  set_to_list : gset string -> list string;
  set_to_list_perm : forall X, set_to_list X ≡ₚ elements X
}.

(** A flat array cut into rows of the lengths of [rows]. *)
Fixpoint reshape_like (rows : list ndarray) (flat : ndarray) : list ndarray :=
  match rows with
  | [] => []
  | r :: rows' =>
      take (length r) flat :: reshape_like rows' (drop (length r) flat)
  end.

(** [SpectrumConfig] of generator.py. *)
Record SpectrumConfig : Type := {
  duration_seconds : Q;
  time_interval_seconds : Q;
  sources : list IsotopeSource;
  include_background : bool;
  background_cps : Q;
  include_k40 : bool;
  include_radon : bool;
  include_thorium : bool;
  detector_name : string;
  apply_poisson : bool;
  apply_electronic : bool;
  electronic_noise_sigma : Q;
  normalize : bool;
  normalization_method : string
}.

(** The fields of [GeneratedSpectrum] that its users in this package read:
    the matrix (one row per time interval) and the two isotope lists. *)
Record GeneratedSpectrum : Type := {
  data : list ndarray;
  config : SpectrumConfig;
  isotopes_present : list string;
  background_isotopes : list string
}.

(** The attributes of a [SpectrumGenerator] instance. *)
Record SpectrumGenerator : Type := {
  detector_config : DetectorConfig;
  energy_bins : ndarray;
  num_channels : nat
}.

(** The [background_config] dict of [generate_single_interval]. *)
Record BackgroundConfig : Type := {
  bc_background_cps : Q;
  bc_include_k40 : bool;
  bc_include_radon : bool;
  bc_include_thorium : bool
}.

(** An empty dict: every [get] falls back to its default. *)
Definition default_background_config : BackgroundConfig :=
  {| bc_background_cps := 5.0; bc_include_k40 := true;
     bc_include_radon := true; bc_include_thorium := true |}.

(** The detector's bins as a float array. *)
Definition bins_of (cfg : DetectorConfig) : result ndarray :=
  bins ← get_energy_bins cfg; Ok (map Q2R bins).

(** The three assignments that bind a generator to a detector. *)
Definition bind_detector (cfg : DetectorConfig) : result SpectrumGenerator :=
  bins ← bins_of cfg;
  Ok {| detector_config := cfg; energy_bins := bins;
        num_channels := length bins |}.

(** *** Vocabulary for the isotope lists *)

(** The names one source adds to [source_isotopes]: its own when the
    database knows it, then those of its daughters that the database knows,
    when daughters are asked for. *)
Definition names_of_source (source : IsotopeSource) : list string :=
  match get_isotope (isotope_name source) with
  | None => []
  | Some iso =>
      isotope_name source ::
      (if include_daughters source
       then filter (fun d => is_Some (get_isotope d)) (daughters iso)
       else [])
  end.

(** The background isotopes reported for the three switches. *)
Definition background_names (k40 radon thorium : bool) : list string :=
  (if k40 then ["K-40"] else []) ++
  (if radon then ["Pb-214"; "Bi-214"] else []) ++
  (if thorium then ["Ac-228"; "Pb-212"; "Tl-208"] else []).

Section WithNumpy.

Context {St : Type} `{NumpyGlobal St} `{SetOrder}.

(** One draw per entry, in order: how numpy fills an array. *)
Fixpoint draw_each {A} (draw : A -> St -> R * St) (l : list A) (st : St)
    : ndarray * St :=
  match l with
  | [] => ([], st)
  | x :: l' =>
      let '(y, st) := draw x st in
      let '(ys, st) := draw_each draw l' st in
      (y :: ys, st)
  end.

(** One peak added in place: [background += generate_peak_spectrum(...)]. *)
Definition add_peak (energy_bins background : ndarray)
    (energy intensity_ activity duration : R)
    (detector_config : DetectorConfig) : ndarray :=
  ndarray_add background
    (generate_peak_spectrum energy_bins
       {| Physics.energy_kev := energy; Physics.intensity := intensity_;
          Physics.activity_bq := activity;
          Physics.live_time_s := duration |}
       (Some detector_config)).

(** A [for energy, intensity in lines] loop of peaks. *)
Definition add_peaks (energy_bins background : ndarray)
    (lines : list (R * R)) (activity duration : R)
    (detector_config : DetectorConfig) : ndarray :=
  fold_left (fun bg line =>
      add_peak energy_bins bg line.1 line.2 activity duration detector_config)
    lines background.

Definition generate_environmental_background (energy_bins : ndarray)
    (duration_seconds background_cps : R)
    (include_k40 include_radon include_thorium : bool)
    (detector_config : option DetectorConfig) (st : St)
    : (ndarray * list string) * St :=
  let cfg :=
    match detector_config with
    | None => get_default_config
    | Some c => c
    end in
  let background_isotopes := [] in
  let total_continuum_counts := background_cps * duration_seconds * 0.7 in
  let background :=
    generate_exponential_background energy_bins
      (total_continuum_counts / 500) 0.002 in
  let background :=
    if Rlt_dec 0 (ndarray_sum background)
    then map (fun x => x * (total_continuum_counts / ndarray_sum background))
             background
    else background in
  let '(background, background_isotopes, st) :=
    if include_k40 then
      let '(k40_activity, st) := np_random_uniform 0.5 5.0 st in
      (add_peak energy_bins background 1460.83 0.1066 k40_activity
         duration_seconds cfg,
       background_isotopes ++ ["K-40"%string], st)
    else (background, background_isotopes, st) in
  let '(background, background_isotopes, st) :=
    if include_radon then
      let '(radon_activity, st) := np_random_uniform 0.1 2.0 st in
      let background :=
        add_peaks energy_bins background
          [(295.22, 0.1842); (351.93, 0.356)]
          radon_activity duration_seconds cfg in
      let background :=
        add_peaks energy_bins background
          [(609.31, 0.4549); (1120.29, 0.1492); (1764.49, 0.1531)]
          radon_activity duration_seconds cfg in
      (background, background_isotopes ++ ["Pb-214"; "Bi-214"]%string, st)
    else (background, background_isotopes, st) in
  let '(background, background_isotopes, st) :=
    if include_thorium then
      let '(thorium_activity, st) := np_random_uniform 0.05 1.0 st in
      let background :=
        add_peak energy_bins background 911.20 0.258 thorium_activity
          duration_seconds cfg in
      let background :=
        add_peak energy_bins background 238.63 0.436 thorium_activity
          duration_seconds cfg in
      let background :=
        add_peaks energy_bins background
          [(583.19, 0.845 * 0.36); (2614.51, 0.998 * 0.36)]
          thorium_activity duration_seconds cfg in
      (background,
       background_isotopes ++ ["Ac-228"; "Pb-212"; "Tl-208"]%string, st)
    else (background, background_isotopes, st) in
  ((background, background_isotopes), st).

(** The counts are drawn from the global generator. *)
Definition apply_poisson_noise (spectrum : ndarray) (st : St) : ndarray * St :=
  let spectrum := map (Rmax 0) spectrum in
  draw_each np_random_poisson spectrum st.

(** Modelled for a [sigma] that is not negative: on a negative one
    [np.random.normal] raises [ValueError]. *)
Definition apply_electronic_noise (spectrum : ndarray) (sigma : R) (st : St)
    : ndarray * St :=
  let '(noise, st) :=
    draw_each (fun _ : R => np_random_normal 0 sigma) spectrum st in
  let result := ndarray_add spectrum noise in
  (map (Rmax 0) result, st).

(** [SpectrumGenerator(detector_config, random_seed)]: the global generator
    is seeded only when a seed is given. *)
Definition init (detector_config : option DetectorConfig)
    (random_seed : option Z) (st : St) : result SpectrumGenerator * St :=
  let cfg :=
    match detector_config with
    | None => get_default_config
    | Some c => c
    end in
  match bind_detector cfg with
  | Raise e => (Raise e, st)
  | Ok self =>
      (Ok self,
       match random_seed with
       | Some seed => np_random_seed seed st
       | None => st
       end)
  end.

(** All gamma lines of one isotope added to the spectrum. *)
Definition add_lines (self : SpectrumGenerator) (spectrum : ndarray)
    (lines : list GammaLine) (activity interval_duration : R) : ndarray :=
  add_peaks (energy_bins self) spectrum
    (map (fun line : GammaLine => (Q2R line.1, Q2R line.2)) lines)
    activity interval_duration (detector_config self).

(** The body of the loop over the daughters of a source. *)
Definition add_daughter (self : SpectrumGenerator)
    (activity interval_duration : R) (acc : ndarray * list string)
    (daughter_name : string) : ndarray * list string :=
  match get_isotope daughter_name with
  | Some daughter =>
      (add_lines self acc.1 (gamma_lines daughter) activity interval_duration,
       acc.2 ++ [daughter_name])
  | None => acc
  end.

(** The body of the loop over the sources of [generate_single_interval]. *)
Definition add_source (self : SpectrumGenerator) (interval_duration : R)
    (acc : ndarray * list string * St) (source : IsotopeSource)
    : ndarray * list string * St :=
  let '(spectrum, source_isotopes, st) := acc in
  match get_isotope (isotope_name source) with
  | None => (spectrum, source_isotopes, st)
  | Some iso =>
      let activity := Q2R (Scenarios.activity_bq source) in
      let '(activity, st) :=
        if Qlt_le_dec 0 (activity_variation source) then
          let '(u, st) :=
            np_random_uniform (- Q2R (activity_variation source))
              (Q2R (activity_variation source)) st in
          (activity * (1 + u), st)
        else (activity, st) in
      let spectrum :=
        add_lines self spectrum (gamma_lines iso) activity interval_duration in
      let source_isotopes := source_isotopes ++ [isotope_name source] in
      let '(spectrum, source_isotopes) :=
        if include_daughters source
           && negb (bool_decide (daughters iso = []))
        then
          fold_left (add_daughter self activity interval_duration)
            (daughters iso) (spectrum, source_isotopes)
        else (spectrum, source_isotopes) in
      (spectrum, source_isotopes, st)
  end.

Definition generate_single_interval (self : SpectrumGenerator)
    (srcs : list IsotopeSource) (interval_duration : Q)
    (with_background : bool) (background_config : option BackgroundConfig)
    (st : St) : (ndarray * list string * list string) * St :=
  let spectrum := repeat 0 (num_channels self) in
  let source_isotopes := [] in
  let background_isotopes := [] in
  let '(spectrum, background_isotopes, st) :=
    if with_background then
      let background_config :=
        match background_config with
        | None => default_background_config
        | Some c => c
        end in
      let '((bg_spectrum, bg_isotopes), st) :=
        generate_environmental_background (energy_bins self)
          (Q2R interval_duration)
          (Q2R (bc_background_cps background_config))
          (bc_include_k40 background_config)
          (bc_include_radon background_config)
          (bc_include_thorium background_config)
          (Some (detector_config self)) st in
      (ndarray_add spectrum bg_spectrum, bg_isotopes, st)
    else (spectrum, background_isotopes, st) in
  let '(spectrum, source_isotopes, st) :=
    fold_left (add_source self (Q2R interval_duration)) srcs
      (spectrum, source_isotopes, st) in
  ((spectrum, set_to_list (list_to_set source_isotopes), background_isotopes),
   st).

(** One turn of the loop over the time intervals of [generate_spectrum]. *)
Definition generate_row (self : SpectrumGenerator) (cfg : SpectrumConfig)
    (background_config : BackgroundConfig)
    (acc : list ndarray * list string * list string) (st : St)
    : (list ndarray * list string * list string) * St :=
  let '(rows, all_source_isotopes, all_background_isotopes) := acc in
  let '((spectrum, src_iso, bg_iso), st) :=
    generate_single_interval self (sources cfg)
      (time_interval_seconds cfg) (include_background cfg)
      (Some background_config) st in
  let '(spectrum, st) :=
    if apply_poisson cfg then apply_poisson_noise spectrum st
    else (spectrum, st) in
  let '(spectrum, st) :=
    if apply_electronic cfg
    then apply_electronic_noise spectrum
           (Q2R (electronic_noise_sigma cfg)) st
    else (spectrum, st) in
  ((rows ++ [spectrum], all_source_isotopes ++ src_iso,
    all_background_isotopes ++ bg_iso), st).

(** [for i in range(n)] *)
Fixpoint generate_rows (self : SpectrumGenerator) (cfg : SpectrumConfig)
    (background_config : BackgroundConfig) (n : nat)
    (acc : list ndarray * list string * list string) (st : St)
    : (list ndarray * list string * list string) * St :=
  match n with
  | O => (acc, st)
  | Datatypes.S n' =>
      let '(acc, st) := generate_row self cfg background_config acc st in
      generate_rows self cfg background_config n' acc st
  end.

(** The number of rows of the spectrogram. *)
Definition num_intervals_of (cfg : SpectrumConfig) : result Z :=
  q ← py_float_div (duration_seconds cfg) (time_interval_seconds cfg);
  let num_intervals := py_int q in
  Ok (if (num_intervals <? 1)%Z then 1%Z else num_intervals).

(** The generator after the "Set detector config" step. *)
Definition rebind (self : SpectrumGenerator) (cfg : SpectrumConfig)
    : result SpectrumGenerator :=
  match lookup_config (detector_name cfg) with
  | Some c => bind_detector c
  | None => Ok self
  end.

(** [generate_spectrum] returns the spectrum and leaves the generator bound
    to the detector of the configuration; the sample id, whose only trace
    here is its draw from the global generator, and the labels dict, which
    repeats the isotope lists, are left out of the result. *)
Definition generate_spectrum (self : SpectrumGenerator) (cfg : SpectrumConfig)
    (st : St) : result GeneratedSpectrum * St :=
  match num_intervals_of cfg with
  | Raise e => (Raise e, st)
  | Ok num_intervals =>
      match rebind self cfg with
      | Raise e => (Raise e, st)
      | Ok self =>
          let background_config :=
            {| bc_background_cps := background_cps cfg;
               bc_include_k40 := include_k40 cfg;
               bc_include_radon := include_radon cfg;
               bc_include_thorium := include_thorium cfg |} in
          let '((rows, all_source_isotopes, all_background_isotopes), st) :=
            generate_rows self cfg background_config (Z.to_nat num_intervals)
              ([], [], []) st in
          let spectrogram :=
            if normalize cfg then
              flat ← normalize_spectrum (concat rows) (normalization_method cfg);
              Ok (reshape_like rows flat)
            else Ok rows in
          match spectrogram with
          | Raise e => (Raise e, st)
          | Ok spectrogram =>
              let '(_, st) := np_random_randint 0 1000000 st in
              (Ok {| data := spectrogram;
                     config := cfg;
                     isotopes_present :=
                       set_to_list (list_to_set all_source_isotopes);
                     background_isotopes :=
                       set_to_list (list_to_set all_background_isotopes) |},
               st)
          end
      end
  end.

End WithNumpy.

(** A global generator that always returns the least value a draw may give:
    the lower bound of a range, a count of zero, the mean of a normal law.
    Its state is the number of draws made since it was seeded. *)
Definition least_draws : NumpyGlobal nat := {|
  np_random_uniform := fun low _ n => (low, Datatypes.S n);
  np_random_poisson := fun _ n => (0, Datatypes.S n);
  np_random_normal := fun loc _ n => (loc, Datatypes.S n);
  np_random_randint := fun low _ n => (low, Datatypes.S n);
  np_random_seed := fun _ _ => O
|}.

(** The iteration order that lists a set in the order of stdpp's
    [elements]. *)
Definition elements_order : SetOrder := {|
  set_to_list := elements;
  set_to_list_perm := fun X => reflexivity (elements X)
|}.

(** *** Examples *)


(** The same with a duration of 0.3 s cut into intervals of 0.1 s: two
    rows, since the binary64 quotient is just below 3. *)
Definition fractional_config : SpectrumConfig := {|
  duration_seconds := 0.3;
  time_interval_seconds := 0.1;
  sources := [mk_source "Cs-137" 50 true];
  include_background := true;
  background_cps := 5.0;
  include_k40 := true;
  include_radon := true;
  include_thorium := true;
  detector_name := "radiacode_103";
  apply_poisson := true;
  apply_electronic := true;
  electronic_noise_sigma := 0.5;
  normalize := true;
  normalization_method := "max"
|}.

(** A generator bound to a detector without channels. *)
Definition example_generator : SpectrumGenerator := {|
  detector_config := radiacode_101;
  energy_bins := [];
  num_channels := 0
|}.

End Pipeline.
(** ** generate_spectra_v4.py: the scenarios and the generation of a sample *)

Module SampleV4.

Import Config IsotopeData Physics Labels Scenarios Pipeline.
Local Open Scope Q_scope.

(** [np.random.default_rng(seed)], for a seed that is not negative (numpy
    raises [ValueError] on a negative one). *)
Class Seeded (G : Type) : Type := { default_rng : Z -> G }.

(** A function whose loop may not end is run with a bound on its turns. *)
Inductive run (A : Type) : Type :=
| Finished (a : A)
| OutOfFuel.

Arguments Finished {A} a.
Arguments OutOfFuel {A}.

(** The [config] dict of [generate_single_sample_v4]. *)
Record SampleConfig : Type := {
  base_seed : Z;
  detector_name : string;
  activity_range : Q * Q;
  bg_min : Q;
  bg_max : Q;
  output_dir : string
}.

(** A file written below [output_dir / "spectra"]. *)
Inductive File : Type :=
| NpyFile (file_name : string) (array : list ndarray)
| LblFile (file_name : string) (content : list byte).

(** [f"{n:08d}"] *)
Definition format_08d (n : Z) : string :=
  let digits := pretty (Z.abs n) in
  let sign := if (n <? 0)%Z then "-"%string else ""%string in
  let width := (8 - String.length sign)%nat in
  sign +:+ String.concat "" (repeat "0"%string (width - String.length digits))
       +:+ digits.

(** The dict comprehension [{s.isotope_name: s.activity_bq for s in sources}]. *)
Definition activities_of (sources : list IsotopeSource) : gmap string Q :=
  dict_of_pairs (map (fun s => (isotope_name s, Scenarios.activity_bq s)) sources).

(** The [flags] dict literal. *)
Definition flags_of (k40 radon thorium : bool) : gmap string bool :=
  dict_of_pairs
    [("normalized"%string, true); ("include_k40"%string, k40);
     ("include_radon"%string, radon); ("include_thorium"%string, thorium)].

(** *** Vocabulary for the files of a sample *)

Definition file_name_of (f : File) : string :=
  match f with
  | NpyFile n _ => n
  | LblFile n _ => n
  end.

(** The label files among the files written, with their contents. *)
Definition label_files (files : list File) : list (string * list byte) :=
  omap (fun f =>
      match f with
      | LblFile n content => Some (n, content)
      | NpyFile _ _ => None
      end) files.

Section WithGenerator.

Context {G : Type} `{Generator G} `{SetOrder}.

Definition ALL_VALID_ISOTOPES : list string :=
  set_to_list (list_to_set
    (VALID_CALIBRATION ++ VALID_MEDICAL ++ VALID_INDUSTRIAL ++
     VALID_U238_CHAIN ++ VALID_TH232_CHAIN ++ VALID_FALLOUT ++ VALID_NORM)).

Definition generate_background_sources (rng : G) : list IsotopeSource := [].

(** The scenario samplers are modelled for an activity range whose bounds
    are in order: on a range out of order [rng.uniform] raises
    [ValueError]. *)

(** One isotope picked from a pool, one activity drawn from a range, and the
    one-source list built from them. *)
Definition single_source (pool : list string) (range : Q * Q) (rng : G)
    : result (list IsotopeSource * G) :=
  let '(iso, rng) := choice pool rng in
  iso ← iso;
  let '(activity, rng) := uniform range.1 range.2 rng in
  Ok ([mk_source iso activity true], rng).

Definition generate_single_calibration (rng : G) (activity_range : Q * Q)
    : result (list IsotopeSource * G) :=
  single_source VALID_CALIBRATION activity_range rng.

Definition generate_single_medical (rng : G) (activity_range : Q * Q)
    : result (list IsotopeSource * G) :=
  if bool_decide (VALID_MEDICAL = []) then Ok ([], rng)
  else single_source VALID_MEDICAL activity_range rng.

Definition generate_single_industrial (rng : G) (activity_range : Q * Q)
    : result (list IsotopeSource * G) :=
  if bool_decide (VALID_INDUSTRIAL = []) then Ok ([], rng)
  else single_source VALID_INDUSTRIAL activity_range rng.

(** The loop of the two chain scenarios: every member at the base activity
    times a factor drawn for it. *)
Definition chain_sources (chain : list string) (rng : G)
    (activity_range : Q * Q) : list IsotopeSource * G :=
  let '(base_activity, rng) :=
    uniform activity_range.1 activity_range.2 rng in
  fold_left (fun (acc : list IsotopeSource * G) iso =>
      let '(sources, rng) := acc in
      let '(f, rng) := uniform 0.8 1.2 rng in
      let activity := base_activity * f in
      (sources ++ [mk_source iso activity false], rng))
    chain ([], rng).

Definition generate_uranium_chain (rng : G) (activity_range : Q * Q)
    : list IsotopeSource * G :=
  chain_sources VALID_U238_CHAIN rng activity_range.

Definition generate_thorium_chain (rng : G) (activity_range : Q * Q)
    : list IsotopeSource * G :=
  chain_sources VALID_TH232_CHAIN rng activity_range.

(** [for iso in selected]: one activity drawn per selected isotope. *)
Definition sources_of_selected (selected : list string) (rng : G)
    (range : Q * Q) : list IsotopeSource * G :=
  fold_left (fun (acc : list IsotopeSource * G) iso =>
      let '(sources, rng) := acc in
      let '(activity, rng) := uniform range.1 range.2 rng in
      (sources ++ [mk_source iso activity true], rng))
    selected ([], rng).

Definition generate_norm (rng : G) (activity_range : Q * Q)
    : result (list IsotopeSource * G) :=
  let '(num_isotopes, rng) := integers 2 5 rng in
  let '(selected, rng) :=
    choice_distinct VALID_NORM
      (Z.min num_isotopes (Z.of_nat (length VALID_NORM))) rng in
  selected ← selected;
  Ok (sources_of_selected selected rng activity_range).

Definition generate_mixed (rng : G) (activity_range : Q * Q)
    : result (list IsotopeSource * G) :=
  let '(num_isotopes, rng) := integers 2 4 rng in
  let '(selected, rng) :=
    choice_distinct ALL_VALID_ISOTOPES num_isotopes rng in
  selected ← selected;
  Ok (sources_of_selected selected rng activity_range).

(** First loop of [generate_complex]: one pick per pool until enough
    isotopes are selected. *)
Fixpoint complex_pools (pools : list (list string)) (num_isotopes : Z)
    (selected : gset string) (rng : G) : result (gset string * G) :=
  match pools with
  | [] => Ok (selected, rng)
  | pool :: pools' =>
      if (num_isotopes <=? Z.of_nat (size selected))%Z then Ok (selected, rng)
      else if bool_decide (pool = [])
      then complex_pools pools' num_isotopes selected rng
      else
        let '(iso, rng) := choice pool rng in
        iso ← iso;
        complex_pools pools' num_isotopes (selected ∪ {[iso]}) rng
  end.

(** Second loop: picks from all isotopes while too few are selected. *)
Fixpoint complex_fill (fuel : nat) (num_isotopes : Z)
    (selected : gset string) (rng : G) : run (result (gset string * G)) :=
  if (Z.of_nat (size selected) <? num_isotopes)%Z then
    match fuel with
    | O => OutOfFuel
    | S fuel' =>
        let '(iso, rng) := choice ALL_VALID_ISOTOPES rng in
        match iso with
        | Raise e => Finished (Raise e)
        | Ok iso => complex_fill fuel' num_isotopes (selected ∪ {[iso]}) rng
        end
    end
  else Finished (Ok (selected, rng)).

Definition generate_complex (fuel : nat) (rng : G) (activity_range : Q * Q)
    : run (result (list IsotopeSource * G)) :=
  let '(num_isotopes, rng) := integers 4 7 rng in
  let pools :=
    [VALID_CALIBRATION; VALID_MEDICAL; VALID_INDUSTRIAL; VALID_U238_CHAIN;
     VALID_TH232_CHAIN] in
  match complex_pools pools num_isotopes ∅ rng with
  | Raise e => Finished (Raise e)
  | Ok (selected, rng) =>
      match complex_fill fuel num_isotopes selected rng with
      | OutOfFuel => OutOfFuel
      | Finished (Raise e) => Finished (Raise e)
      | Finished (Ok (selected, rng)) =>
          Finished
            (Ok (sources_of_selected (set_to_list selected) rng activity_range))
      end
  end.

Definition generate_weak (rng : G) (activity_range : Q * Q)
    : result (list IsotopeSource * G) :=
  let weak_activity_range := (0.1, 5.0) in
  single_source ALL_VALID_ISOTOPES weak_activity_range rng.

(** A scenario function, called with the bound for its loop. *)
Definition scenario_func : Type :=
  nat -> G -> Q * Q -> run (result (list IsotopeSource * G)).

Definition SCENARIOS : list (string * Q * scenario_func) :=
  [ ("background"%string, 0.15,
       fun _ rng _ => Finished (Ok (generate_background_sources rng, rng)));
    ("calibration"%string, 0.20,
       fun _ rng r => Finished (generate_single_calibration rng r));
    ("medical"%string, 0.08,
       fun _ rng r => Finished (generate_single_medical rng r));
    ("industrial"%string, 0.05,
       fun _ rng r => Finished (generate_single_industrial rng r));
    ("uranium"%string, 0.10,
       fun _ rng r => Finished (Ok (generate_uranium_chain rng r)));
    ("thorium"%string, 0.10,
       fun _ rng r => Finished (Ok (generate_thorium_chain rng r)));
    ("norm"%string, 0.07, fun _ rng r => Finished (generate_norm rng r));
    ("fallout"%string, 0.05,
       fun _ rng r => Finished (Ok (generate_fallout rng r)));
    ("mixed"%string, 0.10, fun _ rng r => Finished (generate_mixed rng r));
    ("complex"%string, 0.05, generate_complex);
    ("weak"%string, 0.05, fun _ rng r => Finished (generate_weak rng r)) ].

(** [scenario_probs]: the fractions divided by their sum. *)
Definition scenario_probs : list Q :=
  let probs := map (fun s => s.1.2) SCENARIOS in
  let total := fold_right Qplus 0 probs in
  map (fun p => p / total) probs.

(** The "Select scenario" and "Generate sources" steps. *)
Definition select_sources (fuel : nat) (rng : G) (activity_range : Q * Q)
    : run (result (string * list IsotopeSource * G)) :=
  let '(scenario_idx, rng) :=
    choice_index (length SCENARIOS) scenario_probs rng in
  match SCENARIOS !! scenario_idx with
  | None => Finished (Raise IndexError)
  | Some (scenario_name, _, generator_func) =>
      if String.eqb scenario_name "background"
      then Finished (Ok (scenario_name, [], rng))
      else
        match generator_func fuel rng activity_range with
        | OutOfFuel => OutOfFuel
        | Finished (Raise e) => Finished (Raise e)
        | Finished (Ok (sources, rng)) =>
            Finished (Ok (scenario_name, sources, rng))
        end
  end.

(** [rng.uniform(low, high)] with the check numpy makes before it draws:
    [ValueError] when [high < low]. *)
Definition checked_uniform (low high : Q) (rng : G) : result (Q * G) :=
  if lt high low then Raise ValueError else Ok (uniform low high rng).

(** The "Background config" step and the configuration built from it. *)
Definition sample_spec_config (config : SampleConfig)
    (sources : list IsotopeSource) (rng : G) : result (SpectrumConfig * G) :=
  '(u, rng) ← checked_uniform (bg_min config) (bg_max config) rng;
  let bg_cps := u * 5.0 in
  let '(u, rng) := random rng in
  let include_k40 := lt u 0.95 in
  let '(u, rng) := random rng in
  let include_radon := lt u 0.80 in
  let '(u, rng) := random rng in
  let include_thorium := lt u 0.60 in
  let duration := 300.0 in
  Ok ({| duration_seconds := duration;
      time_interval_seconds := 1.0;
      sources := sources;
      include_background := true;
      background_cps := bg_cps;
      Pipeline.include_k40 := include_k40;
      Pipeline.include_radon := include_radon;
      Pipeline.include_thorium := include_thorium;
      Pipeline.detector_name := detector_name config;
      apply_poisson := true;
      apply_electronic := false;
      electronic_noise_sigma := 0.5;
      normalize := true;
      normalization_method := "max" |}, rng).

(** The "Save compact binary labels" step. *)
Definition sample_label (spectrum : GeneratedSpectrum)
    (sources : list IsotopeSource) (include_k40 include_radon include_thorium : bool)
    : result (list byte) :=
  let isotopes := isotopes_present spectrum in
  let activities := activities_of sources in
  let flags := flags_of include_k40 include_radon include_thorium in
  pack_labels isotopes activities flags.

Section WithNumpy.

Context {St : Type} `{NumpyGlobal St} `{Seeded G}.

(** [astype(np.float16)] of one value. *)
Variable float16 : R -> R.

(** The value returned, the files written and the state in which the
    global generator is left.  Every exception raised inside the [try] ends
    in the [except] branch, which returns [None]: the seeding, the
    construction of the generator, the choice of the sources, the draw of
    the background rate, the generation of the spectrum and the packing of
    the label.  The scenario samplers are modelled for an activity range
    whose bounds are in order, and the writing of the files is taken to
    succeed. *)
Definition generate_single_sample_v4 (fuel : nat) (sample_idx : Z)
    (config : SampleConfig) (st : St)
    : run (option string * list File * St) :=
  if (base_seed config + sample_idx <? 0)%Z then Finished (None, [], st)
  else
  let rng : G := default_rng (base_seed config + sample_idx) in
  let detector_config := lookup_config (detector_name config) in
  match init detector_config None st with
  | (Raise e, st) => Finished (None, [], st)
  | (Ok generator, st) =>
      match select_sources fuel rng (activity_range config) with
      | OutOfFuel => OutOfFuel
      | Finished (Raise e) => Finished (None, [], st)
      | Finished (Ok (scenario_name, sources, rng)) =>
          match sample_spec_config config sources rng with
          | Raise e => Finished (None, [], st)
          | Ok (spec_config, rng) =>
              match generate_spectrum generator spec_config st with
              | (Raise e, st) => Finished (None, [], st)
              | (Ok spectrum, st) =>
                  let sample_id := format_08d sample_idx in
                  let npy :=
                    NpyFile ("s" +:+ sample_id +:+ ".npy")
                      (map (map float16) (data spectrum)) in
                  match sample_label spectrum sources
                          (Pipeline.include_k40 spec_config)
                          (Pipeline.include_radon spec_config)
                          (Pipeline.include_thorium spec_config) with
                  | Raise e => Finished (None, [npy], st)
                  | Ok label_data =>
                      let lbl :=
                        LblFile ("s" +:+ sample_id +:+ ".lbl") label_data in
                      Finished (Some sample_id, [npy; lbl], st)
                  end
              end
          end
      end
  end.

End WithNumpy.

End WithGenerator.

(** A seeding of the tape generator, for the examples: the first variate is
    the last digit of the seed, as a tenth. *)
Definition tape_seeded : Seeded Tape := {|
  default_rng := fun seed =>
    tape_of [inject_Z (seed mod 10) / 10; 0.5; 0; 0.2; 0.4; 0.3; 0.5; 0.9;
             0.1; 0.7]
|}.


End SampleV4.
(** * Properties *)

(** ** Python primitives *)

Section PyPrimitives.

Local Open Scope Q_scope.

Lemma py_int_nonneg (x : Q) : 0 <= x -> py_int x = Qfloor x.
Proof.
  destruct x as [n d]. unfold Qle, py_int, Qfloor. simpl. intros H.
  apply Z.quot_div_nonneg; lia.
Qed.

Lemma py_int_floor_bounds (x : Q) :
  0 <= x -> inject_Z (py_int x) <= x /\ x < inject_Z (py_int x) + 1.
Proof.
  intros H. rewrite (py_int_nonneg x H). split.
  - apply Qfloor_le.
  - pose proof (Qlt_floor x) as Hlt. rewrite inject_Z_plus in Hlt. exact Hlt.
Qed.

Lemma py_int_neg (x : Q) : x <= 0 -> (py_int x <= 0)%Z.
Proof.
  destruct x as [n d]. unfold Qle, py_int. simpl. intros H.
  assert (Hn : (n <= 0)%Z) by lia.
  rewrite <- (Z.opp_involutive n), Z.quot_opp_l by lia.
  pose proof (Z.quot_pos (- n) (Z.pos d)). lia.
Qed.

Lemma py_div_ok (x y : Q) : ~ y == 0 -> py_div x y = Ok (x / y).
Proof.
  intros H. unfold py_div. destruct (Qeq_bool y 0) eqn:E; [|reflexivity].
  apply Qeq_bool_eq in E. contradiction.
Qed.

Lemma py_div_zero (x y : Q) : y == 0 -> py_div x y = Raise ZeroDivisionError.
Proof.
  intros H. unfold py_div. rewrite (Qeq_eq_bool _ _ H). reflexivity.
Qed.

End PyPrimitives.

(** ** Detector calibration *)

Section Calibration.

Import Config.
Local Open Scope Q_scope.

Variable cfg : DetectorConfig.
Hypothesis range_ok : energy_min_kev cfg < energy_max_kev cfg.
Hypothesis usable_ok : (1 <= usable_channels cfg)%Z.

Let n := num_channels cfg.

Lemma num_channels_pos : (0 < num_channels cfg)%Z.
Proof using usable_ok.
  unfold usable_channels in usable_ok. destruct (skip_first_channel cfg); lia.
Qed.

Lemma inject_num_channels_pos : 0 < inject_Z (num_channels cfg).
Proof using usable_ok.
  change 0 with (inject_Z 0). rewrite <- Zlt_Qlt. apply num_channels_pos.
Qed.

Lemma width_times_channels :
  channel_width cfg * inject_Z (num_channels cfg)
  == energy_max_kev cfg - energy_min_kev cfg.
Proof using usable_ok.
  unfold channel_width. field.
  pose proof inject_num_channels_pos. lra.
Qed.

Lemma channel_width_pos : 0 < channel_width cfg.
Proof using range_ok usable_ok.
  pose proof width_times_channels as H.
  pose proof inject_num_channels_pos as Hn.
  nra.
Qed.

Lemma get_channel_width_ok :
  get_channel_width_kev cfg = Ok (channel_width cfg).
Proof using usable_ok.
  unfold get_channel_width_kev, channel_width. apply py_div_ok.
  pose proof inject_num_channels_pos. lra.
Qed.

Lemma energy_to_channel_eq (E : Q) :
  energy_to_channel cfg E =
  Ok (Z.max 0 (Z.min (max_channel cfg)
        (py_int ((E - energy_min_kev cfg) / channel_width cfg)
         - (if skip_first_channel cfg then 1 else 0))%Z)).
Proof using range_ok usable_ok.
  unfold energy_to_channel. rewrite get_channel_width_ok. simpl.
  rewrite py_div_ok by (pose proof channel_width_pos; lra). simpl.
  unfold max_channel. destruct (skip_first_channel cfg); simpl.
  - reflexivity.
  - rewrite Z.sub_0_r. reflexivity.
Qed.

Lemma channel_to_energy_eq (c : Z) :
  channel_to_energy cfg c =
  Ok (energy_min_kev cfg
      + (inject_Z (Z.max 0 (Z.min (num_channels cfg - 1)
                     (c + (if skip_first_channel cfg then 1 else 0))%Z)) + 0.5)
        * channel_width cfg).
Proof using usable_ok.
  unfold channel_to_energy. rewrite get_channel_width_ok. reflexivity.
Qed.

Lemma get_energy_bins_length :
  exists bins, get_energy_bins cfg = Ok bins /\
               Z.of_nat (length bins) = usable_channels cfg.
Proof using usable_ok.
  unfold get_energy_bins. rewrite get_channel_width_ok. simpl.
  eexists. split; [reflexivity|].
  rewrite length_map. unfold arange. rewrite length_map, length_seq.
  unfold usable_channels in *. destruct (skip_first_channel cfg); lia.
Qed.

Lemma energy_to_channel_clamped (E : Q) :
  exists c, energy_to_channel cfg E = Ok c /\
            (0 <= c <= max_channel cfg)%Z.
Proof using range_ok usable_ok.
  rewrite energy_to_channel_eq. eexists. split; [reflexivity|].
  unfold max_channel, usable_channels in *.
  destruct (skip_first_channel cfg); lia.
Qed.

(** The round trip when the first raw channel is kept: the whole range. *)
Lemma calibration_roundtrip_keep_first (E : Q) :
  skip_first_channel cfg = false ->
  energy_min_kev cfg <= E <= energy_max_kev cfg ->
  roundtrip_within cfg E (channel_width cfg).
Proof using range_ok usable_ok.
  intros Hskip [Hlo Hhi].
  pose proof channel_width_pos as Hw.
  pose proof width_times_channels as Hwn.
  pose proof num_channels_pos as Hn.
  remember ((E - energy_min_kev cfg) / channel_width cfg) as x eqn:Hxdef.
  assert (Hx : x * channel_width cfg == E - energy_min_kev cfg).
  { rewrite Hxdef. field. lra. }
  assert (Hx0 : 0 <= x) by nra.
  destruct (py_int_floor_bounds x Hx0) as [Hk1 Hk2].
  assert (Hxn : x <= inject_Z (num_channels cfg)) by nra.
  assert (Hkn : (py_int x <= num_channels cfg)%Z).
  { rewrite Zle_Qle. lra. }
  assert (Hk0 : (0 <= py_int x)%Z).
  { rewrite (py_int_nonneg x Hx0). apply Qfloor_resp_le in Hx0.
    exact Hx0. }
  exists (Z.max 0 (Z.min (max_channel cfg) (py_int x - 0)%Z)).
  eexists. split; [|split].
  - rewrite energy_to_channel_eq, Hskip, <- Hxdef. reflexivity.
  - rewrite channel_to_energy_eq, Hskip. reflexivity.
  - unfold max_channel. rewrite Hskip. clear Hxdef.
    apply Qabs_Qlt_condition.
    destruct (Z.eq_dec (py_int x) (num_channels cfg)) as [Heq|Hne].
    + replace (Z.max 0 (Z.min (num_channels cfg - 1)
                 (Z.max 0 (Z.min (num_channels cfg - 1) (py_int x - 0)) + 0)))
        with (num_channels cfg - 1)%Z by lia.
      rewrite Heq in Hk1.
      unfold Z.sub. rewrite inject_Z_plus, inject_Z_opp.
      change (inject_Z 1) with 1.
      split; nra.
    + replace (Z.max 0 (Z.min (num_channels cfg - 1)
                 (Z.max 0 (Z.min (num_channels cfg - 1) (py_int x - 0)) + 0)))
        with (py_int x) by lia.
      split; nra.
Qed.

(** The round trip when the first raw channel is skipped: energies of the
    first raw channel land on usable channel 0, whose centre is one and a
    half widths above [energy_min_kev]. *)
Lemma calibration_roundtrip_skip_first (E : Q) :
  skip_first_channel cfg = true ->
  energy_min_kev cfg + channel_width cfg / 2 < E ->
  E <= energy_max_kev cfg ->
  roundtrip_within cfg E (channel_width cfg).
Proof using range_ok usable_ok.
  intros Hskip Hlo Hhi.
  pose proof channel_width_pos as Hw.
  pose proof width_times_channels as Hwn.
  assert (Hn : (2 <= num_channels cfg)%Z).
  { unfold usable_channels in usable_ok. rewrite Hskip in usable_ok. lia. }
  remember ((E - energy_min_kev cfg) / channel_width cfg) as x eqn:Hxdef.
  assert (Hx : x * channel_width cfg == E - energy_min_kev cfg).
  { rewrite Hxdef. field. lra. }
  assert (Hhalf : channel_width cfg / 2 == channel_width cfg * (1#2)) by field.
  assert (Hx0 : 0 <= x) by nra.
  destruct (py_int_floor_bounds x Hx0) as [Hk1 Hk2].
  assert (Hxn : x <= inject_Z (num_channels cfg)) by nra.
  assert (Hkn : (py_int x <= num_channels cfg)%Z).
  { rewrite Zle_Qle. lra. }
  assert (Hk0 : (0 <= py_int x)%Z).
  { rewrite (py_int_nonneg x Hx0). apply Qfloor_resp_le in Hx0.
    exact Hx0. }
  exists (Z.max 0 (Z.min (max_channel cfg) (py_int x - 1)%Z)).
  eexists. split; [|split].
  - rewrite energy_to_channel_eq, Hskip, <- Hxdef. reflexivity.
  - rewrite channel_to_energy_eq, Hskip. reflexivity.
  - unfold max_channel. rewrite Hskip. clear Hxdef.
    apply Qabs_Qlt_condition.
    destruct (Z.eq_dec (py_int x) 0%Z) as [Hz|Hnz];
      [|destruct (Z.eq_dec (py_int x) (num_channels cfg)) as [Heq|Hne]].
    + replace (Z.max 0 (Z.min (num_channels cfg - 1)
                 (Z.max 0 (Z.min (num_channels cfg - 2) (py_int x - 1)) + 1)))
        with 1%Z by lia.
      rewrite Hz in Hk2. change (inject_Z 0) with 0 in Hk2.
      change (inject_Z 1) with 1.
      split; nra.
    + replace (Z.max 0 (Z.min (num_channels cfg - 1)
                 (Z.max 0 (Z.min (num_channels cfg - 2) (py_int x - 1)) + 1)))
        with (num_channels cfg - 1)%Z by lia.
      rewrite Heq in Hk1.
      unfold Z.sub. rewrite inject_Z_plus, inject_Z_opp.
      change (inject_Z 1) with 1.
      split; nra.
    + replace (Z.max 0 (Z.min (num_channels cfg - 1)
                 (Z.max 0 (Z.min (num_channels cfg - 2) (py_int x - 1)) + 1)))
        with (py_int x) by lia.
      split; nra.
Qed.

End Calibration.

Section CalibrationClaims.

Import Config.
Local Open Scope Q_scope.

Lemma preset_cases (cfg : DetectorConfig) :
  is_preset cfg ->
  cfg = radiacode_101 \/ cfg = radiacode_102 \/ cfg = radiacode_103 \/
  cfg = radiacode_103g \/ cfg = radiacode_110.
Proof.
  unfold is_preset. simpl. intuition auto.
Qed.

Lemma preset_well_formed (cfg : DetectorConfig) :
  is_preset cfg ->
  energy_min_kev cfg < energy_max_kev cfg /\
  (1 <= usable_channels cfg)%Z /\
  skip_first_channel cfg = true.
Proof.
  intros H. apply preset_cases in H.
  destruct H as [->|[->|[->|[->| ->]]]];
    (split; [reflexivity | split; [vm_compute; discriminate | reflexivity]]).
Qed.

(** C3, as stated, fails: at [E = energy_min_kev] of the Radiacode 103 preset
    the round trip returns the centre of usable channel 0, one and a half
    channel widths above [E]. *)
Lemma calibration_roundtrip_fails_at_energy_min :
  is_preset radiacode_103 /\
  energy_min_kev radiacode_103 <= 20 <= energy_max_kev radiacode_103 /\
  energy_to_channel radiacode_103 20 = Ok 0%Z /\
  ~ roundtrip_within radiacode_103 20 (channel_width radiacode_103).
Proof.
  split; [unfold is_preset; simpl; tauto|].
  split; [split; vm_compute; discriminate|].
  split; [reflexivity|].
  intros (c & e & Hc & He & Habs).
  vm_compute in Hc. injection Hc as <-.
  vm_compute in He. injection He as <-.
  vm_compute in Habs. discriminate.
Qed.

(** C3 (amended): for every detector preset and every energy [E] with
    [energy_min_kev + width/2 < E <= energy_max_kev],
    [channel_to_energy (energy_to_channel E)] differs from [E] by less than
    one channel width. *)
Theorem calibration_roundtrip_presets (cfg : DetectorConfig) (E : Q) :
  is_preset cfg ->
  energy_min_kev cfg + channel_width cfg / 2 < E ->
  E <= energy_max_kev cfg ->
  exists c e,
    energy_to_channel cfg E = Ok c /\
    channel_to_energy cfg c = Ok e /\
    Qabs (e - E) < channel_width cfg.
Proof.
  intros Hp Hlo Hhi.
  destruct (preset_well_formed cfg Hp) as (Hr & Hu & Hs).
  exact (calibration_roundtrip_skip_first cfg Hr Hu E Hs Hlo Hhi).
Qed.

Lemma calibration_roundtrip_presets_witness :
  is_preset radiacode_103g /\
  energy_min_kev radiacode_103g + channel_width radiacode_103g / 2 < 661.657 /\
  661.657 <= energy_max_kev radiacode_103g /\
  exists c e,
    energy_to_channel radiacode_103g 661.657 = Ok c /\
    channel_to_energy radiacode_103g c = Ok e /\
    Qabs (e - 661.657) < channel_width radiacode_103g.
Proof.
  assert (Hp : is_preset radiacode_103g) by (unfold is_preset; simpl; tauto).
  assert (Hlo : energy_min_kev radiacode_103g
                + channel_width radiacode_103g / 2 < 661.657)
    by reflexivity.
  assert (Hhi : 661.657 <= energy_max_kev radiacode_103g)
    by (vm_compute; discriminate).
  split; [exact Hp|]. split; [exact Hlo|]. split; [exact Hhi|].
  exact (calibration_roundtrip_presets radiacode_103g 661.657 Hp Hlo Hhi).
Defined.

(** C10, as stated, fails on a configuration without usable channels, which
    the invariant of the data model ([energy_min_kev < energy_max_kev],
    [num_channels > 0]) allows: with one channel and the first channel
    skipped, [energy_to_channel] returns 0, which is above
    [num_channels - 2] and is no position of the empty array of usable
    channels. *)
Lemma energy_to_channel_without_usable_channel :
  energy_min_kev single_channel < energy_max_kev single_channel /\
  (0 < num_channels single_channel)%Z /\
  skip_first_channel single_channel = true /\
  energy_to_channel single_channel 100 = Ok 0%Z /\
  ~ (0 <= 0 <= num_channels single_channel - 2)%Z /\
  get_energy_bins single_channel = Ok [] /\
  (@nil Q) !! Z.to_nat 0 = None.
Proof.
  split; [reflexivity|]. split; [reflexivity|]. split; [reflexivity|].
  split; [vm_compute; reflexivity|].
  split; [cbn [num_channels single_channel]; lia|].
  split; [vm_compute; reflexivity | reflexivity].
Qed.

(** C10 (amended): for a configuration with [energy_min_kev < energy_max_kev]
    and at least one usable channel, and for every energy (inside the range
    or not), [energy_to_channel] returns an index between 0 and
    [num_channels - 2] when the first channel is skipped, between 0 and
    [num_channels - 1] otherwise, and that index is a valid position of the
    array of usable channels. *)
Theorem energy_to_channel_in_bounds (cfg : DetectorConfig) (E : Q) :
  energy_min_kev cfg < energy_max_kev cfg ->
  (1 <= usable_channels cfg)%Z ->
  exists c bins,
    energy_to_channel cfg E = Ok c /\
    (if skip_first_channel cfg
     then (0 <= c <= num_channels cfg - 2)%Z
     else (0 <= c <= num_channels cfg - 1)%Z) /\
    get_energy_bins cfg = Ok bins /\
    is_Some (bins !! Z.to_nat c).
Proof.
  intros Hr Hu.
  destruct (energy_to_channel_clamped cfg Hr Hu E) as (c & Hc & Hb).
  destruct (get_energy_bins_length cfg Hu) as (bins & Hbins & Hlen).
  exists c, bins. split; [exact Hc|]. split; [|split; [exact Hbins|]].
  - unfold max_channel in Hb. destruct (skip_first_channel cfg); exact Hb.
  - apply lookup_lt_is_Some.
    unfold max_channel, usable_channels in *.
    destruct (skip_first_channel cfg); lia.
Qed.

Lemma energy_to_channel_in_bounds_witness :
  energy_min_kev radiacode_110 < energy_max_kev radiacode_110 /\
  (1 <= usable_channels radiacode_110)%Z /\
  exists c bins,
    energy_to_channel radiacode_110 (-5) = Ok c /\
    (if skip_first_channel radiacode_110
     then (0 <= c <= num_channels radiacode_110 - 2)%Z
     else (0 <= c <= num_channels radiacode_110 - 1)%Z) /\
    get_energy_bins radiacode_110 = Ok bins /\
    is_Some (bins !! Z.to_nat c).
Proof.
  assert (Hr : energy_min_kev radiacode_110 < energy_max_kev radiacode_110)
    by reflexivity.
  assert (Hu : (1 <= usable_channels radiacode_110)%Z)
    by (vm_compute; discriminate).
  split; [exact Hr|]. split; [exact Hu|].
  exact (energy_to_channel_in_bounds radiacode_110 (-5) Hr Hu).
Defined.

End CalibrationClaims.

(** ** Detector efficiency *)

Section Efficiency.

Import Config Physics.
Local Open Scope R_scope.

Lemma clip_unit_bounds (x : R) : 0 <= Rmax 0.0 (Rmin 1.0 x) <= 1.
Proof.
  unfold Rmax, Rmin.
  destruct (Rle_dec 1.0 x); destruct (Rle_dec 0.0 _); lra.
Qed.

Lemma detector_efficiency_unit (E : R) (cfg : option DetectorConfig) :
  0 <= detector_efficiency E cfg <= 1.
Proof.
  unfold detector_efficiency.
  destruct (Rlt_dec E 20); [lra|]. apply clip_unit_bounds.
Qed.

Lemma detector_efficiency_cutoff (E : R) (cfg : option DetectorConfig) :
  E < 20 -> detector_efficiency E cfg = 0.
Proof.
  intros H. unfold detector_efficiency.
  destruct (Rlt_dec E 20); [reflexivity | contradiction].
Qed.

Lemma exp_neg_lt_1 (x : R) : 0 < x -> exp (- x) < 1.
Proof.
  intros H. rewrite <- exp_0. apply exp_increasing. lra.
Qed.

Lemma py_pow_nonneg (x y : R) : 0 <= py_pow x y.
Proof.
  unfold py_pow. destruct (Rle_dec x 0); [lra|].
  unfold Rpower. left. apply exp_pos.
Qed.

Lemma py_pow_pos (x y : R) : 0 < x -> 0 < py_pow x y.
Proof.
  intros Hx. unfold py_pow. destruct (Rle_dec x 0); [lra|].
  unfold Rpower. apply exp_pos.
Qed.

Lemma volume_Q2R_pos (c : DetectorConfig) :
  (0 < detector_volume_cm3 c)%Q -> 0 < Q2R (detector_volume_cm3 c) / 1.0.
Proof.
  intros Hv. apply Qlt_Rlt in Hv. rewrite RMicromega.Q2R_0 in Hv. lra.
Qed.

(** From the cutoff upward the modelled efficiency is strictly positive, on
    a detector of positive volume. *)
Lemma detector_efficiency_pos (E : R) (cfg : option DetectorConfig) :
  (0 < detector_volume_cm3 (config_or_default cfg))%Q ->
  20 <= E -> 0 < detector_efficiency E cfg.
Proof.
  intros Hv HE. unfold detector_efficiency.
  destruct (Rlt_dec E 20) as [H|_]; [lra|].
  set (vf := py_pow _ _).
  assert (Hvf : 0 < Rmin 1.0 vf).
  { pose proof (py_pow_pos _ (1 / 3)
                  (volume_Q2R_pos (config_or_default cfg) Hv)) as Hp.
    change (py_pow _ _) with vf in Hp.
    unfold Rmin. destruct (Rle_dec 1.0 vf); lra. }
  assert (Hlow : exp (- E / 50.0) < 1).
  { replace (- E / 50.0) with (- (E / 50)) by lra.
    apply exp_neg_lt_1. lra. }
  pose proof (exp_pos (- E / 2000.0)) as Hhigh.
  set (a := exp (- E / 50.0)) in *.
  set (b := exp (- E / 2000.0)) in *.
  set (m := Rmin 1.0 vf) in *.
  assert (Hpos : 0 < 0.8 * (1 - a) * b * m).
  { apply Rmult_lt_0_compat; [|exact Hvf].
    apply Rmult_lt_0_compat; [|exact Hhigh]. lra. }
  unfold Rmax, Rmin.
  destruct (Rle_dec 1.0 (0.8 * (1 - a) * b * m));
    destruct (Rle_dec 0.0 _); lra.
Qed.

(** C5, as stated, fails: the Radiacode 103G preset starts at 25 keV, and at
    22 keV, below that minimum, the efficiency is not zero. *)
Lemma detector_efficiency_nonzero_below_103g_minimum :
  22 < Q2R (energy_min_kev radiacode_103g) /\
  detector_efficiency 22 (Some radiacode_103g) <> 0.
Proof.
  split.
  - unfold Q2R. simpl. lra.
  - assert (Hv : (0 < detector_volume_cm3
                        (config_or_default (Some radiacode_103g)))%Q)
      by reflexivity.
    pose proof (detector_efficiency_pos 22 (Some radiacode_103g) Hv) as H. lra.
Qed.

(** C5 (amended): for every detector configuration whose volume is not
    negative and every energy, [detector_efficiency] lies in [0, 1]; and for
    every energy strictly below 20 keV, the cutoff written in the function,
    it equals 0. *)
Theorem detector_efficiency_bounds (E : R) (cfg : option DetectorConfig) :
  (0 <= detector_volume_cm3 (config_or_default cfg))%Q ->
  (0 <= E -> 0 <= detector_efficiency E cfg <= 1) /\
  (E < 20 -> detector_efficiency E cfg = 0).
Proof.
  intros _. split.
  - intros _. apply detector_efficiency_unit.
  - apply detector_efficiency_cutoff.
Qed.

Lemma detector_efficiency_bounds_witness :
  (0 <= 19 /\ 19 < 20) /\
  0 <= detector_efficiency 19 (Some radiacode_103g) <= 1 /\
  detector_efficiency 19 (Some radiacode_103g) = 0.
Proof.
  assert (H0 : 0 <= 19) by lra.
  assert (H1 : 19 < 20) by lra.
  assert (Hv : (0 <= detector_volume_cm3
                        (config_or_default (Some radiacode_103g)))%Q)
    by (vm_compute; discriminate).
  destruct (detector_efficiency_bounds 19 (Some radiacode_103g) Hv) as [Hb Hz].
  split; [split; [exact H0 | exact H1]|].
  split; [exact (Hb H0) | exact (Hz H1)].
Defined.

End Efficiency.

(** ** Normalisation *)

Section Normalisation.

Import Physics.
Local Open Scope R_scope.

Lemma ndarray_max_nonempty (a : ndarray) :
  a <> [] -> exists m, ndarray_max a = Ok m.
Proof.
  destruct a as [|x xs]; [congruence|]. intros _. eexists. reflexivity.
Qed.

Lemma ndarray_sum_div (a : ndarray) (c : R) :
  ndarray_sum (ndarray_div a c) = ndarray_sum a / c.
Proof.
  unfold ndarray_sum, ndarray_div.
  induction a as [|x xs IH]; simpl.
  - lra.
  - rewrite IH. lra.
Qed.

Lemma normalize_known_method (spectrum : ndarray) (method : string) :
  spectrum <> [] -> In method normalization_methods ->
  exists r, normalize_spectrum spectrum method = Ok r.
Proof.
  intros Hne Hin. unfold normalization_methods in Hin. simpl in Hin.
  assert (Hlog : map (fun x => ln (1 + x)) spectrum <> []).
  { destruct spectrum; [congruence|discriminate]. }
  assert (Hsqrt : map sqrt spectrum <> []).
  { destruct spectrum; [congruence|discriminate]. }
  destruct (ndarray_max_nonempty _ Hne) as [m Hm].
  destruct (ndarray_max_nonempty _ Hlog) as [ml Hml].
  destruct (ndarray_max_nonempty _ Hsqrt) as [ms Hms].
  destruct Hin as [<-|[<-|[<-|[<-|[]]]]]; unfold normalize_spectrum; simpl.
  - rewrite Hm. simpl. destruct (Rlt_dec 0 m); eexists; reflexivity.
  - destruct (Rlt_dec 0 _); eexists; reflexivity.
  - rewrite Hml. simpl. destruct (Rlt_dec 0 ml); eexists; reflexivity.
  - rewrite Hms. simpl. destruct (Rlt_dec 0 ms); eexists; reflexivity.
Qed.

Lemma normalize_unknown_method (spectrum : ndarray) (method : string) :
  ~ In method normalization_methods ->
  normalize_spectrum spectrum method = Raise ValueError.
Proof.
  intros Hnin. unfold normalization_methods in Hnin. simpl in Hnin.
  unfold normalize_spectrum.
  destruct (String.eqb_spec method "max"); [subst; tauto|].
  destruct (String.eqb_spec method "sum"); [subst; tauto|].
  destruct (String.eqb_spec method "log"); [subst; tauto|].
  destruct (String.eqb_spec method "sqrt"); [subst; tauto|].
  reflexivity.
Qed.

Lemma normalize_sum_total (spectrum : ndarray) :
  0 < ndarray_sum spectrum ->
  exists r, normalize_spectrum spectrum "sum" = Ok r /\ ndarray_sum r = 1.
Proof.
  intros Hpos. unfold normalize_spectrum. simpl.
  destruct (Rlt_dec 0 (ndarray_sum spectrum)); [|contradiction].
  eexists. split; [reflexivity|].
  rewrite ndarray_sum_div. field. lra.
Qed.

(** C8, as stated, fails: on a zero-size spectrum the "max" method raises,
    although "max" is one of the four supported methods. *)
Lemma normalize_spectrum_empty_max_raises :
  In "max"%string normalization_methods /\
  normalize_spectrum [] "max" = Raise ValueError.
Proof.
  split; [simpl; tauto | reflexivity].
Qed.

(** C8 (amended): for every non-empty spectrum, [normalize_spectrum] returns
    a result when the method is one of "max", "sum", "log", "sqrt" and
    raises an error exactly when it is any other string; with the "sum"
    method on a spectrum of positive total the returned values sum to 1. *)
Theorem normalize_spectrum_methods (spectrum : ndarray) (method : string) :
  spectrum <> [] ->
  (In method normalization_methods ->
   exists r, normalize_spectrum spectrum method = Ok r) /\
  (~ In method normalization_methods ->
   normalize_spectrum spectrum method = Raise ValueError) /\
  (0 < ndarray_sum spectrum ->
   exists r, normalize_spectrum spectrum "sum" = Ok r /\ ndarray_sum r = 1).
Proof.
  intros Hne. split; [|split].
  - apply normalize_known_method. exact Hne.
  - apply normalize_unknown_method.
  - apply normalize_sum_total.
Qed.

Lemma normalize_spectrum_methods_witness :
  [3; 1] <> [] /\
  ((In "sum"%string normalization_methods ->
    exists r, normalize_spectrum [3; 1] "sum" = Ok r) /\
   (~ In "sum"%string normalization_methods ->
    normalize_spectrum [3; 1] "sum" = Raise ValueError) /\
   (0 < ndarray_sum [3; 1] ->
    exists r, normalize_spectrum [3; 1] "sum" = Ok r /\ ndarray_sum r = 1)).
Proof.
  assert (H : [3; 1] <> ([] : ndarray)) by discriminate.
  split; [exact H|].
  exact (normalize_spectrum_methods [3; 1] "sum" H).
Defined.

End Normalisation.

(** ** Parent inference from detected daughters *)

Section SortByConfidence.

Import DecayChains.
Local Open Scope Q_scope.

Lemma precedes_cons {A} (y : A) (l : list A) (a b : A) :
  precedes (y :: l) a b <-> (a = y /\ b ∈ l) \/ precedes l a b.
Proof.
  split.
  - intros (i & j & Hij & Hi & Hj).
    destruct j as [|j]; [lia|]. simpl in Hj.
    destruct i as [|i]; simpl in Hi.
    + left. split; [congruence|]. apply list_elem_of_lookup. eauto.
    + right. exists i, j. split; [lia|]. auto.
  - intros [[-> Hb]|(i & j & Hij & Hi & Hj)].
    + apply list_elem_of_lookup in Hb as [j Hj].
      exists 0%nat, (S j). split; [lia|]. auto.
    + exists (S i), (S j). split; [lia|]. auto.
Qed.

Lemma precedes_nil {A} (a b : A) : ~ precedes [] a b.
Proof.
  intros (i & j & _ & Hi & _). rewrite lookup_nil in Hi. discriminate.
Qed.

Lemma insert_desc_perm (x : Inference) (l : list Inference) :
  insert_desc x l ≡ₚ x :: l.
Proof.
  induction l as [|y l IH]; simpl; [reflexivity|].
  destruct (Qlt_le_dec _ _); [|reflexivity].
  rewrite IH. apply Permutation_swap.
Qed.

Lemma sort_perm (l : list Inference) : sort_by_confidence_reverse l ≡ₚ l.
Proof.
  induction l as [|x l IH]; simpl; [reflexivity|].
  rewrite insert_desc_perm, IH. reflexivity.
Qed.

Lemma insert_desc_sorted (x : Inference) (l : list Inference) :
  StronglySorted conf_ge l -> StronglySorted conf_ge (insert_desc x l).
Proof.
  induction 1 as [|y l Hs IH Hy]; simpl.
  - repeat constructor.
  - destruct (Qlt_le_dec _ _) as [Hlt|Hle].
    + constructor; [exact IH|].
      rewrite insert_desc_perm. constructor; [|exact Hy].
      unfold conf_ge. apply Qlt_le_weak. exact Hlt.
    + constructor; [constructor; assumption|].
      constructor; [exact Hle|].
      eapply Forall_impl; [exact Hy|].
      unfold conf_ge. intros z Hz. eapply Qle_trans; eassumption.
Qed.

Lemma sort_sorted (l : list Inference) :
  StronglySorted conf_ge (sort_by_confidence_reverse l).
Proof.
  induction l as [|x l IH]; simpl; [constructor|].
  apply insert_desc_sorted. exact IH.
Qed.

Lemma sorted_precedes (l : list Inference) (a b : Inference) :
  StronglySorted conf_ge l -> precedes l a b -> conf_ge a b.
Proof.
  induction 1 as [|y l Hs IH Hy]; intros Hp.
  - destruct (precedes_nil _ _ Hp).
  - apply precedes_cons in Hp as [[-> Hb]|Hp]; [|auto].
    rewrite Forall_forall in Hy. apply Hy. exact Hb.
Qed.

Lemma insert_desc_precedes (x : Inference) (l : list Inference) (a b : Inference) :
  precedes (insert_desc x l) a b ->
  precedes l a b \/
  (a = x /\ b ∈ l) \/
  (b = x /\ a ∈ l /\ inf_confidence x < inf_confidence a).
Proof.
  induction l as [|y l IH]; simpl; intros Hp.
  - apply precedes_cons in Hp as [[_ Hb]|Hp].
    + inversion Hb.
    + destruct (precedes_nil _ _ Hp).
  - destruct (Qlt_le_dec _ _) as [Hlt|Hle].
    + apply precedes_cons in Hp as [[-> Hb]|Hp].
      * rewrite insert_desc_perm in Hb.
        apply elem_of_cons in Hb as [->|Hb].
        -- right. right. split; [reflexivity|]. split; [left|exact Hlt].
        -- left. apply precedes_cons. left. auto.
      * destruct (IH Hp) as [H|[[-> H]|(-> & H & Hc)]].
        -- left. apply precedes_cons. right. exact H.
        -- right. left. split; [reflexivity|]. right. exact H.
        -- right. right. split; [reflexivity|]. split; [right; exact H|exact Hc].
    + apply precedes_cons in Hp as [[-> Hb]|Hp]; [right; left|left]; auto.
Qed.

(** Stability: entries of equal confidence keep their original order. *)
Lemma sort_stable (l : list Inference) (a b : Inference) :
  precedes (sort_by_confidence_reverse l) a b ->
  inf_confidence a == inf_confidence b ->
  precedes l a b.
Proof.
  induction l as [|x l IH]; simpl; intros Hp Heq.
  - destruct (precedes_nil _ _ Hp).
  - apply insert_desc_precedes in Hp as [H|[[-> H]|(-> & _ & Hc)]].
    + apply precedes_cons. right. auto.
    + apply precedes_cons. left. split; [reflexivity|].
      rewrite sort_perm in H. exact H.
    + rewrite Heq in Hc. destruct (Qlt_irrefl _ Hc).
Qed.

End SortByConfidence.

Section ParentInference.

Import DecayChains.
Local Open Scope Q_scope.

Variable detected : gset string.

Lemma len_pos (s : gset string) : (0 < size s)%nat -> 0 < len s.
Proof.
  intros H. unfold len. change 0 with (inject_Z 0).
  rewrite <- Zlt_Qlt. lia.
Qed.

Lemma len_subseteq (s t : gset string) : s ⊆ t -> len s <= len t.
Proof.
  intros H. unfold len. rewrite <- Zle_Qle.
  apply subseteq_size in H. lia.
Qed.

Lemma match_signature_Some (s : ChainSignature) :
  required_daughters s ∩ detected ≠ ∅ ->
  exists c, match_signature detected s = Some (inferred_parent s, s, c).
Proof.
  intros Hne. unfold match_signature.
  rewrite bool_decide_eq_true_2; [eexists; reflexivity|].
  assert (Hs : size (detected ∩ required_daughters s) ≠ 0%nat).
  { apply size_non_empty_iff. rewrite (comm_L (∩)).
    intros He. apply Hne. apply leibniz_equiv. exact He. }
  lia.
Qed.

Lemma match_signature_None (s : ChainSignature) :
  ~ required_daughters s ∩ detected ≠ ∅ ->
  match_signature detected s = None.
Proof.
  intros Hn. unfold match_signature.
  rewrite bool_decide_eq_false_2; [reflexivity|].
  intros Hpos. apply Hn. intros He.
  rewrite (comm_L (∩)), He, size_empty in Hpos. lia.
Qed.

(** The confidence the code computes is the one the specification words. *)
Lemma match_signature_confidence (s : ChainSignature) (r : Inference) :
  match_signature detected s = Some r ->
  inf_parent r = inferred_parent s /\
  inf_signature r = s /\
  inf_confidence r == spec_confidence detected s.
Proof.
  unfold match_signature.
  destruct (bool_decide (0 < size (detected ∩ required_daughters s))%nat)
    eqn:Hreq; [|discriminate].
  apply bool_decide_eq_true in Hreq.
  intros [= <-]. split; [reflexivity|]. split; [reflexivity|].
  unfold inf_confidence, spec_confidence. simpl.
  rewrite (comm_L (∩) (required_daughters s) detected).
  rewrite (comm_L (∩) (optional_daughters s) detected).
  set (rf := len (detected ∩ required_daughters s)).
  set (rq := len (required_daughters s)).
  set (opf := len (detected ∩ optional_daughters s)).
  set (op := len (optional_daughters s)).
  assert (Hrf : 0 < rf) by (apply len_pos; exact Hreq).
  assert (Hle : rf <= rq) by (apply len_subseteq, intersection_subseteq_r).
  assert (Hbase : rf / rq <= 1).
  { apply Qle_shift_div_r; lra. }
  destruct (bool_decide (0 < size (optional_daughters s))%nat) eqn:Hopt.
  - apply bool_decide_eq_true in Hopt.
    destruct (decide (optional_daughters s = ∅)) as [He|_].
    { rewrite He, size_empty in Hopt. lia. }
    assert (Hop : 0 < op) by (apply len_pos; exact Hopt).
    assert (Hb : 0.1 * opf / op == 0.1 * (opf / op)) by (field; lra).
    destruct (Q.min_spec 1.0 (rf / rq + 0.1 * opf / op)) as [[? ->]|[? ->]];
      destruct (Q.min_spec 1 (rf / rq + 0.1 * (opf / op))) as [[? ->]|[? ->]];
      lra.
  - apply bool_decide_eq_false in Hopt.
    destruct (decide (optional_daughters s = ∅)) as [_|Hne].
    + destruct (Q.min_spec 1 (rf / rq + 0)) as [[? ->]|[? ->]]; lra.
    + exfalso. apply Hopt.
      assert (size (optional_daughters s) ≠ 0%nat); [|lia].
      apply size_non_empty_iff. intros He. apply Hne.
      apply leibniz_equiv. exact He.
Qed.

Variable registry : list (string * ChainSignature).

Let collected : list Inference :=
  omap (fun kv => match_signature detected kv.2) registry.

Lemma collected_signatures :
  map inf_signature collected = matching_signatures registry detected.
Proof using Type.
  unfold collected, matching_signatures.
  induction registry as [|[k s] reg IH]; simpl; [reflexivity|].
  destruct (decide (required_daughters s ∩ detected ≠ ∅)) as [Hy|Hn].
  - destruct (match_signature_Some s Hy) as [c Hc].
    rewrite Hc, filter_cons_True by exact Hy. simpl. f_equal. exact IH.
  - rewrite (match_signature_None s Hn), filter_cons_False by exact Hn.
    exact IH.
Qed.

Lemma collected_precedes (a b : Inference) :
  precedes collected a b ->
  precedes (map snd registry) (inf_signature a) (inf_signature b).
Proof using Type.
  unfold collected.
  induction registry as [|[k s] reg IH]; simpl; intros Hp.
  - destruct (precedes_nil _ _ Hp).
  - destruct (match_signature detected s) as [r|] eqn:Hm.
    + apply precedes_cons in Hp as [[-> Hb]|Hp].
      * apply precedes_cons. left.
        destruct (match_signature_confidence s r Hm) as (_ & Hs & _).
        split; [exact Hs|].
        apply list_elem_of_omap in Hb as ([k' s'] & Hin & Hm').
        destruct (match_signature_confidence s' b Hm') as (_ & Hs' & _).
        rewrite Hs'. apply list_elem_of_fmap. exists (k', s'). auto.
      * apply precedes_cons. right. auto.
    + apply precedes_cons. right. auto.
Qed.

(** What [infer_parent_from] returns for any registry. *)
Lemma infer_parent_from_spec :
  let results := infer_parent_from registry detected in
  map inf_signature results ≡ₚ matching_signatures registry detected /\
  (forall r, r ∈ results ->
     inf_parent r = inferred_parent (inf_signature r) /\
     inf_confidence r == spec_confidence detected (inf_signature r)) /\
  (forall a b, precedes results a b ->
     inf_confidence b <= inf_confidence a) /\
  (forall a b, precedes results a b ->
     inf_confidence a == inf_confidence b ->
     precedes (map snd registry) (inf_signature a) (inf_signature b)).
Proof using Type.
  unfold infer_parent_from. fold collected. cbv zeta.
  split; [|split; [|split]].
  - rewrite sort_perm. rewrite collected_signatures. reflexivity.
  - intros r Hr. rewrite sort_perm in Hr.
    apply list_elem_of_omap in Hr as ([k s] & _ & Hm).
    destruct (match_signature_confidence s r Hm) as (Hp & Hs & Hc).
    rewrite Hs. auto.
  - intros a b Hp.
    exact (sorted_precedes _ a b (sort_sorted collected) Hp).
  - intros a b Hp Heq. apply collected_precedes.
    apply sort_stable; assumption.
Qed.

End ParentInference.

Section ParentInferenceClaim.

Import DecayChains.
Local Open Scope Q_scope.

(** C4: for every detected set, [infer_parent_from_daughters] returns one
    entry per registered signature whose required set meets the detected set
    (and none for the others); each entry carries the signature's inferred
    parent and the confidence |required ∩ detected| / |required| plus
    0.1 × |optional ∩ detected| / |optional| when the optional set is
    non-empty, capped at 1; the list is in descending confidence, and entries
    of equal confidence are in registration order. *)
Theorem infer_parent_from_daughters_spec (detected : gset string) :
  let results := infer_parent_from_daughters detected in
  map inf_signature results
    ≡ₚ filter (fun s => required_daughters s ∩ detected ≠ ∅)
              (map snd CHAIN_SIGNATURES) /\
  (forall r, r ∈ results ->
     inf_parent r = inferred_parent (inf_signature r) /\
     inf_confidence r == spec_confidence detected (inf_signature r)) /\
  (forall i j a b, (i < j)%nat ->
     results !! i = Some a -> results !! j = Some b ->
     inf_confidence b <= inf_confidence a) /\
  (forall i j a b, (i < j)%nat ->
     results !! i = Some a -> results !! j = Some b ->
     inf_confidence a == inf_confidence b ->
     exists i' j', (i' < j')%nat /\
       map snd CHAIN_SIGNATURES !! i' = Some (inf_signature a) /\
       map snd CHAIN_SIGNATURES !! j' = Some (inf_signature b)).
Proof.
  cbv zeta. unfold infer_parent_from_daughters.
  destruct (infer_parent_from_spec detected CHAIN_SIGNATURES)
    as (Hperm & Hconf & Hdesc & Hties).
  split; [exact Hperm|]. split; [exact Hconf|]. split.
  - intros i j a b Hij Hi Hj. apply Hdesc. exists i, j. auto.
  - intros i j a b Hij Hi Hj Heq. apply Hties; [|exact Heq].
    exists i, j. auto.
Qed.

End ParentInferenceClaim.

(** ** The binary label codec *)

Section Bytes.

Import Labels.

Lemma byte_of_Z_in_range (v : Z) :
  (0 <= v < 256)%Z -> byte_of_Z v = Some (byte_at v) /\ Z_of_byte (byte_at v) = v.
Proof.
  intros Hv. unfold byte_at, byte_of_Z, Z_of_byte.
  destruct (0 <=? v)%Z eqn:H0; [|lia].
  destruct (Byte.of_N (Z.to_N v)) as [b|] eqn:Hb.
  - split; [reflexivity|]. simpl.
    apply Byte.to_of_N in Hb. rewrite Hb. lia.
  - apply Byte.of_N_None_iff in Hb. lia.
Qed.

Lemma byte_of_Z_Some (v : Z) :
  (0 <= v < 256)%Z -> byte_of_Z v = Some (byte_at v).
Proof. intros H. apply byte_of_Z_in_range. exact H. Qed.

Lemma Z_of_byte_at (v : Z) : (0 <= v < 256)%Z -> Z_of_byte (byte_at v) = v.
Proof. intros H. apply byte_of_Z_in_range. exact H. Qed.

Lemma bytearray_append_in_range (data : list byte) (v : Z) :
  (0 <= v < 256)%Z -> bytearray_append data v = Ok (data ++ [byte_at v]).
Proof.
  intros H. unfold bytearray_append. rewrite byte_of_Z_Some by exact H.
  reflexivity.
Qed.

Lemma struct_pack_H_in_range (v : Z) :
  (0 <= v <= 65535)%Z -> struct_pack_H v = Ok (uint16_le v).
Proof.
  intros H. unfold struct_pack_H, uint16_le.
  replace ((0 <=? v)%Z && (v <=? 65535)%Z) with true
    by (symmetry; apply andb_true_intro; split; lia).
  assert (Hlo : (0 <= v mod 256 < 256)%Z) by (apply Z.mod_pos_bound; lia).
  assert (Hhi : (0 <= v / 256 < 256)%Z).
  { split; [apply Z.div_pos; lia|]. apply Z.div_lt_upper_bound; lia. }
  rewrite (byte_of_Z_Some _ Hlo), (byte_of_Z_Some _ Hhi). reflexivity.
Qed.

Lemma struct_unpack_H_uint16_le (v : Z) :
  (0 <= v <= 65535)%Z -> struct_unpack_H (uint16_le v) = Ok v.
Proof.
  intros H. unfold struct_unpack_H, uint16_le.
  assert (Hlo : (0 <= v mod 256 < 256)%Z) by (apply Z.mod_pos_bound; lia).
  assert (Hhi : (0 <= v / 256 < 256)%Z).
  { split; [apply Z.div_pos; lia|]. apply Z.div_lt_upper_bound; lia. }
  rewrite (Z_of_byte_at _ Hlo), (Z_of_byte_at _ Hhi). f_equal.
  pose proof (Z.div_mod v 256). lia.
Qed.

End Bytes.

Section MasterIndex.

Import Labels.

(** Every index in the master table fits one byte and the two tables are
    inverse to each other. *)
Lemma master_index_tables :
  map_Forall (fun iso idx =>
      (0 <= idx < 256)%Z /\ INDEX_TO_ISOTOPE !! idx = Some iso) ISOTOPE_INDEX
  /\ map_Forall (fun idx iso => ISOTOPE_INDEX !! iso = Some idx) INDEX_TO_ISOTOPE.
Proof.
  split.
  - apply (bool_decide_unpack _). vm_compute. exact I.
  - apply (bool_decide_unpack _). vm_compute. exact I.
Qed.

Lemma isotope_index_lookup (iso : string) (idx : Z) :
  ISOTOPE_INDEX !! iso = Some idx ->
  (0 <= idx < 256)%Z /\ INDEX_TO_ISOTOPE !! idx = Some iso.
Proof.
  intros H. exact (proj1 master_index_tables iso idx H).
Qed.

Lemma index_to_isotope_lookup (idx : Z) (iso : string) :
  INDEX_TO_ISOTOPE !! idx = Some iso -> ISOTOPE_INDEX !! iso = Some idx.
Proof.
  intros H. exact (proj2 master_index_tables idx iso H).
Qed.

Lemma index_zero_name : INDEX_TO_ISOTOPE !! 0%Z = Some "K-40".
Proof. vm_compute. reflexivity. Qed.

Lemma encode_index_range (iso : string) : (0 <= encode_index iso < 256)%Z.
Proof.
  unfold encode_index, dict_get.
  destruct (ISOTOPE_INDEX !! iso) as [idx|] eqn:H;
    [change (default 0%Z (Some idx)) with idx | change (default 0%Z None) with 0%Z; lia].
  apply isotope_index_lookup in H. tauto.
Qed.

Lemma decoded_name_known (iso : string) :
  is_Some (ISOTOPE_INDEX !! iso) -> decoded_name iso = iso.
Proof.
  intros [idx H]. unfold decoded_name, encode_index, isotope_of_index, dict_get.
  rewrite H. change (default 0%Z (Some idx)) with idx.
  apply isotope_index_lookup in H as [_ ->]. reflexivity.
Qed.

Lemma decoded_name_unknown (iso : string) :
  ISOTOPE_INDEX !! iso = None ->
  encode_index iso = 0%Z /\ decoded_name iso = "K-40".
Proof.
  intros H. unfold decoded_name, encode_index, isotope_of_index, dict_get.
  rewrite H. change (default 0%Z None) with 0%Z.
  rewrite index_zero_name. auto.
Qed.

Lemma decoded_name_in_index (iso : string) :
  is_Some (ISOTOPE_INDEX !! decoded_name iso).
Proof.
  destruct (ISOTOPE_INDEX !! iso) as [idx|] eqn:H.
  - rewrite decoded_name_known by eauto. eauto.
  - destruct (decoded_name_unknown iso H) as [_ ->].
    exists 0%Z. apply index_to_isotope_lookup, index_zero_name.
Qed.

End MasterIndex.

Section PackLayout.

Import Labels.
Local Open Scope Q_scope.

Lemma py_int_Qfloor_le (x y : Q) :
  0 <= x -> x <= y -> (py_int x <= Qfloor y)%Z.
Proof.
  intros H0 Hxy. rewrite py_int_nonneg by exact H0.
  apply Qfloor_resp_le. exact Hxy.
Qed.

Lemma scale_activity_range (a : Q) : (0 <= scale_activity a <= 65535)%Z.
Proof. unfold scale_activity. lia. Qed.

Lemma flag_byte_of_range (flags : gmap string bool) :
  (0 <= flag_byte_of flags < 16)%Z.
Proof.
  unfold flag_byte_of.
  destruct (dict_get flags "normalized" true),
           (dict_get flags "include_k40" true),
           (dict_get flags "include_radon" true),
           (dict_get flags "include_thorium" true);
    vm_compute; (split; [discriminate | reflexivity]).
Qed.

Lemma pack_index_loop (names : list string) (data : list byte) :
  for_each (fun data iso =>
      let idx := dict_get ISOTOPE_INDEX iso 0%Z in bytearray_append data idx)
    names data
  = Ok (data ++ index_bytes names).
Proof.
  revert data. induction names as [|iso names IH]; intros data;
    cbn [for_each index_bytes map].
  - rewrite app_nil_r. reflexivity.
  - cbv zeta. fold (encode_index iso).
    rewrite bytearray_append_in_range by apply encode_index_range.
    cbn [mbind result_bind]. rewrite IH, <- app_assoc. reflexivity.
Qed.

Lemma pack_activity_loop (activities : gmap string Q) (names : list string)
    (data : list byte) :
  for_each (fun data iso =>
      let activity := dict_get activities iso 0.0 in
      let scaled := scale_activity activity in
      packed ← struct_pack_H scaled; Ok (data ++ packed))
    names data
  = Ok (data ++ activity_bytes activities names).
Proof.
  revert data. induction names as [|iso names IH]; intros data;
    cbn [for_each activity_bytes flat_map].
  - rewrite app_nil_r. reflexivity.
  - cbv zeta.
    rewrite struct_pack_H_in_range by apply scale_activity_range.
    cbn [mbind result_bind]. rewrite IH. unfold stored_activity.
    rewrite <- app_assoc. reflexivity.
Qed.

(** [pack_labels] never raises, and this is what it writes. *)
Lemma pack_labels_layout (isotopes : list string)
    (activities : gmap string Q) (flags : gmap string bool) :
  pack_labels isotopes activities flags =
  Ok (byte_at (Z.min (Z.of_nat (length isotopes)) 255)
      :: index_bytes (take 255 isotopes)
      ++ activity_bytes activities (take 255 isotopes)
      ++ [byte_at (flag_byte_of flags)]).
Proof.
  unfold pack_labels. cbv zeta.
  rewrite bytearray_append_in_range by lia. cbn [mbind result_bind].
  rewrite pack_index_loop. cbn [mbind result_bind].
  rewrite pack_activity_loop. cbn [mbind result_bind].
  unfold flag_byte_of.
  destruct (dict_get flags "normalized" true),
           (dict_get flags "include_k40" true),
           (dict_get flags "include_radon" true),
           (dict_get flags "include_thorium" true);
    (rewrite bytearray_append_in_range
       by (vm_compute; split; [discriminate | reflexivity]);
     cbn [mbind result_bind]; rewrite <- !app_assoc; reflexivity).
Qed.

End PackLayout.

Section UnpackLayout.

Import Labels.
Local Open Scope Q_scope.

Lemma getitem_middle (pre post : list byte) (b : byte) :
  getitem (pre ++ b :: post) (length pre) = Ok (Z_of_byte b).
Proof.
  unfold getitem. rewrite list_lookup_middle by reflexivity. reflexivity.
Qed.

Lemma read_isotopes_bytes (bs pre post : list byte) (acc : list string) :
  read_isotopes (pre ++ bs ++ post) (length bs) (length pre) acc
  = Ok (acc ++ map (fun b => isotope_of_index (Z_of_byte b)) bs,
        (length pre + length bs)%nat).
Proof.
  revert pre acc. induction bs as [|b bs IH]; intros pre acc; simpl.
  - rewrite app_nil_r, Nat.add_0_r. reflexivity.
  - rewrite getitem_middle. simpl.
    replace (pre ++ b :: bs ++ post) with ((pre ++ [b]) ++ bs ++ post)
      by (rewrite <- app_assoc; reflexivity).
    replace (length pre + 1)%nat with (length (pre ++ [b]))
      by (rewrite length_app; reflexivity).
    rewrite IH, <- app_assoc, length_app. simpl.
    f_equal. f_equal. lia.
Qed.

Lemma slice_uint16 (pre post : list byte) (v : Z) :
  slice (pre ++ uint16_le v ++ post) (length pre) (length pre + 2)
  = uint16_le v.
Proof.
  unfold slice. rewrite drop_app_length.
  replace (length pre + 2 - length pre)%nat with 2%nat by lia.
  reflexivity.
Qed.

Lemma read_activities_pairs (pairs : list (string * Z)) (pre post : list byte)
    (acc : gmap string Q) :
  Forall (fun p => (0 <= p.2 <= 65535)%Z) pairs ->
  read_activities (pre ++ flat_map (fun p => uint16_le p.2) pairs ++ post)
    (map fst pairs) (length pre) acc
  = Ok (assign_activities pairs acc, (length pre + 2 * length pairs)%nat).
Proof.
  revert pre acc. induction pairs as [|[k v] pairs IH]; intros pre acc Hr;
    cbn [read_activities map flat_map fst snd].
  - unfold assign_activities. cbn [fold_left length].
    rewrite Nat.mul_0_r, Nat.add_0_r. reflexivity.
  - apply Forall_cons in Hr as [Hv Hr]. cbn [snd] in Hv.
    rewrite <- app_assoc, slice_uint16.
    rewrite struct_unpack_H_uint16_le by exact Hv. cbn [mbind result_bind].
    replace (pre ++ uint16_le v ++ flat_map (fun p => uint16_le p.2) pairs ++ post)
      with ((pre ++ uint16_le v)
            ++ flat_map (fun p => uint16_le p.2) pairs ++ post)
      by (rewrite <- app_assoc; reflexivity).
    replace (length pre + 2)%nat with (length (pre ++ uint16_le v))
      by (rewrite length_app; reflexivity).
    rewrite IH by exact Hr. rewrite length_app.
    unfold assign_activities. cbn [fold_left length uint16_le fst snd].
    f_equal. f_equal. lia.
Qed.

(** The (decoded name, stored value) pairs of a list of encoded names. *)
Lemma index_bytes_decoded (names : list string) :
  map (fun b => isotope_of_index (Z_of_byte b)) (index_bytes names)
  = map decoded_name names.
Proof.
  unfold index_bytes. rewrite map_map. apply map_ext. intros iso.
  rewrite Z_of_byte_at by apply encode_index_range. reflexivity.
Qed.

End UnpackLayout.

Section RoundTrip.

Import Labels.
Local Open Scope Q_scope.

Lemma flag_bits_decoded (flags : gmap string bool) :
  let fb := Z_of_byte (byte_at (flag_byte_of flags)) in
  flag_set fb 1 = dict_get flags "normalized" true /\
  flag_set fb 2 = dict_get flags "include_k40" true /\
  flag_set fb 4 = dict_get flags "include_radon" true /\
  flag_set fb 8 = dict_get flags "include_thorium" true.
Proof.
  cbv zeta.
  rewrite Z_of_byte_at
    by (pose proof (flag_byte_of_range flags); lia).
  unfold flag_byte_of.
  destruct (dict_get flags "normalized" true),
           (dict_get flags "include_k40" true),
           (dict_get flags "include_radon" true),
           (dict_get flags "include_thorium" true);
    repeat split; reflexivity.
Qed.

Lemma activity_bytes_pairs (activities : gmap string Q) (names : list string) :
  activity_bytes activities names
  = flat_map (fun p : string * Z => uint16_le p.2)
      (map (fun iso => (decoded_name iso, stored_activity activities iso)) names).
Proof.
  unfold activity_bytes. induction names as [|iso names IH]; simpl.
  - reflexivity.
  - rewrite IH. reflexivity.
Qed.

(** The label decoded from a packed label, for any input. *)
Lemma unpack_pack_labels (isos : list string)
    (acts : gmap string Q) (flags : gmap string bool) :
  exists data,
    pack_labels isos acts flags = Ok data /\
    unpack_labels data =
    Ok {| isotopes := map decoded_name (take 255 isos);
          activities :=
            assign_activities
              (map (fun iso => (decoded_name iso, stored_activity acts iso))
                   (take 255 isos)) ∅;
          normalized := dict_get flags "normalized" true;
          include_k40 := dict_get flags "include_k40" true;
          include_radon := dict_get flags "include_radon" true;
          include_thorium := dict_get flags "include_thorium" true |}.
Proof.
  eexists. split; [apply pack_labels_layout|].
  set (names := take 255 isos).
  set (pairs := map (fun iso => (decoded_name iso, stored_activity acts iso)) names).
  set (c := byte_at (Z.min (Z.of_nat (length isos)) 255)).
  set (fb := byte_at (flag_byte_of flags)).
  assert (Hlen : Z.to_nat (Z_of_byte c) = length (index_bytes names)).
  { unfold c. rewrite Z_of_byte_at by lia.
    unfold index_bytes, names. rewrite length_map, length_take. lia. }
  unfold unpack_labels.
  change (getitem (c :: index_bytes names ++ activity_bytes acts names ++ [fb]) 0)
    with (Ok (Z_of_byte c) : result Z).
  simpl mbind at 1. unfold mbind at 1, result_bind at 1.
  rewrite Hlen.
  change (c :: index_bytes names ++ activity_bytes acts names ++ [fb])
    with ([c] ++ index_bytes names ++ (activity_bytes acts names ++ [fb])).
  change (0 + 1)%nat with (length [c]).
  rewrite read_isotopes_bytes. simpl app at 1.
  rewrite index_bytes_decoded.
  unfold mbind at 1, result_bind at 1.
  replace (map decoded_name names) with (map fst pairs) at 1
    by (unfold pairs; rewrite map_map; reflexivity).
  replace ([c] ++ index_bytes names ++ activity_bytes acts names ++ [fb])
    with (([c] ++ index_bytes names)
          ++ flat_map (fun p : string * Z => uint16_le p.2) pairs ++ [fb])
    by (unfold pairs; rewrite <- activity_bytes_pairs, <- app_assoc; reflexivity).
  replace (length [c] + length (index_bytes names))%nat
    with (length ([c] ++ index_bytes names))
    by (rewrite length_app; reflexivity).
  rewrite read_activities_pairs
    by (unfold pairs; apply Forall_forall; intros p Hp;
        apply list_elem_of_fmap in Hp as (iso & -> & _);
        apply scale_activity_range).
  unfold mbind at 1, result_bind at 1.
  replace (length ([c] ++ index_bytes names) + 2 * length pairs)%nat
    with (length (([c] ++ index_bytes names)
                  ++ flat_map (fun p : string * Z => uint16_le p.2) pairs)).
  2:{ rewrite length_app. f_equal.
      clear. induction pairs as [|p ps IH]; simpl; [reflexivity|].
      rewrite IH. lia. }
  rewrite (app_assoc _ _ [fb]).
  rewrite getitem_middle.
  unfold mbind, result_bind.
  destruct (flag_bits_decoded flags) as (H1 & H2 & H3 & H4).
  fold fb in H1, H2, H3, H4. rewrite H1, H2, H3, H4.
  reflexivity.
Qed.

(** Assigning in order: a key assigned at all holds the value of its last
    assignment; when every pair of a key carries [g key], that value. *)
Lemma assign_activities_lookup (g : string -> Z) (names : list string)
    (acc : gmap string Q) (k : string) :
  k ∈ names ->
  assign_activities (map (fun iso => (iso, g iso)) names) acc !! k
  = Some (inject_Z (g k) / 65.535).
Proof.
  unfold assign_activities.
  assert (Hgen : forall acc : gmap string Q,
    fold_left (fun m (p : string * Z) => <[p.1 := inject_Z p.2 / 65.535]> m)
      (map (fun iso => (iso, g iso)) names) acc !! k
    = if decide (k ∈ names) then Some (inject_Z (g k) / 65.535) else acc !! k).
  { induction names as [|x names IH]; intros acc'; cbn [map fold_left fst snd].
    - destruct (decide (k ∈ [])) as [Hc|_]; [inversion Hc | reflexivity].
    - rewrite IH.
      destruct (decide (k ∈ names)) as [Hin|Hnin];
        destruct (decide (k ∈ x :: names)) as [Hin'|Hnin'].
      + reflexivity.
      + exfalso. apply Hnin'. right. exact Hin.
      + apply elem_of_cons in Hin' as [->|?]; [|contradiction].
        apply lookup_insert_eq.
      + apply lookup_insert_ne. intros ->. apply Hnin'. left. }
  intros Hin. rewrite Hgen.
  destruct (decide (k ∈ names)); [reflexivity | contradiction].
Qed.

(** Quantisation of an activity inside the encoded range. *)
Lemma scale_activity_floor (a : Q) :
  0 <= a -> scale_activity a = Qfloor (Qmin a 1000.0 * 65.535).
Proof.
  intros Ha. unfold scale_activity.
  assert (H0 : 0 <= Qmin a 1000.0 * 65.535).
  { destruct (Q.min_spec a 1000.0) as [[_ ->]|[_ ->]]; lra. }
  assert (H1 : Qmin a 1000.0 * 65.535 <= 65535).
  { destruct (Q.min_spec a 1000.0) as [[? ->]|[? ->]]; lra. }
  rewrite py_int_nonneg by exact H0.
  apply Qfloor_resp_le in H0. apply Qfloor_resp_le in H1.
  change (Qfloor 0) with 0%Z in H0. change (Qfloor 65535) with 65535%Z in H1.
  lia.
Qed.

Lemma scale_activity_saturates (a : Q) :
  1000 <= a -> scale_activity a = 65535%Z.
Proof.
  intros Ha. rewrite scale_activity_floor by lra.
  assert (H : Qmin a 1000.0 * 65.535 == 65535).
  { destruct (Q.min_spec a 1000.0) as [[? ->]|[? ->]]; lra. }
  rewrite H. reflexivity.
Qed.

Lemma scale_activity_error (a : Q) :
  0 <= a <= 1000 ->
  Qabs (inject_Z (scale_activity a) / 65.535 - a) <= 1 / 65.535.
Proof.
  intros [H0 H1]. rewrite scale_activity_floor by exact H0.
  assert (Hm : Qmin a 1000.0 * 65.535 == a * 65.535).
  { destruct (Q.min_spec a 1000.0) as [[? ->]|[? ->]]; lra. }
  rewrite Hm.
  pose proof (Qfloor_le (a * 65.535)) as Hlo.
  pose proof (Qlt_floor (a * 65.535)) as Hhi.
  rewrite inject_Z_plus in Hhi. change (inject_Z 1) with 1 in Hhi.
  set (v := inject_Z (Qfloor (a * 65.535))) in *. clearbody v.
  assert (Hd : v / 65.535 * 65.535 == v) by (field; discriminate).
  assert (Hc : 1 / 65.535 * 65.535 == 1) by reflexivity.
  set (d := v / 65.535) in *. set (q := 1 / 65.535) in *.
  clearbody d q.
  apply Qabs_Qle_condition. split; lra.
Qed.

End RoundTrip.

Section CodecClaims.

Import Labels.
Local Open Scope Q_scope.

(** C1: for every label with at most 255 isotope names, each in the master
    index, and per-isotope activities in [0, 1000] Bq, [pack_labels] returns
    bytes that [unpack_labels] decodes to the same list of names, to
    activities within 1/65.535 Bq of the originals, and to the same four
    flags. *)
Theorem pack_unpack_roundtrip (isos : list string)
    (acts : gmap string Q) (flags : gmap string bool) :
  (length isos <= 255)%nat ->
  (forall iso, iso ∈ isos -> is_Some (ISOTOPE_INDEX !! iso)) ->
  (forall iso, iso ∈ isos -> 0 <= dict_get acts iso 0.0 <= 1000) ->
  exists data lbl,
    pack_labels isos acts flags = Ok data /\
    unpack_labels data = Ok lbl /\
    isotopes lbl = isos /\
    (forall iso, iso ∈ isos ->
       exists decoded,
         activities lbl !! iso = Some decoded /\
         Qabs (decoded - dict_get acts iso 0.0) <= 1 / 65.535) /\
    normalized lbl = dict_get flags "normalized" true /\
    include_k40 lbl = dict_get flags "include_k40" true /\
    include_radon lbl = dict_get flags "include_radon" true /\
    include_thorium lbl = dict_get flags "include_thorium" true.
Proof.
  intros Hlen Hknown Hrange.
  destruct (unpack_pack_labels isos acts flags) as (data & Hpack & Hunpack).
  rewrite take_ge in Hunpack by lia.
  assert (Hnames : map decoded_name isos = isos).
  { rewrite <- (map_id isos) at 2. apply map_ext_in. intros iso Hin.
    apply decoded_name_known, Hknown, list_elem_of_In, Hin. }
  assert (Hpairs :
    map (fun iso => (decoded_name iso, stored_activity acts iso)) isos
    = map (fun iso => (iso, stored_activity acts iso)) isos).
  { apply map_ext_in. intros iso Hin. f_equal.
    apply decoded_name_known, Hknown, list_elem_of_In, Hin. }
  rewrite Hnames, Hpairs in Hunpack.
  eexists data, _. split; [exact Hpack|]. split; [exact Hunpack|].
  simpl. split; [reflexivity|]. split; [|auto].
  intros iso Hin. eexists. split.
  - apply (assign_activities_lookup (stored_activity acts)). exact Hin.
  - apply scale_activity_error, Hrange, Hin.
Qed.

Lemma pack_unpack_roundtrip_witness :
  exists data lbl,
    pack_labels ["Cs-137"; "Co-60"] {["Cs-137" := 12.345; "Co-60" := 1000]}
      {["include_radon" := false]} = Ok data /\
    unpack_labels data = Ok lbl /\
    isotopes lbl = ["Cs-137"; "Co-60"] /\
    (forall iso, iso ∈ ["Cs-137"; "Co-60"] ->
       exists decoded,
         activities lbl !! iso = Some decoded /\
         Qabs (decoded
               - dict_get ({["Cs-137" := 12.345; "Co-60" := 1000]}
                             : gmap string Q) iso 0.0)
         <= 1 / 65.535) /\
    normalized lbl = dict_get ({["include_radon" := false]} : gmap string bool)
                       "normalized" true /\
    include_k40 lbl = dict_get ({["include_radon" := false]} : gmap string bool)
                        "include_k40" true /\
    include_radon lbl = dict_get ({["include_radon" := false]} : gmap string bool)
                          "include_radon" true /\
    include_thorium lbl = dict_get ({["include_radon" := false]} : gmap string bool)
                            "include_thorium" true.
Proof.
  apply (pack_unpack_roundtrip ["Cs-137"; "Co-60"]
           {["Cs-137" := 12.345; "Co-60" := 1000]} {["include_radon" := false]}).
  - simpl. lia.
  - intros iso Hin. apply elem_of_cons in Hin as [->|Hin].
    { vm_compute. eauto. }
    apply elem_of_cons in Hin as [->|Hin].
    { vm_compute. eauto. }
    inversion Hin.
  - intros iso Hin. apply elem_of_cons in Hin as [->|Hin].
    { vm_compute. split; discriminate. }
    apply elem_of_cons in Hin as [->|Hin].
    { vm_compute. split; discriminate. }
    inversion Hin.
Defined.

(** C7, as stated, fails: the encoder truncates, it does not round.  For
    0.01 Bq the scaled value is 0.65535, stored as 0 where rounding gives 1. *)
Lemma scale_activity_truncates_not_rounds :
  0 <= 0.01 /\
  pack_labels ["K-40"] {["K-40" := 0.01]} ∅
    = Ok ["001"; "000"; "000"; "000"; "015"]%byte /\
  scale_activity 0.01 = 0%Z /\
  py_round (Qmin 0.01 1000.0 * 65.535) = 1%Z /\
  scale_activity 0.01 <> py_round (Qmin 0.01 1000.0 * 65.535).
Proof.
  split; [vm_compute; discriminate|].
  split; [vm_compute; reflexivity|].
  split; [reflexivity|]. split; [reflexivity|].
  vm_compute. discriminate.
Qed.

(** C7 (amended): for every activity [a >= 0] the stored uint16 is the
    integer part (floor) of [min(a, 1000.0) * 65.535]; every activity of
    1000 Bq or more is stored as 65535; and the decoder returns the stored
    value divided by 65.535. *)
Theorem stored_activity_is_floor (iso : string) (a : Q)
    (flags : gmap string bool) :
  0 <= a ->
  let stored := Qfloor (Qmin a 1000.0 * 65.535) in
  scale_activity a = stored /\
  (1000 <= a -> stored = 65535%Z) /\
  exists data lbl,
    pack_labels [iso] {[iso := a]} flags = Ok data /\
    slice data 2 4 = uint16_le stored /\
    unpack_labels data = Ok lbl /\
    exists n, isotopes lbl = [n] /\
              activities lbl !! n = Some (inject_Z stored / 65.535).
Proof.
  intros Ha. cbv zeta.
  pose proof (scale_activity_floor a Ha) as Hfloor.
  split; [exact Hfloor|]. split.
  { intros Hsat. rewrite <- Hfloor. apply scale_activity_saturates. exact Hsat. }
  destruct (unpack_pack_labels [iso] {[iso := a]} flags)
    as (data & Hpack & Hunpack).
  rewrite take_ge in Hunpack by (cbn [length]; lia).
  assert (Hstored : stored_activity {[iso := a]} iso
                    = Qfloor (Qmin a 1000.0 * 65.535)).
  { unfold stored_activity, dict_get. rewrite lookup_singleton_eq.
    exact Hfloor. }
  exists data. eexists. split; [exact Hpack|].
  split; [|split; [exact Hunpack|]].
  - rewrite pack_labels_layout in Hpack. injection Hpack as <-.
    rewrite Hstored. reflexivity.
  - exists (decoded_name iso). cbn [isotopes activities map].
    split; [reflexivity|].
    unfold assign_activities. cbn [fold_left fst snd].
    rewrite lookup_insert_eq, Hstored. reflexivity.
Qed.

Lemma stored_activity_is_floor_witness :
  0 <= 2500 /\
  (scale_activity 2500 = Qfloor (Qmin 2500 1000.0 * 65.535) /\
   (1000 <= 2500 -> Qfloor (Qmin 2500 1000.0 * 65.535) = 65535%Z) /\
   exists data lbl,
     pack_labels ["Cs-137"] {["Cs-137" := 2500]} ∅ = Ok data /\
     slice data 2 4 = uint16_le (Qfloor (Qmin 2500 1000.0 * 65.535)) /\
     unpack_labels data = Ok lbl /\
     exists n, isotopes lbl = [n] /\
               activities lbl !! n
               = Some (inject_Z (Qfloor (Qmin 2500 1000.0 * 65.535)) / 65.535)).
Proof.
  assert (H : 0 <= 2500) by (vm_compute; discriminate).
  split; [exact H|].
  exact (stored_activity_is_floor "Cs-137" 2500 ∅ H).
Defined.

(** C9: [pack_labels] never raises; a name absent from the master index is
    written as index byte 0 and decoded as the master list's index-0 name
    ("K-40"), so such a name is missing from the decoded isotopes, which then
    differ from the encoded ones. *)
Theorem pack_labels_unknown_name (isos : list string)
    (acts : gmap string Q) (flags : gmap string bool) :
  exists data lbl,
    pack_labels isos acts flags = Ok data /\
    unpack_labels data = Ok lbl /\
    (forall i iso,
       (i < 255)%nat -> isos !! i = Some iso -> ISOTOPE_INDEX !! iso = None ->
       data !! S i = Some "000"%byte /\
       (isotopes lbl !! i) = (INDEX_TO_ISOTOPE !! 0%Z) /\
       isotopes lbl !! i = Some "K-40"%string) /\
    (forall iso,
       iso ∈ isos -> ISOTOPE_INDEX !! iso = None ->
       (iso ∉ isotopes lbl) /\ isotopes lbl <> isos).
Proof.
  destruct (unpack_pack_labels isos acts flags) as (data & Hpack & Hunpack).
  exists data. eexists. split; [exact Hpack|]. split; [exact Hunpack|].
  cbn [isotopes]. split.
  - intros i iso Hi Hiso Hnone.
    destruct (decoded_name_unknown iso Hnone) as [Hidx Hname].
    assert (Htake : take 255 isos !! i = Some iso).
    { rewrite lookup_take_lt by exact Hi. exact Hiso. }
    split; [|split].
    + rewrite pack_labels_layout in Hpack. injection Hpack as <-.
      lazymatch goal with
      | |- (?c :: ?l) !! S i = ?r => change (l !! i = r)
      end.
      rewrite lookup_app_l.
      2:{ unfold index_bytes. rewrite length_map.
          apply lookup_lt_is_Some. eauto. }
      unfold index_bytes. rewrite list_lookup_fmap, Htake.
      cbn [fmap option_fmap option_map]. rewrite Hidx. reflexivity.
    + rewrite list_lookup_fmap, Htake. cbn [fmap option_fmap option_map].
      rewrite Hname, index_zero_name. reflexivity.
    + rewrite list_lookup_fmap, Htake. cbn [fmap option_fmap option_map].
      rewrite Hname. reflexivity.
  - intros iso Hin Hnone.
    assert (Hnot : iso ∉ map decoded_name (take 255 isos)).
    { intros Hc. apply list_elem_of_fmap in Hc as (iso' & -> & _).
      destruct (decoded_name_in_index iso') as [idx Hidx]. congruence. }
    split; [exact Hnot|].
    intros Heq. apply Hnot. rewrite Heq. exact Hin.
Qed.

End CodecClaims.

(** ** Scenario sampling *)

Section Fallout.

Import Labels Scenarios.
Local Open Scope Q_scope.

Context {G : Type} `{Generator G}.

Lemma valid_fallout_members :
  contains VALID_FALLOUT "Cs-137" = true /\
  contains VALID_FALLOUT "Cs-134" = true /\
  contains VALID_FALLOUT "I-131" = true.
Proof. vm_compute. auto. Qed.

Lemma gt_spec (x y : Q) : gt x y = true <-> y < x.
Proof.
  unfold gt. destruct (Qlt_le_dec y x) as [Hlt|Hle]; split; intros Hx;
    try reflexivity; try assumption; try discriminate.
  exfalso. exact (Qlt_not_le _ _ Hx Hle).
Qed.

Lemma lt_spec (x y : Q) : lt x y = true <-> x < y.
Proof.
  unfold lt. destruct (Qlt_le_dec x y) as [Hlt|Hle]; split; intros Hx;
    try reflexivity; try assumption; try discriminate.
  exfalso. exact (Qlt_not_le _ _ Hx Hle).
Qed.

Lemma has_source_app (n : string) (l1 l2 : list IsotopeSource) :
  has_source n (l1 ++ l2) <-> has_source n l1 \/ has_source n l2.
Proof.
  unfold has_source. split.
  - intros (s & Hin & Hn). apply elem_of_app in Hin as [Hin|Hin]; eauto.
  - intros [(s & Hin & Hn)|(s & Hin & Hn)]; exists s;
      (split; [apply elem_of_app; auto | exact Hn]).
Qed.

Lemma has_source_single (n m : string) (a : Q) (d : bool) :
  has_source n [mk_source m a d] <-> m = n.
Proof.
  unfold has_source. split.
  - intros (s & Hin & Hn). apply list_elem_of_singleton in Hin. subst s.
    exact Hn.
  - intros <-. eexists. split; [apply list_elem_of_singleton; reflexivity|].
    reflexivity.
Qed.

Lemma has_source_nil (n : string) : ~ has_source n [].
Proof. intros (s & Hin & _). inversion Hin. Qed.

(** C6: in the fallout scenario, with [a] the drawn Cs-137 activity, [f] the
    drawn age factor and [u] the following unit draw, every Cs-134 source
    returned has activity [a * f]; a Cs-134 source is returned if and only if
    [a * f > 0.5] (none at exactly 0.5); an I-131 source is returned if and
    only if [u < 0.3]. *)
Theorem generate_fallout_sources (rng : G) (activity_range : Q * Q) :
  let d1 := uniform activity_range.1 activity_range.2 rng in
  let d2 := uniform 0.1 1.0 d1.2 in
  let d3 := random d2.2 in
  let a := d1.1 in
  let f := d2.1 in
  let u := d3.1 in
  let sources := (generate_fallout rng activity_range).1 in
  (forall s, s ∈ sources -> isotope_name s = "Cs-134"%string ->
             activity_bq s = a * f) /\
  (has_source "Cs-134" sources <-> 0.5 < a * f) /\
  (a * f == 0.5 -> ~ has_source "Cs-134" sources) /\
  (has_source "I-131" sources <-> u < 0.3).
Proof.
  cbv zeta. unfold generate_fallout.
  destruct valid_fallout_members as (H137 & H134 & H131).
  rewrite H137, H134, H131.
  destruct (uniform activity_range.1 activity_range.2 rng) as [a r1].
  cbn [fst snd].
  destruct (uniform 0.1 1.0 r1) as [f r2]. cbn [fst snd].
  destruct (random r2) as [u r3].
  cbn [fst snd andb app].
  rewrite andb_true_r.
  pose proof (gt_spec (a * f) 0.5) as Hgt.
  pose proof (lt_spec u 0.3) as Hlt.
  destruct (gt (a * f) 0.5) eqn:Egt; destruct (lt u 0.3) eqn:Elt;
    try destruct (uniform 1 50 r3) as [i131 r4]; cbn [fst snd app].
  - split; [|split; [|split]].
    + intros s Hin Hn.
      repeat (apply elem_of_cons in Hin as [->|Hin]); try discriminate Hn;
        [reflexivity | inversion Hin].
    + split; [intros _; apply Hgt; reflexivity|].
      intros _. exists (mk_source "Cs-134" (a * f) true).
      split; [right; left | reflexivity].
    + intros Heq. assert (0.5 < a * f) as Hc by (apply Hgt; reflexivity).
      rewrite Heq in Hc. destruct (Qlt_irrefl _ Hc).
    + split; [intros _; apply Hlt; reflexivity|].
      intros _. exists (mk_source "I-131" i131 true).
      split; [right; right; left | reflexivity].
  - split; [|split; [|split]].
    + intros s Hin Hn.
      repeat (apply elem_of_cons in Hin as [->|Hin]); try discriminate Hn;
        [reflexivity | inversion Hin].
    + split; [intros _; apply Hgt; reflexivity|].
      intros _. exists (mk_source "Cs-134" (a * f) true).
      split; [right; left | reflexivity].
    + intros Heq. assert (0.5 < a * f) as Hc by (apply Hgt; reflexivity).
      rewrite Heq in Hc. destruct (Qlt_irrefl _ Hc).
    + split.
      * intros (s & Hin & Hn).
        repeat (apply elem_of_cons in Hin as [->|Hin]); try discriminate Hn.
        inversion Hin.
      * intros Hu. apply Hlt in Hu. discriminate Hu.
  - split; [|split; [|split]].
    + intros s Hin Hn.
      repeat (apply elem_of_cons in Hin as [->|Hin]); try discriminate Hn.
      inversion Hin.
    + split.
      * intros (s & Hin & Hn).
        repeat (apply elem_of_cons in Hin as [->|Hin]); try discriminate Hn.
        inversion Hin.
      * intros Hc. apply Hgt in Hc. discriminate Hc.
    + intros _ (s & Hin & Hn).
      repeat (apply elem_of_cons in Hin as [->|Hin]); try discriminate Hn.
      inversion Hin.
    + split; [intros _; apply Hlt; reflexivity|].
      intros _. exists (mk_source "I-131" i131 true).
      split; [right; left | reflexivity].
  - split; [|split; [|split]].
    + intros s Hin Hn.
      repeat (apply elem_of_cons in Hin as [->|Hin]); try discriminate Hn.
      inversion Hin.
    + split.
      * intros (s & Hin & Hn).
        repeat (apply elem_of_cons in Hin as [->|Hin]); try discriminate Hn.
        inversion Hin.
      * intros Hc. apply Hgt in Hc. discriminate Hc.
    + intros _ (s & Hin & Hn).
      repeat (apply elem_of_cons in Hin as [->|Hin]); try discriminate Hn.
      inversion Hin.
    + split.
      * intros (s & Hin & Hn).
        repeat (apply elem_of_cons in Hin as [->|Hin]); try discriminate Hn.
        inversion Hin.
      * intros Hu. apply Hlt in Hu. discriminate Hu.
Qed.

End Fallout.

Section FalloutExamples.

Import Scenarios.
Local Open Scope Q_scope.

(** The boundary on a replayed stream: range (1, 100), variates 0 and 4/9
    give [a = 1] and [f = 0.5], so [a * f] is exactly 0.5 and Cs-134 is left
    out; the third variate 0.2 brings I-131 in. *)
Example generate_fallout_at_threshold :
  map isotope_name (generate_fallout (tape_of [0; 4 # 9; 0.2; 0.5]) (1, 100)).1
  = ["Cs-137"; "I-131"]%string.
Proof. vm_compute. reflexivity. Qed.

End FalloutExamples.

(** ** More on the detector calibration *)

Section PyIntOrder.

Local Open Scope Q_scope.

(** Truncation toward zero is monotone. *)
Lemma py_int_mono (x y : Q) : x <= y -> (py_int x <= py_int y)%Z.
Proof.
  destruct x as [n1 d1], y as [n2 d2]. unfold Qle, py_int. simpl. intros H.
  rewrite <- (Z.quot_mul_cancel_r n1 (Z.pos d1) (Z.pos d2)) by lia.
  rewrite <- (Z.quot_mul_cancel_r n2 (Z.pos d2) (Z.pos d1)) by lia.
  rewrite (Z.mul_comm (Z.pos d2) (Z.pos d1)).
  apply Z.quot_le_mono; lia.
Qed.

(** Truncation only reads the value of the rational. *)
Lemma py_int_proper (x y : Q) : x == y -> py_int x = py_int y.
Proof.
  intros H. apply Z.le_antisymm; apply py_int_mono; rewrite H; apply Qle_refl.
Qed.

Lemma py_int_half (k : Z) : (0 <= k)%Z -> py_int (inject_Z k + 0.5) = k.
Proof.
  intros Hk.
  assert (H0 : 0 <= inject_Z k + 0.5).
  { assert (0 <= inject_Z k) by (change 0 with (inject_Z 0);
      rewrite <- Zle_Qle; exact Hk). lra. }
  destruct (py_int_floor_bounds _ H0) as [Hlo Hhi].
  set (m := py_int (inject_Z k + 0.5)) in *.
  assert (H1 : inject_Z m < inject_Z (k + 1)).
  { rewrite inject_Z_plus. change (inject_Z 1) with 1. lra. }
  assert (H2 : inject_Z k < inject_Z (m + 1)).
  { rewrite inject_Z_plus. change (inject_Z 1) with 1. lra. }
  rewrite <- Zlt_Qlt in H1, H2. lia.
Qed.

End PyIntOrder.

Section CalibrationExtra.

Import Config.
Local Open Scope Q_scope.

Variable cfg : DetectorConfig.
Hypothesis range_ok : energy_min_kev cfg < energy_max_kev cfg.
Hypothesis usable_ok : (1 <= usable_channels cfg)%Z.

(** Channel to energy and back is exact on every usable channel. *)
Lemma channel_energy_channel (c : Z) :
  (0 <= c <= max_channel cfg)%Z ->
  exists e, channel_to_energy cfg c = Ok e /\ energy_to_channel cfg e = Ok c.
Proof using range_ok usable_ok.
  intros Hc. eexists. split; [apply channel_to_energy_eq; assumption|].
  rewrite energy_to_channel_eq by assumption. f_equal.
  pose proof (channel_width_pos cfg range_ok usable_ok) as Hw.
  set (s := (if skip_first_channel cfg then 1 else 0)%Z).
  assert (Hs : (0 <= s <= 1)%Z) by (unfold s; destruct (skip_first_channel cfg); lia).
  assert (Hmax : (max_channel cfg = num_channels cfg - 1 - s)%Z).
  { unfold max_channel, s. destruct (skip_first_channel cfg); lia. }
  replace (Z.max 0 (Z.min (num_channels cfg - 1) (c + s))) with (c + s)%Z by lia.
  assert (Hq : (energy_min_kev cfg + (inject_Z (c + s) + 0.5) * channel_width cfg
                - energy_min_kev cfg) / channel_width cfg
               == inject_Z (c + s) + 0.5) by (field; lra).
  rewrite (py_int_proper _ _ Hq), py_int_half by lia. lia.
Qed.

(** The array of bin centres is [channel_to_energy] tabulated. *)
Lemma energy_bins_are_channel_centres (c : Z) :
  (0 <= c <= max_channel cfg)%Z ->
  exists bins e,
    get_energy_bins cfg = Ok bins /\
    channel_to_energy cfg c = Ok e /\
    bins !! Z.to_nat c = Some e.
Proof using range_ok usable_ok.
  intros Hc.
  unfold get_energy_bins.
  rewrite (get_channel_width_ok cfg usable_ok). cbn [mbind result_bind].
  eexists. eexists. split; [reflexivity|].
  split; [apply channel_to_energy_eq; assumption|].
  set (s := (if skip_first_channel cfg then 1 else 0)%Z).
  assert (Hs : (0 <= s <= 1)%Z) by (unfold s; destruct (skip_first_channel cfg); lia).
  assert (Hmax : (max_channel cfg = num_channels cfg - 1 - s)%Z).
  { unfold max_channel, s. destruct (skip_first_channel cfg); lia. }
  replace (Z.max 0 (Z.min (num_channels cfg - 1) (c + s))) with (c + s)%Z by lia.
  rewrite list_lookup_fmap. unfold arange. rewrite list_lookup_fmap.
  rewrite lookup_seq_lt by lia. cbn [fmap option_fmap option_map].
  replace (s + Z.of_nat (0 + Z.to_nat c))%Z with (c + s)%Z by lia.
  reflexivity.
Qed.

(** A larger energy never maps to a smaller channel. *)
Lemma energy_to_channel_mono (E1 E2 : Q) :
  E1 <= E2 ->
  exists c1 c2,
    energy_to_channel cfg E1 = Ok c1 /\
    energy_to_channel cfg E2 = Ok c2 /\
    (c1 <= c2)%Z.
Proof using range_ok usable_ok.
  intros HE. eexists. eexists.
  split; [apply energy_to_channel_eq; assumption|].
  split; [apply energy_to_channel_eq; assumption|].
  pose proof (channel_width_pos cfg range_ok usable_ok) as Hw.
  assert (Hm : (py_int ((E1 - energy_min_kev cfg) / channel_width cfg)
                <= py_int ((E2 - energy_min_kev cfg) / channel_width cfg))%Z).
  { apply py_int_mono. apply Qle_shift_div_l; [exact Hw|].
    assert (Hx : (E1 - energy_min_kev cfg) / channel_width cfg * channel_width cfg
                 == E1 - energy_min_kev cfg) by (field; lra).
    rewrite Hx. lra. }
  lia.
Qed.

End CalibrationExtra.

Section CalibrationExtraClaims.

Import Config.
Local Open Scope Q_scope.

(** X1: on a configuration with [energy_min_kev < energy_max_kev] and at
    least one usable channel, channel -> energy -> channel is exact:
    [energy_to_channel (channel_to_energy c) = c] for every usable channel
    index [c]. *)
Theorem channel_to_energy_to_channel (cfg : DetectorConfig) (c : Z) :
  energy_min_kev cfg < energy_max_kev cfg ->
  (1 <= usable_channels cfg)%Z ->
  (0 <= c < usable_channels cfg)%Z ->
  exists e, channel_to_energy cfg c = Ok e /\ energy_to_channel cfg e = Ok c.
Proof.
  intros Hr Hu Hc. apply channel_energy_channel; try assumption.
  unfold max_channel, usable_channels in *.
  destruct (skip_first_channel cfg); lia.
Qed.

Lemma channel_to_energy_to_channel_witness :
  exists e, channel_to_energy radiacode_103 1022 = Ok e /\
            energy_to_channel radiacode_103 e = Ok 1022%Z.
Proof.
  apply (channel_to_energy_to_channel radiacode_103 1022).
  - reflexivity.
  - vm_compute. discriminate.
  - vm_compute. split; [discriminate | reflexivity].
Defined.

(** X2: on such a configuration the array returned by [get_energy_bins] has
    one entry per usable channel, and its entry at index [c] is
    [channel_to_energy c]. *)
Theorem get_energy_bins_tabulates_channel_to_energy
    (cfg : DetectorConfig) (c : Z) :
  energy_min_kev cfg < energy_max_kev cfg ->
  (1 <= usable_channels cfg)%Z ->
  (0 <= c < usable_channels cfg)%Z ->
  exists bins e,
    get_energy_bins cfg = Ok bins /\
    Z.of_nat (length bins) = usable_channels cfg /\
    channel_to_energy cfg c = Ok e /\
    bins !! Z.to_nat c = Some e.
Proof.
  intros Hr Hu Hc.
  destruct (energy_bins_are_channel_centres cfg Hr Hu c)
    as (bins & e & Hb & He & Hl).
  { unfold max_channel, usable_channels in *.
    destruct (skip_first_channel cfg); lia. }
  destruct (get_energy_bins_length cfg Hu) as (bins' & Hb' & Hlen).
  rewrite Hb in Hb'. injection Hb' as <-.
  exists bins, e. auto.
Qed.

Lemma get_energy_bins_tabulates_channel_to_energy_witness :
  exists bins e,
    get_energy_bins radiacode_103g = Ok bins /\
    Z.of_nat (length bins) = usable_channels radiacode_103g /\
    channel_to_energy radiacode_103g 0 = Ok e /\
    bins !! Z.to_nat 0 = Some e.
Proof.
  apply (get_energy_bins_tabulates_channel_to_energy radiacode_103g 0).
  - reflexivity.
  - vm_compute. discriminate.
  - vm_compute. split; [discriminate | reflexivity].
Defined.

(** X3: on such a configuration [energy_to_channel] is monotone: a larger
    energy never gets a smaller channel index. *)
Theorem energy_to_channel_monotone (cfg : DetectorConfig) (E1 E2 : Q) :
  energy_min_kev cfg < energy_max_kev cfg ->
  (1 <= usable_channels cfg)%Z ->
  E1 <= E2 ->
  exists c1 c2,
    energy_to_channel cfg E1 = Ok c1 /\
    energy_to_channel cfg E2 = Ok c2 /\
    (c1 <= c2)%Z.
Proof.
  intros Hr Hu HE. exact (energy_to_channel_mono cfg Hr Hu E1 E2 HE).
Qed.

Lemma energy_to_channel_monotone_witness :
  exists c1 c2,
    energy_to_channel radiacode_110 59.54 = Ok c1 /\
    energy_to_channel radiacode_110 1460.83 = Ok c2 /\
    (c1 <= c2)%Z.
Proof.
  apply (energy_to_channel_monotone radiacode_110 59.54 1460.83).
  - reflexivity.
  - vm_compute. discriminate.
  - vm_compute. discriminate.
Defined.

(** X4: [energy_to_channel] raises [ZeroDivisionError] exactly when the
    configuration has no channels or an empty energy range, and returns a
    channel otherwise; it raises nothing else. *)
Theorem energy_to_channel_raises (cfg : DetectorConfig) (E : Q) :
  (num_channels cfg = 0%Z \/ energy_max_kev cfg == energy_min_kev cfg ->
   energy_to_channel cfg E = Raise ZeroDivisionError) /\
  (num_channels cfg <> 0%Z /\ ~ energy_max_kev cfg == energy_min_kev cfg ->
   exists c, energy_to_channel cfg E = Ok c).
Proof.
  unfold energy_to_channel, get_channel_width_kev. split.
  - intros [Hn|He].
    + rewrite py_div_zero by (rewrite Hn; reflexivity). reflexivity.
    + destruct (Qeq_dec (inject_Z (num_channels cfg)) 0) as [Hz|Hnz].
      * rewrite py_div_zero by exact Hz. reflexivity.
      * rewrite py_div_ok by exact Hnz. cbn [mbind result_bind].
        rewrite py_div_zero; [reflexivity|].
        rewrite He. unfold Qminus. rewrite Qplus_opp_r.
        unfold Qdiv. apply Qmult_0_l.
  - intros [Hn He].
    assert (Hnz : ~ inject_Z (num_channels cfg) == 0).
    { intros Hz. apply Hn. unfold Qeq in Hz. simpl in Hz. lia. }
    rewrite py_div_ok by exact Hnz. cbn [mbind result_bind].
    rewrite py_div_ok.
    + cbn [mbind result_bind]. destruct (skip_first_channel cfg); eexists; reflexivity.
    + intros Hz. apply He.
      assert (Hx : (energy_max_kev cfg - energy_min_kev cfg)
                   / inject_Z (num_channels cfg) * inject_Z (num_channels cfg)
                   == energy_max_kev cfg - energy_min_kev cfg)
        by (field; exact Hnz).
      rewrite Hz in Hx. lra.
Qed.

Lemma energy_to_channel_raises_witness :
  energy_to_channel
    {| name := "flat"; energy_min_kev := 20; energy_max_kev := 20;
       num_channels := 1024; skip_first_channel := true;
       fwhm_at_662 := 0.084; fwhm_uncertainty := 0.003;
       crystal_type := "CsI(Tl)"; sensitivity_cps_per_usvh := 30;
       detector_volume_cm3 := 1 |} 100
  = Raise ZeroDivisionError.
Proof.
  apply (energy_to_channel_raises _ 100). right. reflexivity.
Defined.

End CalibrationExtraClaims.

(** ** More on the label codec *)

Section DecoderShape.

Import Labels.
Local Open Scope Q_scope.

Lemma Z_of_byte_range (b : byte) : (0 <= Z_of_byte b < 256)%Z.
Proof.
  unfold Z_of_byte. pose proof (Byte.to_N_bounded b) as H. lia.
Qed.

Lemma getitem_Ok (data : list byte) (i : nat) :
  (i < length data)%nat -> exists b, data !! i = Some b /\ getitem data i = Ok (Z_of_byte b).
Proof.
  intros H. destruct (lookup_lt_is_Some_2 data i H) as [b Hb].
  exists b. split; [exact Hb|]. unfold getitem. rewrite Hb. reflexivity.
Qed.

Lemma getitem_Raise (data : list byte) (i : nat) :
  (length data <= i)%nat -> getitem data i = Raise IndexError.
Proof.
  intros H. unfold getitem. rewrite lookup_ge_None_2 by exact H. reflexivity.
Qed.

Lemma read_isotopes_Ok (data : list byte) (n off : nat) (acc : list string) :
  (off + n <= length data)%nat ->
  exists names,
    read_isotopes data n off acc = Ok (acc ++ names, (off + n)%nat) /\
    length names = n.
Proof.
  revert off acc. induction n as [|n IH]; intros off acc Hlen;
    cbn [read_isotopes].
  - exists []. rewrite app_nil_r, Nat.add_0_r. auto.
  - destruct (getitem_Ok data off) as (b & _ & Hb); [lia|].
    rewrite Hb. cbn [mbind result_bind].
    destruct (IH (off + 1)%nat (acc ++ [isotope_of_index (Z_of_byte b)]))
      as (names & Hr & Hn); [lia|].
    exists (isotope_of_index (Z_of_byte b) :: names).
    rewrite Hr, <- app_assoc. cbn [app length].
    split; [do 2 f_equal; lia | lia].
Qed.

Lemma read_isotopes_Raise (data : list byte) (n off : nat) (acc : list string) :
  (off <= length data)%nat ->
  (length data < off + n)%nat ->
  read_isotopes data n off acc = Raise IndexError.
Proof.
  revert off acc. induction n as [|n IH]; intros off acc Hoff Hlen;
    cbn [read_isotopes]; [lia|].
  destruct (le_lt_dec (length data) off) as [Hle|Hlt].
  - rewrite getitem_Raise by exact Hle. reflexivity.
  - destruct (getitem_Ok data off Hlt) as (b & _ & Hb).
    rewrite Hb. cbn [mbind result_bind]. apply IH; lia.
Qed.

Lemma slice_two (data : list byte) (off : nat) :
  (off + 2 <= length data)%nat ->
  exists lo hi, slice data off (off + 2) = [lo; hi].
Proof.
  intros H. unfold slice.
  replace (off + 2 - off)%nat with 2%nat by lia.
  destruct (drop off data) as [|lo [|hi rest]] eqn:Hd.
  - apply (f_equal length) in Hd. rewrite length_drop in Hd.
    cbn [length] in Hd. lia.
  - apply (f_equal length) in Hd. rewrite length_drop in Hd.
    cbn [length] in Hd. lia.
  - exists lo, hi. reflexivity.
Qed.

Lemma slice_short (data : list byte) (off : nat) :
  (length data < off + 2)%nat ->
  struct_unpack_H (slice data off (off + 2)) = Raise StructError.
Proof.
  intros H. unfold slice.
  replace (off + 2 - off)%nat with 2%nat by lia.
  destruct (drop off data) as [|lo [|hi rest]] eqn:Hd; try reflexivity.
  apply (f_equal length) in Hd. rewrite length_drop in Hd.
  cbn [length] in Hd. lia.
Qed.

Lemma read_activities_Ok (data : list byte) (names : list string) (off : nat)
    (acc : gmap string Q) :
  (off + 2 * length names <= length data)%nat ->
  exists acts,
    read_activities data names off acc
      = Ok (acts, (off + 2 * length names)%nat) /\
    dom acts = dom acc ∪ list_to_set names /\
    (map_Forall (fun _ q => decoded_value q) acc ->
     map_Forall (fun _ q => decoded_value q) acts).
Proof.
  revert off acc. induction names as [|iso names IH]; intros off acc Hlen;
    cbn [read_activities length] in *.
  - exists acc. rewrite Nat.mul_0_r, Nat.add_0_r.
    split; [reflexivity|]. split; [|auto].
    cbn [list_to_set]. apply set_eq. intros x.
    rewrite elem_of_union, elem_of_empty. tauto.
  - destruct (slice_two data off) as (lo & hi & Hs); [lia|].
    rewrite Hs. cbn [struct_unpack_H mbind result_bind].
    set (v := (Z_of_byte lo + 256 * Z_of_byte hi)%Z).
    destruct (IH (off + 2)%nat (<[iso := inject_Z v / 65.535]> acc))
      as (acts & Hr & Hdom & Hval); [lia|].
    exists acts. rewrite Hr. split; [do 2 f_equal; lia|]. split.
    + rewrite Hdom, dom_insert_L. cbn [list_to_set]. apply set_eq. intros x.
      rewrite !elem_of_union. tauto.
    + intros Hacc. apply Hval. apply map_Forall_insert_2; [|exact Hacc].
      exists v. split; [|reflexivity].
      pose proof (Z_of_byte_range lo). pose proof (Z_of_byte_range hi).
      unfold v. lia.
Qed.

Lemma read_activities_Raise (data : list byte) (names : list string)
    (off : nat) (acc : gmap string Q) :
  (off <= length data)%nat ->
  (length data < off + 2 * length names)%nat ->
  read_activities data names off acc = Raise StructError.
Proof.
  revert off acc. induction names as [|iso names IH]; intros off acc Hoff Hlen;
    cbn [read_activities length] in *; [lia|].
  destruct (le_lt_dec (off + 2) (length data)) as [Hle|Hlt].
  - destruct (slice_two data off Hle) as (lo & hi & Hs).
    rewrite Hs. cbn [struct_unpack_H mbind result_bind]. apply IH; lia.
  - rewrite slice_short by exact Hlt. reflexivity.
Qed.

(** What a successful decode looks like, and when decoding succeeds. *)
Lemma unpack_labels_shape (data : list byte) :
  match data !! 0%nat with
  | None => unpack_labels data = Raise IndexError
  | Some c =>
      let n := Z.to_nat (Z_of_byte c) in
      if decide (2 + 3 * n <= length data)%nat then
        exists lbl,
          unpack_labels data = Ok lbl /\
          length (isotopes lbl) = n /\
          dom (activities lbl) = list_to_set (isotopes lbl) /\
          map_Forall (fun _ q => decoded_value q) (activities lbl)
      else exists e, unpack_labels data = Raise e
  end.
Proof.
  unfold unpack_labels.
  destruct (data !! 0%nat) as [c|] eqn:Hc.
  2:{ unfold getitem. rewrite Hc. reflexivity. }
  assert (Hget : getitem data 0 = Ok (Z_of_byte c))
    by (unfold getitem; rewrite Hc; reflexivity).
  cbv zeta. rewrite Hget. cbn [mbind result_bind].
  set (n := Z.to_nat (Z_of_byte c)).
  destruct (decide (2 + 3 * n <= length data)%nat) as [Hlen|Hshort].
  - destruct (read_isotopes_Ok data n (0 + 1) []) as (names & Hr & Hn); [lia|].
    rewrite Hr. cbn [mbind result_bind app].
    destruct (read_activities_Ok data names (0 + 1 + n) ∅)
      as (acts & Ha & Hdom & Hval); [lia|].
    rewrite Ha. cbn [mbind result_bind].
    destruct (getitem_Ok data (0 + 1 + n + 2 * length names))
      as (fb & _ & Hfb); [lia|].
    rewrite Hfb. cbn [mbind result_bind].
    eexists. split; [reflexivity|]. cbn [isotopes activities].
    split; [exact Hn|]. split.
    + rewrite Hdom, dom_empty_L. apply set_eq. intros x.
      rewrite elem_of_union, elem_of_empty. tauto.
    + apply Hval. apply map_Forall_empty.
  - destruct (le_lt_dec (0 + 1 + n) (length data)) as [Hle|Hlt].
    + destruct (read_isotopes_Ok data n (0 + 1) []) as (names & Hr & Hn);
        [lia|].
      rewrite Hr. cbn [mbind result_bind app].
      destruct (le_lt_dec (0 + 1 + n + 2 * length names) (length data))
        as [Hle2|Hlt2].
      * destruct (read_activities_Ok data names (0 + 1 + n) ∅)
          as (acts & Ha & _); [lia|].
        rewrite Ha. cbn [mbind result_bind].
        rewrite getitem_Raise by lia. eexists. reflexivity.
      * rewrite read_activities_Raise by lia. eexists. reflexivity.
    + assert (Hpos : (0 < length data)%nat)
        by (apply lookup_lt_is_Some; eauto).
      rewrite read_isotopes_Raise by lia. eexists. reflexivity.
Qed.

End DecoderShape.

Section CodecExtraClaims.

Import Labels.
Local Open Scope Q_scope.

Lemma activity_bytes_length (acts : gmap string Q) (names : list string) :
  length (activity_bytes acts names) = (2 * length names)%nat.
Proof.
  unfold activity_bytes. induction names as [|iso names IH];
    cbn [flat_map length]; [reflexivity|].
  rewrite length_app, IH. cbn [uint16_le length]. lia.
Qed.

(** X5: [pack_labels] writes 2 + 3 * min(n, 255) bytes for [n] isotope
    names, hence never more than 767 (the "Max size" of its docstring). *)
Theorem pack_labels_size (isos : list string)
    (acts : gmap string Q) (flags : gmap string bool) :
  exists data,
    pack_labels isos acts flags = Ok data /\
    length data = (2 + 3 * Nat.min (length isos) 255)%nat /\
    (length data <= 767)%nat.
Proof.
  eexists. split; [apply pack_labels_layout|].
  cbn [length]. rewrite !length_app, activity_bytes_length.
  unfold index_bytes. rewrite length_map, length_take. cbn [length]. lia.
Qed.

(** X6: [unpack_labels] returns a label exactly when the data holds a count
    byte [c] and at least 2 + 3 * c bytes; on anything shorter it raises. *)
Theorem unpack_labels_succeeds_iff (data : list byte) :
  (exists lbl, unpack_labels data = Ok lbl) <->
  (exists c, data !! 0%nat = Some c /\
             (2 + 3 * Z.to_nat (Z_of_byte c) <= length data)%nat).
Proof.
  pose proof (unpack_labels_shape data) as H.
  destruct (data !! 0%nat) as [c|] eqn:Hc.
  - cbv zeta in H.
    destruct (decide (2 + 3 * Z.to_nat (Z_of_byte c) <= length data)%nat)
      as [Hlen|Hshort].
    + destruct H as (lbl & Hl & _). split; eauto.
    + destruct H as [e He]. split.
      * intros [lbl Hl]. rewrite He in Hl. discriminate.
      * intros (c' & [= <-] & Hlen). contradiction.
  - split.
    + intros [lbl Hl]. rewrite H in Hl. discriminate.
    + intros (c & Hc' & _). discriminate.
Qed.

Lemma decoded_value_range (q : Q) : decoded_value q -> 0 <= q <= 1000.
Proof.
  intros (v & [Hlo Hhi] & ->).
  assert (H0 : 0 <= inject_Z v)
    by (change 0 with (inject_Z 0); rewrite <- Zle_Qle; exact Hlo).
  assert (H1 : inject_Z v <= 65535)
    by (change 65535 with (inject_Z 65535); rewrite <- Zle_Qle; exact Hhi).
  split.
  - apply Qle_shift_div_l; [reflexivity|]. lra.
  - apply Qle_shift_div_r; [reflexivity|]. lra.
Qed.

(** X7: whatever bytes it is given, a label [unpack_labels] returns has as
    many isotope names as the count byte says, an activity for exactly the
    names it lists, and every activity in [0, 1000] Bq. *)
Theorem unpack_labels_well_formed (data : list byte) (lbl : Label) :
  unpack_labels data = Ok lbl ->
  (exists c, data !! 0%nat = Some c /\
             length (isotopes lbl) = Z.to_nat (Z_of_byte c)) /\
  dom (activities lbl) = list_to_set (isotopes lbl) /\
  (forall iso q, activities lbl !! iso = Some q -> 0 <= q <= 1000).
Proof.
  intros Hl. pose proof (unpack_labels_shape data) as H.
  destruct (data !! 0%nat) as [c|] eqn:Hc.
  - cbv zeta in H.
    destruct (decide (2 + 3 * Z.to_nat (Z_of_byte c) <= length data)%nat)
      as [Hlen|Hshort].
    + destruct H as (lbl' & Hl' & Hn & Hdom & Hval).
      rewrite Hl in Hl'. injection Hl' as <-.
      split; [eauto|]. split; [exact Hdom|].
      intros iso q Hq. apply decoded_value_range. exact (Hval iso q Hq).
    + destruct H as [e He]. rewrite He in Hl. discriminate.
  - rewrite H in Hl. discriminate.
Qed.

Lemma unpack_labels_well_formed_witness :
  (exists c, ["001"; "030"; "255"; "255"; "015"]%byte !! 0%nat = Some c /\
             length (isotopes
               {| isotopes := ["Cs-137"];
                  activities := {["Cs-137" := inject_Z 65535 / 65.535]};
                  normalized := true; include_k40 := true;
                  include_radon := true; include_thorium := true |})
             = Z.to_nat (Z_of_byte c)) /\
  dom (activities
         {| isotopes := ["Cs-137"];
            activities := {["Cs-137" := inject_Z 65535 / 65.535]};
            normalized := true; include_k40 := true;
            include_radon := true; include_thorium := true |})
  = list_to_set (isotopes
         {| isotopes := ["Cs-137"];
            activities := {["Cs-137" := inject_Z 65535 / 65.535]};
            normalized := true; include_k40 := true;
            include_radon := true; include_thorium := true |}) /\
  (forall iso q,
     activities
       {| isotopes := ["Cs-137"];
          activities := {["Cs-137" := inject_Z 65535 / 65.535]};
          normalized := true; include_k40 := true;
          include_radon := true; include_thorium := true |} !! iso = Some q ->
     0 <= q <= 1000).
Proof.
  apply (unpack_labels_well_formed ["001"; "030"; "255"; "255"; "015"]%byte).
  vm_compute. reflexivity.
Defined.

(** X8: when every name is in the master index, decoding a packed label
    gives back the first 255 names: the count byte saturates at 255 and the
    names after the 255th are dropped, without an error. *)
Theorem pack_labels_truncates (isos : list string)
    (acts : gmap string Q) (flags : gmap string bool) :
  (forall iso, iso ∈ isos -> is_Some (ISOTOPE_INDEX !! iso)) ->
  exists data lbl,
    pack_labels isos acts flags = Ok data /\
    data !! 0%nat = Some (byte_at (Z.min (Z.of_nat (length isos)) 255)) /\
    unpack_labels data = Ok lbl /\
    isotopes lbl = take 255 isos.
Proof.
  intros Hknown.
  destruct (unpack_pack_labels isos acts flags) as (data & Hpack & Hunpack).
  exists data. eexists. split; [exact Hpack|].
  split; [|split; [exact Hunpack|]].
  - rewrite pack_labels_layout in Hpack. injection Hpack as <-. reflexivity.
  - cbn [isotopes]. rewrite <- (map_id (take 255 isos)) at 2.
    apply map_ext_in. intros iso Hin.
    apply decoded_name_known, Hknown.
    apply list_elem_of_In in Hin.
    exact (subseteq_take 255 isos iso Hin).
Qed.

Lemma pack_labels_truncates_witness :
  exists data lbl,
    pack_labels (replicate 300 "Co-60"%string) ∅ ∅ = Ok data /\
    data !! 0%nat
      = Some (byte_at (Z.min (Z.of_nat (length (replicate 300 "Co-60"%string))) 255)) /\
    unpack_labels data = Ok lbl /\
    isotopes lbl = take 255 (replicate 300 "Co-60"%string).
Proof.
  apply (pack_labels_truncates (replicate 300 "Co-60"%string) ∅ ∅).
  intros iso Hin. apply elem_of_replicate in Hin as [-> _].
  vm_compute. eauto.
Defined.

Lemma scale_activity_nonpos (a : Q) : a <= 0 -> scale_activity a = 0%Z.
Proof.
  intros Ha. unfold scale_activity.
  assert (H : Qmin a 1000.0 * 65.535 <= 0).
  { destruct (Q.min_spec a 1000.0) as [[? ->]|[? ->]]; lra. }
  apply py_int_neg in H. lia.
Qed.

(** X9: an activity outside [0, 1000] Bq is clamped, not rejected: whatever
    the activity, the decoded value lies in [0, 1000]; an activity of 0 or
    less decodes as 0, and one of 1000 Bq or more decodes as exactly
    1000. *)
Theorem decoded_activity_clamped (a : Q) :
  let decoded := inject_Z (scale_activity a) / 65.535 in
  0 <= decoded <= 1000 /\
  (a <= 0 -> decoded == 0) /\
  (1000 <= a -> decoded == 1000).
Proof.
  cbv zeta. split; [|split].
  - pose proof (scale_activity_range a) as [Hlo Hhi].
    rewrite Zle_Qle in Hlo, Hhi.
    set (v := inject_Z (scale_activity a)) in *. clearbody v.
    change (inject_Z 0) with 0 in Hlo.
    change (inject_Z 65535) with 65535 in Hhi.
    assert (Hd : v / 65.535 * 65.535 == v) by (field; discriminate).
    set (d := v / 65.535) in *. clearbody d. split; lra.
  - intros Ha. rewrite scale_activity_nonpos by exact Ha. reflexivity.
  - intros Ha. rewrite scale_activity_saturates by exact Ha. reflexivity.
Qed.

Lemma decoded_activity_clamped_witness :
  0 <= inject_Z (scale_activity 12.5) / 65.535 <= 1000 /\
  inject_Z (scale_activity (- (3))) / 65.535 == 0 /\
  inject_Z (scale_activity 2000) / 65.535 == 1000.
Proof.
  split; [|split].
  - exact (proj1 (decoded_activity_clamped 12.5)).
  - apply (proj1 (proj2 (decoded_activity_clamped (- (3))))).
    vm_compute. discriminate.
  - apply (proj2 (proj2 (decoded_activity_clamped 2000))).
    vm_compute. discriminate.
Defined.

Lemma Qmin_mono_l (a b c : Q) : a <= b -> Qmin a c <= Qmin b c.
Proof.
  intros H.
  destruct (Q.min_spec a c) as [[? ->]|[? ->]];
    destruct (Q.min_spec b c) as [[? ->]|[? ->]]; lra.
Qed.

(** X10: encoding keeps the order of activities: a larger activity never
    gets a smaller stored value. *)
Theorem scale_activity_monotone (a b : Q) :
  a <= b -> (scale_activity a <= scale_activity b)%Z.
Proof.
  intros H. unfold scale_activity.
  assert (Hm : (py_int (Qmin a 1000.0 * 65.535)
                <= py_int (Qmin b 1000.0 * 65.535))%Z).
  { apply py_int_mono. pose proof (Qmin_mono_l a b 1000.0 H). lra. }
  lia.
Qed.

Lemma scale_activity_monotone_witness :
  (scale_activity 12.5 <= scale_activity 980)%Z.
Proof.
  apply (scale_activity_monotone 12.5 980). vm_compute. discriminate.
Defined.

End CodecExtraClaims.

(** ** More on decay chains and parent inference *)

Section InferenceExtra.

Import DecayChains.
Local Open Scope Q_scope.

Lemma spec_confidence_range (detected : gset string) (s : ChainSignature) :
  required_daughters s ∩ detected ≠ ∅ ->
  0 < spec_confidence detected s <= 1.
Proof.
  intros Hne. unfold spec_confidence. cbv zeta.
  set (rf := len (required_daughters s ∩ detected)).
  set (rq := len (required_daughters s)).
  assert (Hrf : 0 < rf).
  { apply len_pos. assert (size (required_daughters s ∩ detected) ≠ 0%nat); [|lia].
    apply size_non_empty_iff. intros He. apply Hne. apply leibniz_equiv. exact He. }
  assert (Hle : rf <= rq) by (apply len_subseteq, intersection_subseteq_l).
  assert (Hbase : 0 < rf / rq) by (apply Qlt_shift_div_l; lra).
  assert (Hboost : 0 <= (if decide (optional_daughters s = ∅) then 0
                         else 0.1 * (len (optional_daughters s ∩ detected)
                                     / len (optional_daughters s)))).
  { destruct (decide (optional_daughters s = ∅)) as [|Hopt]; [lra|].
    assert (Hop : 0 < len (optional_daughters s)).
    { apply len_pos. assert (size (optional_daughters s) ≠ 0%nat); [|lia].
      apply size_non_empty_iff. intros He. apply Hopt.
      apply leibniz_equiv. exact He. }
    assert (Hopf : 0 <= len (optional_daughters s ∩ detected)).
    { unfold len. change 0 with (inject_Z 0). rewrite <- Zle_Qle. lia. }
    assert (0 <= len (optional_daughters s ∩ detected)
                 / len (optional_daughters s))
      by (apply Qle_shift_div_l; lra).
    lra. }
  set (b := if decide (optional_daughters s = ∅) then 0 else _) in *.
  destruct (Q.min_spec 1 (rf / rq + b)) as [[? ->]|[? ->]]; split; lra.
Qed.

Lemma spec_confidence_full (detected : gset string) (s : ChainSignature) :
  required_daughters s ≠ ∅ ->
  required_daughters s ⊆ detected ->
  spec_confidence detected s == 1.
Proof.
  intros Hne Hsub. unfold spec_confidence. cbv zeta.
  assert (Hall : required_daughters s ∩ detected = required_daughters s).
  { apply set_eq. intros x. rewrite elem_of_intersection.
    split; [tauto|]. intros Hx. split; [exact Hx|]. apply Hsub. exact Hx. }
  rewrite Hall.
  assert (Hrq : 0 < len (required_daughters s)).
  { apply len_pos. assert (size (required_daughters s) ≠ 0%nat); [|lia].
    apply size_non_empty_iff. intros He. apply Hne.
    apply leibniz_equiv. exact He. }
  assert (Hone : len (required_daughters s) / len (required_daughters s) == 1)
    by (field; lra).
  assert (Hboost : 0 <= (if decide (optional_daughters s = ∅) then 0
                         else 0.1 * (len (optional_daughters s ∩ detected)
                                     / len (optional_daughters s)))).
  { destruct (decide (optional_daughters s = ∅)) as [|Hopt]; [lra|].
    assert (Hop : 0 < len (optional_daughters s)).
    { apply len_pos. assert (size (optional_daughters s) ≠ 0%nat); [|lia].
      apply size_non_empty_iff. intros He. apply Hopt.
      apply leibniz_equiv. exact He. }
    assert (Hopf : 0 <= len (optional_daughters s ∩ detected)).
    { unfold len. change 0 with (inject_Z 0). rewrite <- Zle_Qle. lia. }
    assert (0 <= len (optional_daughters s ∩ detected)
                 / len (optional_daughters s))
      by (apply Qle_shift_div_l; lra).
    lra. }
  set (b := if decide (optional_daughters s = ∅) then 0 else _) in *.
  set (q := len (required_daughters s) / len (required_daughters s)) in *.
  destruct (Q.min_spec 1 (q + b)) as [[? ->]|[? ->]]; lra.
Qed.

Lemma len_ratio_mono (a b c : gset string) :
  0 < len c -> a ⊆ b -> len a / len c <= len b / len c.
Proof.
  intros Hc Hab. apply Qle_shift_div_l; [exact Hc|].
  assert (Hx : len a / len c * len c == len a) by (field; lra).
  rewrite Hx. apply len_subseteq. exact Hab.
Qed.

Lemma len_nonempty (c : gset string) : c ≠ ∅ -> 0 < len c.
Proof.
  intros Hne. apply len_pos. assert (size c ≠ 0%nat); [|lia].
  apply size_non_empty_iff. intros He. apply Hne. apply leibniz_equiv. exact He.
Qed.

Lemma spec_confidence_mono (d1 d2 : gset string) (s : ChainSignature) :
  d1 ⊆ d2 ->
  required_daughters s ∩ d1 ≠ ∅ ->
  spec_confidence d1 s <= spec_confidence d2 s.
Proof.
  intros Hsub Hne.
  assert (Hrq : 0 < len (required_daughters s)).
  { apply len_nonempty. intros He. apply Hne. rewrite He.
    apply set_eq. intros x. rewrite elem_of_intersection, elem_of_empty. tauto. }
  pose (base := fun d => len (required_daughters s ∩ d)
                         / len (required_daughters s)).
  pose (boost := fun d =>
    if decide (optional_daughters s = ∅) then 0
    else 0.1 * (len (optional_daughters s ∩ d) / len (optional_daughters s))).
  change (Qmin 1 (base d1 + boost d1) <= Qmin 1 (base d2 + boost d2)).
  assert (Hbase : base d1 <= base d2).
  { unfold base. apply len_ratio_mono; [exact Hrq|].
    intros x. rewrite !elem_of_intersection.
    intros [? ?]. split; [assumption|]. apply Hsub. assumption. }
  assert (Hboost : boost d1 <= boost d2).
  { unfold boost. destruct (decide (optional_daughters s = ∅)) as [|Hopt]; [lra|].
    assert (len (optional_daughters s ∩ d1) / len (optional_daughters s)
            <= len (optional_daughters s ∩ d2) / len (optional_daughters s)).
    { apply len_ratio_mono; [apply len_nonempty; exact Hopt|].
      intros x. rewrite !elem_of_intersection.
      intros [? ?]. split; [assumption|]. apply Hsub. assumption. }
    lra. }
  clearbody base boost.
  destruct (Q.min_spec 1 (base d1 + boost d1)) as [[? H1]|[? H1]];
    destruct (Q.min_spec 1 (base d2 + boost d2)) as [[? H2]|[? H2]];
    rewrite H1, H2; lra.
Qed.

(** The signatures and the confidences of the results, for the registry of
    the module. *)
Lemma inferred_results (detected : gset string) :
  map inf_signature (infer_parent_from_daughters detected)
    ≡ₚ filter (fun s => required_daughters s ∩ detected ≠ ∅)
              (map snd CHAIN_SIGNATURES) /\
  (forall r, r ∈ infer_parent_from_daughters detected ->
     inf_parent r = inferred_parent (inf_signature r) /\
     inf_confidence r == spec_confidence detected (inf_signature r)).
Proof.
  unfold infer_parent_from_daughters.
  destruct (infer_parent_from_spec detected CHAIN_SIGNATURES)
    as (Hperm & Hconf & _).
  split; [exact Hperm | exact Hconf].
Qed.

Lemma result_in_registry (detected : gset string) (r : Inference) :
  r ∈ infer_parent_from_daughters detected ->
  inf_signature r ∈ map snd CHAIN_SIGNATURES /\
  required_daughters (inf_signature r) ∩ detected ≠ ∅ /\
  inf_confidence r == spec_confidence detected (inf_signature r).
Proof.
  intros Hr.
  destruct (inferred_results detected) as (Hperm & Hconf).
  assert (Hin : inf_signature r
                ∈ filter (fun s => required_daughters s ∩ detected ≠ ∅)
                         (map snd CHAIN_SIGNATURES)).
  { rewrite <- Hperm. apply list_elem_of_fmap. exists r. auto. }
  apply list_elem_of_filter in Hin as [Hne Hin].
  split; [exact Hin|]. split; [exact Hne|]. apply Hconf. exact Hr.
Qed.

End InferenceExtra.

Section InferenceExtraClaims.

Import DecayChains.
Local Open Scope Q_scope.

Lemma registry_required_nonempty (s : ChainSignature) :
  s ∈ map snd CHAIN_SIGNATURES -> required_daughters s ≠ ∅.
Proof.
  intros Hs. unfold CHAIN_SIGNATURES in Hs. cbn [map snd] in Hs.
  repeat (apply elem_of_cons in Hs as [->|Hs]);
    try (cbn [required_daughters]; intros He;
         apply (f_equal size) in He; vm_compute in He; discriminate).
  inversion Hs.
Qed.

Lemma matching_result (detected : gset string) (s : ChainSignature) :
  s ∈ map snd CHAIN_SIGNATURES ->
  required_daughters s ∩ detected ≠ ∅ ->
  exists r, r ∈ infer_parent_from_daughters detected /\ inf_signature r = s.
Proof.
  intros Hs Hne.
  destruct (inferred_results detected) as (Hperm & _).
  assert (Hin : s ∈ map inf_signature (infer_parent_from_daughters detected)).
  { rewrite Hperm. apply list_elem_of_filter. auto. }
  apply list_elem_of_fmap in Hin as (r & -> & Hr). eauto.
Qed.

(** X11: every confidence [infer_parent_from_daughters] reports is greater
    than 0 and at most 1. *)
Theorem inferred_confidence_range (detected : gset string) (r : Inference) :
  r ∈ infer_parent_from_daughters detected ->
  0 < inf_confidence r <= 1.
Proof.
  intros Hr. destruct (result_in_registry detected r Hr) as (_ & Hne & Hc).
  rewrite Hc. apply spec_confidence_range. exact Hne.
Qed.

Lemma inferred_confidence_range_witness :
  infer_parent_from_daughters {["Ac-228"; "Pb-212"]} <> [] /\
  Forall (fun r => 0 < inf_confidence r <= 1)
         (infer_parent_from_daughters {["Ac-228"; "Pb-212"]}).
Proof.
  split.
  - vm_compute. discriminate.
  - apply Forall_forall. intros r Hr.
    exact (inferred_confidence_range {["Ac-228"; "Pb-212"]} r Hr).
Defined.

(** X12: when every required daughter of a registered signature is detected,
    that signature is reported, with its inferred parent and confidence 1,
    whatever else is or is not detected. *)
Theorem full_signature_has_confidence_one
    (detected : gset string) (s : ChainSignature) :
  s ∈ map snd CHAIN_SIGNATURES ->
  required_daughters s ⊆ detected ->
  exists r,
    r ∈ infer_parent_from_daughters detected /\
    inf_signature r = s /\
    inf_parent r = inferred_parent s /\
    inf_confidence r == 1.
Proof.
  intros Hs Hsub.
  pose proof (registry_required_nonempty s Hs) as Hne.
  assert (Hmeet : required_daughters s ∩ detected ≠ ∅).
  { intros He. apply Hne. apply set_eq. intros x. rewrite elem_of_empty.
    split; [|tauto]. intros Hx.
    assert (Hx' : x ∈ required_daughters s ∩ detected)
      by (apply elem_of_intersection; split; [exact Hx | apply Hsub, Hx]).
    rewrite He in Hx'. apply elem_of_empty in Hx'. exact Hx'. }
  destruct (matching_result detected s Hs Hmeet) as (r & Hr & Hsig).
  exists r. split; [exact Hr|]. split; [exact Hsig|].
  destruct (inferred_results detected) as (_ & Hconf). destruct (Hconf r Hr) as [Hp Hc].
  rewrite Hsig in Hp, Hc. split; [exact Hp|].
  rewrite Hc. apply spec_confidence_full; assumption.
Qed.

Lemma full_signature_has_confidence_one_witness :
  exists r,
    r ∈ infer_parent_from_daughters {["U-235"; "Cs-137"]} /\
    inf_signature r
    = {| name := "U-235 Direct"; parent_chain := "U-235";
         inferred_parent := "U-235"; required_daughters := {["U-235"]};
         optional_daughters := {["Th-231"; "Pa-231"]};
         description := "U-235 directly visible via 185.7 keV line" |} /\
    inf_parent r = "U-235"%string /\
    inf_confidence r == 1.
Proof.
  apply (full_signature_has_confidence_one {["U-235"; "Cs-137"]}
    {| name := "U-235 Direct"; parent_chain := "U-235";
       inferred_parent := "U-235"; required_daughters := {["U-235"]};
       optional_daughters := {["Th-231"; "Pa-231"]};
       description := "U-235 directly visible via 185.7 keV line" |}).
  - unfold CHAIN_SIGNATURES. cbn [map snd].
    do 4 right. left.
  - cbn [required_daughters]. intros x Hx.
    apply elem_of_singleton in Hx as ->.
    apply elem_of_union. left. apply elem_of_singleton. reflexivity.
Defined.

(** X13: detecting more never hurts: if [d1] is a subset of [d2], every
    signature reported for [d1] is reported for [d2] with a confidence at
    least as high. *)
Theorem inference_monotone (d1 d2 : gset string) (r1 : Inference) :
  d1 ⊆ d2 ->
  r1 ∈ infer_parent_from_daughters d1 ->
  exists r2,
    r2 ∈ infer_parent_from_daughters d2 /\
    inf_signature r2 = inf_signature r1 /\
    inf_confidence r1 <= inf_confidence r2.
Proof.
  intros Hsub Hr1.
  destruct (result_in_registry d1 r1 Hr1) as (Hs & Hne & Hc1).
  assert (Hne2 : required_daughters (inf_signature r1) ∩ d2 ≠ ∅).
  { intros He. apply Hne. apply set_eq. intros x.
    rewrite elem_of_intersection, elem_of_empty. split; [|tauto].
    intros [Hx Hd].
    assert (Hx' : x ∈ required_daughters (inf_signature r1) ∩ d2)
      by (apply elem_of_intersection; split; [exact Hx | apply Hsub, Hd]).
    rewrite He in Hx'. apply elem_of_empty in Hx'. exact Hx'. }
  destruct (matching_result d2 _ Hs Hne2) as (r2 & Hr2 & Hsig).
  exists r2. split; [exact Hr2|]. split; [exact Hsig|].
  destruct (result_in_registry d2 r2 Hr2) as (_ & _ & Hc2).
  rewrite Hc1, Hc2, Hsig. apply spec_confidence_mono; assumption.
Qed.

Lemma inference_monotone_witness :
  infer_parent_from_daughters {["Pb-214"]} <> [] /\
  Forall (fun r1 =>
            exists r2,
              r2 ∈ infer_parent_from_daughters {["Pb-214"; "Bi-214"]} /\
              inf_signature r2 = inf_signature r1 /\
              inf_confidence r1 <= inf_confidence r2)
         (infer_parent_from_daughters {["Pb-214"]}).
Proof.
  split.
  - vm_compute. discriminate.
  - apply Forall_forall. intros r1 Hr1.
    apply (inference_monotone {["Pb-214"]} {["Pb-214"; "Bi-214"]} r1);
      [|exact Hr1].
    intros x Hx. apply elem_of_singleton in Hx as ->.
    apply elem_of_union. left. apply elem_of_singleton. reflexivity.
Defined.

(** X14: the result is empty exactly when no registered signature has a
    required daughter among the detected isotopes; in particular an empty
    detection infers nothing. *)
Theorem no_inference_iff (detected : gset string) :
  infer_parent_from_daughters detected = [] <->
  (forall s, s ∈ map snd CHAIN_SIGNATURES ->
             required_daughters s ∩ detected = ∅).
Proof.
  split.
  - intros Hnil s Hs.
    destruct (decide (required_daughters s ∩ detected = ∅)) as [He|Hne];
      [exact He|].
    destruct (matching_result detected s Hs Hne) as (r & Hr & _).
    rewrite Hnil in Hr. inversion Hr.
  - intros Hall.
    destruct (infer_parent_from_daughters detected) as [|r rest] eqn:Hres;
      [reflexivity|].
    assert (Hr : r ∈ infer_parent_from_daughters detected)
      by (rewrite Hres; left).
    destruct (result_in_registry detected r Hr) as (Hs & Hne & _).
    destruct (Hne (Hall _ Hs)).
Qed.

End InferenceExtraClaims.

Section ChainDaughters.

Import DecayChains.

(** X15: for every parent name, the chain listed with the parent is the
    parent followed by the chain listed without it, and the list without the
    parent does not contain the parent; a name with no registered chain
    gives [[parent]] and [[]]. *)
Theorem get_chain_daughters_parent (p : string) :
  get_chain_daughters p true = p :: get_chain_daughters p false /\
  (p ∉ get_chain_daughters p false) /\
  (get_decay_chain p = None -> get_chain_daughters p false = []).
Proof.
  unfold get_chain_daughters, get_decay_chain, DECAY_CHAINS.
  cbn [List.find fst snd].
  destruct (String.eqb_spec "U-238" p) as [<-|_].
  { split; [reflexivity|]. split; [|discriminate].
    apply (bool_decide_unpack _). vm_compute. exact I. }
  destruct (String.eqb_spec "Th-232" p) as [<-|_].
  { split; [reflexivity|]. split; [|discriminate].
    apply (bool_decide_unpack _). vm_compute. exact I. }
  destruct (String.eqb_spec "U-235" p) as [<-|_].
  { split; [reflexivity|]. split; [|discriminate].
    apply (bool_decide_unpack _). vm_compute. exact I. }
  destruct (String.eqb_spec "Cs-137" p) as [<-|_].
  { split; [reflexivity|]. split; [|discriminate].
    apply (bool_decide_unpack _). vm_compute. exact I. }
  cbn [fmap option_fmap option_map]. split; [reflexivity|].
  split; [apply not_elem_of_nil | reflexivity].
Qed.

End ChainDaughters.

(** ** More on the physics functions *)

Section EfficiencyExtra.

Import Config Physics.
Local Open Scope R_scope.

(** X16: on a detector of positive volume, from the 20 keV cutoff up to
    10 MeV (far below the energies at which the exponential underflows) the
    efficiency is strictly positive and never above 0.8. *)
Theorem detector_efficiency_above_cutoff
    (E : R) (cfg : option DetectorConfig) :
  (0 < detector_volume_cm3 (config_or_default cfg))%Q ->
  20 <= E <= 10000 -> 0 < detector_efficiency E cfg <= 0.8.
Proof.
  intros Hv [HE _]. split; [apply detector_efficiency_pos; assumption|].
  unfold detector_efficiency.
  destruct (Rlt_dec E 20) as [H|_]; [lra|].
  set (vf := py_pow _ _).
  assert (Hvf : 0 < Rmin 1.0 vf <= 1).
  { pose proof (py_pow_pos _ (1 / 3)
                  (volume_Q2R_pos (config_or_default cfg) Hv)) as Hp.
    change (py_pow _ _) with vf in Hp.
    unfold Rmin. destruct (Rle_dec 1.0 vf); lra. }
  assert (Hlow : exp (- E / 50.0) < 1).
  { replace (- E / 50.0) with (- (E / 50)) by lra.
    apply exp_neg_lt_1. lra. }
  pose proof (exp_pos (- E / 50.0)) as Hlow0.
  assert (Hhigh1 : exp (- E / 2000.0) < 1).
  { replace (- E / 2000.0) with (- (E / 2000)) by lra.
    apply exp_neg_lt_1. lra. }
  pose proof (exp_pos (- E / 2000.0)) as Hhigh.
  set (a := exp (- E / 50.0)) in *.
  set (b := exp (- E / 2000.0)) in *.
  set (m := Rmin 1.0 vf) in *.
  assert (H1 : (1 - a) * b <= 1) by nra.
  assert (H2 : 0 <= (1 - a) * b) by nra.
  assert (Hle : 0.8 * (1 - a) * b * m <= 0.8) by nra.
  assert (Hge : 0 <= 0.8 * (1 - a) * b * m) by nra.
  unfold Rmax, Rmin.
  destruct (Rle_dec 1.0 (0.8 * (1 - a) * b * m));
    destruct (Rle_dec 0.0 _); lra.
Qed.

Lemma detector_efficiency_above_cutoff_witness :
  0 < detector_efficiency 661.657 (Some radiacode_110) <= 0.8.
Proof.
  apply (detector_efficiency_above_cutoff 661.657 (Some radiacode_110)).
  - reflexivity.
  - lra.
Defined.

(** X17: the FWHM formula of config.py ([get_fwhm_at_energy]) and the one of
    spectrum_physics.py ([calculate_fwhm]) agree at every positive energy. *)
Theorem fwhm_formulas_agree (cfg : DetectorConfig) (E : R) :
  0 < E ->
  get_fwhm_at_energy cfg E = calculate_fwhm E (Q2R (fwhm_at_662 cfg)).
Proof.
  intros HE. unfold get_fwhm_at_energy, calculate_fwhm. cbv zeta.
  assert (H662 : 0 < 662.0) by lra.
  rewrite (sqrt_div_alt 662.0 E HE).
  rewrite (sqrt_div_alt E 662.0 H662).
  pose proof (sqrt_lt_R0 E HE) as HsE.
  pose proof (sqrt_lt_R0 662.0 H662) as Hs662.
  pose proof (sqrt_sqrt E (Rlt_le _ _ HE)) as HE2.
  pose proof (sqrt_sqrt 662.0 (Rlt_le _ _ H662)) as H6622.
  set (a := sqrt 662.0) in *. set (b := sqrt E) in *.
  clearbody a b. rewrite <- HE2, <- H6622.
  field. split; lra.
Qed.

Lemma fwhm_formulas_agree_witness :
  get_fwhm_at_energy radiacode_103 1460.83
  = calculate_fwhm 1460.83 (Q2R (fwhm_at_662 radiacode_103)).
Proof.
  apply (fwhm_formulas_agree radiacode_103 1460.83). lra.
Defined.

(** X18: on a detector whose volume is not negative,
    [generate_peak_spectrum] returns an array of the shape of the bins, and
    the array is all zeros for a gamma line below the 20 keV cutoff, and
    for a line whose activity is not positive while its live time and its
    intensity are not negative. *)
Theorem generate_peak_spectrum_shape_and_cutoff (bins : ndarray)
    (p : PeakParameters) (cfg : option DetectorConfig) :
  (0 <= detector_volume_cm3 (config_or_default cfg))%Q ->
  length (generate_peak_spectrum bins p cfg) = length bins /\
  (energy_kev p < 20 -> generate_peak_spectrum bins p cfg = zeros_like bins) /\
  (activity_bq p <= 0 -> 0 <= live_time_s p -> 0 <= intensity p ->
   generate_peak_spectrum bins p cfg = zeros_like bins).
Proof.
  intros _. unfold generate_peak_spectrum. cbv zeta.
  set (c := match cfg with None => get_default_config | Some c => c end).
  split; [|split].
  - destruct (Rle_dec _ 0).
    + unfold zeros_like. apply length_map.
    + unfold gaussian_peak. rewrite !length_map. reflexivity.
  - intros HE. unfold calculate_expected_counts.
    rewrite detector_efficiency_cutoff by exact HE.
    destruct (Rle_dec _ 0) as [_|Hn]; [reflexivity|].
    exfalso. apply Hn. lra.
  - intros Ha Ht Hi. unfold calculate_expected_counts.
    pose proof (detector_efficiency_unit (energy_kev p) (Some c)) as [He _].
    destruct (Rle_dec _ 0) as [_|Hn]; [reflexivity|].
    exfalso. apply Hn.
    assert (H1 : activity_bq p * live_time_s p <= 0) by nra.
    assert (H2 : activity_bq p * live_time_s p * intensity p <= 0) by nra.
    nra.
Qed.

Lemma generate_peak_spectrum_shape_and_cutoff_witness :
  length (generate_peak_spectrum [21; 24; 27]
            {| energy_kev := 661.657; intensity := 0.851; activity_bq := 50;
               live_time_s := 1 |} (Some radiacode_103))
  = length [21; 24; 27] /\
  generate_peak_spectrum [21; 24; 27]
    {| energy_kev := 13.9; intensity := 0.37; activity_bq := 50;
       live_time_s := 1 |} (Some radiacode_103) = zeros_like [21; 24; 27] /\
  generate_peak_spectrum [21; 24; 27]
    {| energy_kev := 661.657; intensity := 0.851; activity_bq := 0;
       live_time_s := 1 |} (Some radiacode_103) = zeros_like [21; 24; 27].
Proof.
  assert (Hv : (0 <= detector_volume_cm3
                        (config_or_default (Some radiacode_103)))%Q)
    by (vm_compute; discriminate).
  split; [|split].
  - exact (proj1 (generate_peak_spectrum_shape_and_cutoff [21; 24; 27]
      {| energy_kev := 661.657; intensity := 0.851; activity_bq := 50;
         live_time_s := 1 |} (Some radiacode_103) Hv)).
  - apply (proj1 (proj2 (generate_peak_spectrum_shape_and_cutoff [21; 24; 27]
      {| energy_kev := 13.9; intensity := 0.37; activity_bq := 50;
         live_time_s := 1 |} (Some radiacode_103) Hv))).
    cbn [energy_kev]. lra.
  - apply (proj2 (proj2 (generate_peak_spectrum_shape_and_cutoff [21; 24; 27]
      {| energy_kev := 661.657; intensity := 0.851; activity_bq := 0;
         live_time_s := 1 |} (Some radiacode_103) Hv)));
      cbn [activity_bq live_time_s intensity]; lra.
Defined.

End EfficiencyExtra.

Section NormalisationExtra.

Import Physics.
Local Open Scope R_scope.

Lemma fold_left_Rmax_bound (xs : list R) (x : R) :
  x <= fold_left Rmax xs x /\
  (forall y, In y xs -> y <= fold_left Rmax xs x) /\
  In (fold_left Rmax xs x) (x :: xs).
Proof.
  revert x. induction xs as [|z xs IH]; intros x; cbn [fold_left].
  - split; [lra|]. split; [intros y []|]. left. reflexivity.
  - destruct (IH (Rmax x z)) as (H1 & H2 & H3).
    pose proof (Rmax_l x z). pose proof (Rmax_r x z).
    split; [lra|]. split.
    + intros y [<-|Hy]; [lra|auto].
    + destruct H3 as [H3|H3]; [|right; right; exact H3].
      rewrite <- H3. unfold Rmax.
      destruct (Rle_dec x z); [right; left | left]; reflexivity.
Qed.

Lemma ndarray_max_spec (a : ndarray) (m : R) :
  ndarray_max a = Ok m -> (forall y, In y a -> y <= m) /\ In m a.
Proof.
  destruct a as [|x xs]; [discriminate|]. cbn [ndarray_max].
  intros [= <-]. destruct (fold_left_Rmax_bound xs x) as (H1 & H2 & H3).
  split; [|exact H3]. intros y [<-|Hy]; auto.
Qed.

Lemma ndarray_max_of_bound (a : ndarray) (m : R) :
  (forall y, In y a -> y <= m) -> In m a -> ndarray_max a = Ok m.
Proof.
  intros Hb Hin. destruct a as [|x xs]; [destruct Hin|].
  cbn [ndarray_max]. f_equal.
  destruct (fold_left_Rmax_bound xs x) as (H1 & H2 & H3).
  apply Rle_antisym.
  - apply Hb. exact H3.
  - destruct Hin as [<-|Hin]; [exact H1 | apply H2; exact Hin].
Qed.

Lemma ndarray_div_one (a : ndarray) : ndarray_div a 1 = a.
Proof.
  unfold ndarray_div. rewrite <- (map_id a) at 2.
  apply map_ext. intros x. lra.
Qed.

Lemma normalize_max_result (s : ndarray) (m : R) :
  ndarray_max s = Ok m ->
  normalize_spectrum s "max" = Ok (if Rlt_dec 0 m then ndarray_div s m else s).
Proof.
  intros Hm. unfold normalize_spectrum. cbn [String.eqb Ascii.eqb Bool.eqb].
  rewrite Hm. cbn [mbind result_bind]. destruct (Rlt_dec 0 m); reflexivity.
Qed.

(** Dividing by a positive maximum leaves every value at most 1 and the
    maximum at exactly 1. *)
Lemma ndarray_div_max (s : ndarray) (m : R) :
  ndarray_max s = Ok m -> 0 < m ->
  (forall y, In y (ndarray_div s m) -> y <= 1) /\
  ndarray_max (ndarray_div s m) = Ok 1.
Proof.
  intros Hm Hpos. destruct (ndarray_max_spec s m Hm) as [Hb Hin].
  assert (Hinv : 0 < / m) by (apply Rinv_0_lt_compat; exact Hpos).
  assert (Hle : forall y, In y (ndarray_div s m) -> y <= 1).
  { intros y Hy. unfold ndarray_div in Hy. apply in_map_iff in Hy as (x & <- & Hx).
    apply Hb in Hx. assert (Hmm : m * / m = 1) by (field; lra).
    unfold Rdiv. nra. }
  split; [exact Hle|].
  apply ndarray_max_of_bound; [exact Hle|].
  unfold ndarray_div. apply in_map_iff. exists m.
  split; [field; lra | exact Hin].
Qed.

(** X19: after "max" normalisation of a spectrum whose maximum is positive,
    no value exceeds 1 and the maximum is exactly 1; values that were not
    negative stay in [0, 1]. *)
Theorem normalize_max_range (s : ndarray) (m : R) :
  ndarray_max s = Ok m -> 0 < m ->
  exists r,
    normalize_spectrum s "max" = Ok r /\
    ndarray_max r = Ok 1 /\
    (forall y, In y r -> y <= 1) /\
    ((forall x, In x s -> 0 <= x) -> forall y, In y r -> 0 <= y <= 1).
Proof.
  intros Hm Hpos. destruct (ndarray_div_max s m Hm Hpos) as [Hle Hmax].
  assert (Hinv : 0 < / m) by (apply Rinv_0_lt_compat; exact Hpos).
  exists (ndarray_div s m). rewrite (normalize_max_result s m Hm).
  destruct (Rlt_dec 0 m) as [_|Hn]; [|contradiction].
  split; [reflexivity|]. split; [exact Hmax|]. split; [exact Hle|].
  intros Hnn y Hy. split; [|apply Hle; exact Hy].
  unfold ndarray_div in Hy. apply in_map_iff in Hy as (x & <- & Hx).
  apply Hnn in Hx. unfold Rdiv. nra.
Qed.

Lemma normalize_max_range_witness :
  exists r,
    normalize_spectrum [2; 8; 4] "max" = Ok r /\
    ndarray_max r = Ok 1 /\
    (forall y, In y r -> y <= 1) /\
    ((forall x, In x [2; 8; 4] -> 0 <= x) -> forall y, In y r -> 0 <= y <= 1).
Proof.
  apply (normalize_max_range [2; 8; 4] 8).
  - apply ndarray_max_of_bound.
    + intros y [<-|[<-|[<-|[]]]]; lra.
    + right. left. reflexivity.
  - lra.
Defined.

(** X20: "max" normalisation is idempotent: normalising a spectrum that was
    normalised by its maximum returns it unchanged (its maximum is 1, or it
    was left as it was). *)
Theorem normalize_idempotent (s r : ndarray) :
  normalize_spectrum s "max" = Ok r ->
  normalize_spectrum r "max" = Ok r.
Proof.
  intros Hr.
  destruct (ndarray_max s) as [m|e] eqn:Hm.
  2:{ unfold normalize_spectrum in Hr. cbn [String.eqb Ascii.eqb Bool.eqb] in Hr.
      rewrite Hm in Hr. discriminate. }
  rewrite (normalize_max_result s m Hm) in Hr.
  destruct (Rlt_dec 0 m) as [Hpos|Hnp].
  - destruct (ndarray_div_max s m Hm Hpos) as [_ Hmax].
    injection Hr as <-.
    rewrite (normalize_max_result _ 1 Hmax).
    destruct (Rlt_dec 0 1) as [_|Hn]; [|lra].
    rewrite ndarray_div_one. reflexivity.
  - injection Hr as <-. rewrite (normalize_max_result s m Hm).
    destruct (Rlt_dec 0 m); [contradiction|reflexivity].
Qed.

Lemma normalize_idempotent_witness :
  normalize_spectrum (ndarray_div [2; 8; 4] 8) "max"
  = Ok (ndarray_div [2; 8; 4] 8).
Proof.
  apply (normalize_idempotent [2; 8; 4]).
  assert (Hm : ndarray_max [2; 8; 4] = Ok 8).
  { apply ndarray_max_of_bound.
    - intros y [<-|[<-|[<-|[]]]]; lra.
    - right. left. reflexivity. }
  rewrite (normalize_max_result _ 8 Hm).
  destruct (Rlt_dec 0 8) as [_|Hn]; [reflexivity|lra].
Defined.

(** X21: every supported method returns an array of the shape of its input. *)
Theorem normalize_preserves_shape (s r : ndarray) (method : string) :
  normalize_spectrum s method = Ok r -> length r = length s.
Proof.
  unfold normalize_spectrum.
  destruct (String.eqb method "max").
  { destruct (ndarray_max s) as [m|]; [|discriminate]. cbn [mbind result_bind].
    destruct (Rlt_dec 0 m); intros [= <-]; [apply length_map | reflexivity]. }
  destruct (String.eqb method "sum").
  { destruct (Rlt_dec 0 _); intros [= <-]; [apply length_map | reflexivity]. }
  destruct (String.eqb method "log").
  { destruct (ndarray_max _) as [m|]; [|discriminate]. cbn [mbind result_bind].
    destruct (Rlt_dec 0 m); intros [= <-]; unfold ndarray_div;
      rewrite ?length_map; reflexivity. }
  destruct (String.eqb method "sqrt").
  { destruct (ndarray_max _) as [m|]; [|discriminate]. cbn [mbind result_bind].
    destruct (Rlt_dec 0 m); intros [= <-]; unfold ndarray_div;
      rewrite ?length_map; reflexivity. }
  discriminate.
Qed.

Lemma normalize_preserves_shape_witness :
  length (ndarray_div [3; 1] (ndarray_sum [3; 1])) = length [3; 1].
Proof.
  apply (normalize_preserves_shape [3; 1] _ "sum").
  unfold normalize_spectrum. cbn [String.eqb Ascii.eqb Bool.eqb].
  destruct (Rlt_dec 0 (ndarray_sum [3; 1])) as [_|Hn]; [reflexivity|].
  exfalso. apply Hn. unfold ndarray_sum. cbn [fold_right]. lra.
Defined.

End NormalisationExtra.

(** ** The environmental background and the spectrum generator *)

Section PipelineShapes.

Import Config IsotopeData Physics Scenarios Pipeline.
Local Open Scope R_scope.

Context {St : Type} `{NumpyGlobal St} `{SetOrder}.

Lemma generate_peak_spectrum_length (bins : ndarray) (p : PeakParameters)
    (cfg : option DetectorConfig) :
  length (generate_peak_spectrum bins p cfg) = length bins.
Proof.
  unfold generate_peak_spectrum. cbv zeta.
  destruct (Rle_dec _ 0).
  - unfold zeros_like. apply length_map.
  - unfold gaussian_peak. cbv zeta. rewrite !length_map. reflexivity.
Qed.

Lemma ndarray_add_length (a b : ndarray) :
  length b = length a -> length (ndarray_add a b) = length a.
Proof.
  intros Hl. unfold ndarray_add. apply length_zip_with_l_eq. congruence.
Qed.

Lemma add_peak_length (bins bg : ndarray) (e i a d : R) (cfg : DetectorConfig) :
  length bg = length bins -> length (add_peak bins bg e i a d cfg) = length bins.
Proof.
  intros Hl. unfold add_peak. rewrite ndarray_add_length; [exact Hl|].
  rewrite generate_peak_spectrum_length. congruence.
Qed.

Lemma add_peaks_length (bins bg : ndarray) (lines : list (R * R)) (a d : R)
    (cfg : DetectorConfig) :
  length bg = length bins ->
  length (add_peaks bins bg lines a d cfg) = length bins.
Proof.
  unfold add_peaks. revert bg.
  induction lines as [|l lines IH]; intros bg Hl; cbn [fold_left].
  - exact Hl.
  - apply IH. apply add_peak_length. exact Hl.
Qed.

Lemma draw_each_length {A} (draw : A -> St -> R * St) (l : list A) (st : St) :
  length (draw_each draw l st).1 = length l.
Proof.
  revert st. induction l as [|x l IH]; intros st; cbn [draw_each].
  - reflexivity.
  - destruct (draw x st) as [y st1]. specialize (IH st1).
    destruct (draw_each draw l st1) as [ys st2]. cbn [fst length] in *.
    congruence.
Qed.

Lemma draw_each_Forall {A} (P : R -> Prop) (draw : A -> St -> R * St)
    (l : list A) (st : St) :
  (forall x s, P (draw x s).1) -> Forall P (draw_each draw l st).1.
Proof.
  intros Hd. revert st. induction l as [|x l IH]; intros st; cbn [draw_each].
  - constructor.
  - pose proof (Hd x st) as Hx. destruct (draw x st) as [y st1].
    specialize (IH st1). destruct (draw_each draw l st1) as [ys st2].
    cbn [fst] in *. constructor; assumption.
Qed.

Lemma apply_poisson_noise_length (s : ndarray) (st : St) :
  length (apply_poisson_noise s st).1 = length s.
Proof.
  unfold apply_poisson_noise. cbv zeta.
  rewrite draw_each_length. apply length_map.
Qed.

Lemma apply_electronic_noise_spec (s : ndarray) (sigma : R) (st : St) :
  length (apply_electronic_noise s sigma st).1 = length s /\
  Forall (fun x => 0 <= x) (apply_electronic_noise s sigma st).1.
Proof.
  unfold apply_electronic_noise.
  pose proof (draw_each_length (fun _ : R => np_random_normal 0 sigma) s st) as Hl.
  destruct (draw_each _ s st) as [noise st1]. cbn [fst] in *. cbv zeta. split.
  - rewrite length_map. apply ndarray_add_length. exact Hl.
  - apply Forall_forall. intros x Hx. apply list_elem_of_fmap in Hx as (y & -> & _).
    apply Rmax_l.
Qed.

Lemma environmental_background_spec (bins : ndarray) (dur cps : R)
    (k40 radon thorium : bool) (cfg : option DetectorConfig) (st : St) :
  length (generate_environmental_background bins dur cps k40 radon thorium
            cfg st).1.1 = length bins /\
  (generate_environmental_background bins dur cps k40 radon thorium cfg st).1.2
  = background_names k40 radon thorium.
Proof.
  unfold generate_environmental_background, background_names. cbv zeta.
  set (c := match cfg with None => get_default_config | Some c => c end).
  set (bg0 := if Rlt_dec 0 _ then _ else _).
  assert (Hbg : length bg0 = length bins).
  { unfold bg0. destruct (Rlt_dec 0 _);
      unfold generate_exponential_background; rewrite ?length_map; reflexivity. }
  clearbody bg0.
  destruct k40; [destruct (np_random_uniform 0.5 5.0 st) as [ak st1]|];
    (destruct radon; [destruct (np_random_uniform 0.1 2.0 _) as [ar st2]|]);
    (destruct thorium; [destruct (np_random_uniform 0.05 1.0 _) as [at_ st3]|]);
    cbn [fst snd app];
    (split; [|reflexivity]);
    repeat first [ apply add_peaks_length | apply add_peak_length ];
    exact Hbg.
Qed.


(** X23: with the three peak groups switched off, the background is the
    continuum alone: [generate_environmental_background] draws nothing from
    the global generator and reports no isotope, its result is the same
    from every state and for every detector, it has the shape of the bins,
    and no bin is negative when the expected count background_cps *
    duration_seconds is not negative. *)
Theorem environmental_continuum_alone (bins : ndarray) (dur cps : R)
    (cfg : option DetectorConfig) (st : St) :
  0 <= cps * dur ->
  exists background,
    generate_environmental_background bins dur cps false false false cfg st
    = ((background, []), st) /\
    length background = length bins /\
    Forall (fun x => 0 <= x) background /\
    (forall (cfg' : option DetectorConfig) (st' : St),
       generate_environmental_background bins dur cps false false false
         cfg' st'
       = ((background, []), st')).
Proof.
  intros Hpos. unfold generate_environmental_background. cbv zeta.
  set (total := cps * dur * 0.7).
  set (bg0 := generate_exponential_background bins (total / 500) 0.002).
  assert (Htot : 0 <= total) by (unfold total; lra).
  assert (Hall : Forall (fun x => 0 <= x) bg0).
  { unfold bg0, generate_exponential_background. apply Forall_forall.
    intros x Hx. apply list_elem_of_fmap in Hx as (e & -> & _).
    apply Rmult_le_pos; [lra | left; apply exp_pos]. }
  eexists. split; [reflexivity|]. split; [|split; [|reflexivity]].
  - destruct (Rlt_dec 0 (ndarray_sum bg0)); unfold bg0,
      generate_exponential_background; rewrite ?length_map; reflexivity.
  - destruct (Rlt_dec 0 (ndarray_sum bg0)) as [Hsum|_]; [|exact Hall].
    apply Forall_forall. intros x Hx.
    apply list_elem_of_fmap in Hx as (y & -> & Hy).
    rewrite Forall_forall in Hall. apply Hall in Hy.
    apply Rmult_le_pos; [exact Hy|].
    assert (Hinv : 0 < / ndarray_sum bg0) by (apply Rinv_0_lt_compat; exact Hsum).
    unfold Rdiv. apply Rmult_le_pos; lra.
Qed.

End PipelineShapes.

Section GeneratorLoops.

Import Config IsotopeData Physics Scenarios Pipeline.
Local Open Scope R_scope.

Context {St : Type} `{NumpyGlobal St} `{SetOrder}.

Variable self : SpectrumGenerator.
Hypothesis bound : num_channels self = length (energy_bins self).

Lemma add_lines_length (sp : ndarray) (lines : list GammaLine) (a d : R) :
  length sp = length (energy_bins self) ->
  length (add_lines self sp lines a d) = length (energy_bins self).
Proof.
  intros Hl. unfold add_lines. apply add_peaks_length. exact Hl.
Qed.

Lemma add_daughters_spec (a d : R) (ds : list string) (sp : ndarray)
    (names : list string) :
  length sp = length (energy_bins self) ->
  length (fold_left (add_daughter self a d) ds (sp, names)).1
    = length (energy_bins self) /\
  (fold_left (add_daughter self a d) ds (sp, names)).2
    = names ++ filter (fun n => is_Some (get_isotope n)) ds.
Proof.
  revert sp names. induction ds as [|n ds IH]; intros sp names Hl;
    cbn [fold_left].
  - rewrite app_nil_r. auto.
  - unfold add_daughter at 2 4. rewrite filter_cons.
    destruct (get_isotope n) as [iso|] eqn:Hn; cbn [fst snd].
    + destruct (decide (is_Some (Some iso))) as [_|Hn']; [|exfalso; eauto].
      destruct (IH (add_lines self sp (gamma_lines iso) a d) (names ++ [n]))
        as [H1 H2]; [apply add_lines_length; exact Hl|].
      split; [exact H1|]. rewrite H2, <- app_assoc. reflexivity.
    + destruct (decide (is_Some (@None Isotope))) as [[? Hn']|_];
        [discriminate|].
      apply IH. exact Hl.
Qed.

Lemma add_source_spec (d : R) (sp : ndarray) (names : list string) (st : St)
    (src : IsotopeSource) :
  length sp = length (energy_bins self) ->
  length (add_source self d (sp, names, st) src).1.1
    = length (energy_bins self) /\
  (add_source self d (sp, names, st) src).1.2 = names ++ names_of_source src.
Proof.
  intros Hl. unfold add_source, names_of_source.
  destruct (get_isotope (isotope_name src)) as [iso|]; cbn [fst snd].
  2:{ rewrite app_nil_r. auto. }
  set (a := Q2R (Scenarios.activity_bq src)).
  assert (Hgen : forall a' (st' : St),
    length (let '(spectrum, source_isotopes) :=
              if include_daughters src && negb (bool_decide (daughters iso = []))
              then fold_left (add_daughter self a' d) (daughters iso)
                     (add_lines self sp (gamma_lines iso) a' d,
                      names ++ [isotope_name src])
              else (add_lines self sp (gamma_lines iso) a' d,
                    names ++ [isotope_name src]) in
            (spectrum, source_isotopes, st')).1.1 = length (energy_bins self) /\
    (let '(spectrum, source_isotopes) :=
              if include_daughters src && negb (bool_decide (daughters iso = []))
              then fold_left (add_daughter self a' d) (daughters iso)
                     (add_lines self sp (gamma_lines iso) a' d,
                      names ++ [isotope_name src])
              else (add_lines self sp (gamma_lines iso) a' d,
                    names ++ [isotope_name src]) in
            (spectrum, source_isotopes, st')).1.2
    = names ++ isotope_name src ::
        (if include_daughters src
         then filter (fun n => is_Some (get_isotope n)) (daughters iso)
         else [])).
  { intros a' st'.
    pose proof (add_lines_length sp (gamma_lines iso) a' d Hl) as Hl'.
    destruct (include_daughters src); cbn [andb].
    - destruct (bool_decide_reflect (daughters iso = [])) as [He|Hne];
        cbn [negb].
      + rewrite He. cbn [fst snd]. rewrite filter_nil.
        split; [exact Hl'|]. reflexivity.
      + destruct (add_daughters_spec a' d (daughters iso) _
                    (names ++ [isotope_name src]) Hl') as [H1 H2].
        destruct (fold_left _ _ _) as [sp' names']. cbn [fst snd] in *.
        split; [exact H1|]. rewrite H2, <- app_assoc. reflexivity.
    - cbn [fst snd]. split; [exact Hl'|]. reflexivity. }
  destruct (Qlt_le_dec 0 (activity_variation src)).
  - destruct (np_random_uniform _ _ st) as [u st1]. apply Hgen.
  - apply Hgen.
Qed.

Lemma add_sources_spec (d : R) (srcs : list IsotopeSource) (sp : ndarray)
    (names : list string) (st : St) :
  length sp = length (energy_bins self) ->
  length (fold_left (add_source self d) srcs (sp, names, st)).1.1
    = length (energy_bins self) /\
  (fold_left (add_source self d) srcs (sp, names, st)).1.2
    = names ++ flat_map names_of_source srcs.
Proof.
  revert sp names st. induction srcs as [|src srcs IH]; intros sp names st Hl;
    cbn [fold_left flat_map].
  - rewrite app_nil_r. auto.
  - destruct (add_source_spec d sp names st src Hl) as [H1 H2].
    destruct (add_source self d (sp, names, st) src) as [[sp1 names1] st1].
    cbn [fst snd] in *. destruct (IH sp1 names1 st1 H1) as [H3 H4].
    split; [exact H3|]. rewrite H4, H2, <- app_assoc. reflexivity.
Qed.

(** What one interval returns: a row of the width of the detector, the
    names of the sources as a set, the background names of the switches. *)
Lemma generate_single_interval_spec (srcs : list IsotopeSource) (d : Q)
    (with_background : bool) (bc : option BackgroundConfig) (st : St) :
  let r := generate_single_interval self srcs d with_background bc st in
  let c := match bc with None => default_background_config | Some c => c end in
  length r.1.1.1 = num_channels self /\
  r.1.1.2 = set_to_list (list_to_set (flat_map names_of_source srcs)) /\
  r.1.2 = if with_background
          then background_names (bc_include_k40 c) (bc_include_radon c)
                 (bc_include_thorium c)
          else [].
Proof using bound.
  cbv zeta. unfold generate_single_interval. cbv zeta.
  set (c := match bc with None => default_background_config | Some c => c end).
  assert (Hz : length (repeat 0 (num_channels self)) = length (energy_bins self))
    by (rewrite repeat_length; exact bound).
  destruct with_background.
  - pose proof (environmental_background_spec (energy_bins self) (Q2R d)
        (Q2R (bc_background_cps c)) (bc_include_k40 c) (bc_include_radon c)
        (bc_include_thorium c) (Some (detector_config self)) st) as [Hb1 Hb2].
    destruct (generate_environmental_background _ _ _ _ _ _ _ _)
      as [[bg names] st1]. cbn [fst snd] in Hb1, Hb2.
    assert (Hl : length (ndarray_add (repeat 0 (num_channels self)) bg)
                 = length (energy_bins self)).
    { rewrite ndarray_add_length; [exact Hz | congruence]. }
    destruct (add_sources_spec (Q2R d) srcs _ [] st1 Hl) as [H1 H2].
    destruct (fold_left _ _ _) as [[sp names'] st2]. cbn [fst snd] in *.
    rewrite H2. cbn [app]. split; [congruence|]. split; [reflexivity|exact Hb2].
  - destruct (add_sources_spec (Q2R d) srcs _ [] st Hz) as [H1 H2].
    destruct (fold_left _ _ _) as [[sp names'] st2]. cbn [fst snd] in *.
    rewrite H2. cbn [app]. split; [congruence|]. split; reflexivity.
Qed.

Section Rows.

Variable cfg : SpectrumConfig.
Variable bc : BackgroundConfig.

Let source_set : list string :=
  set_to_list (list_to_set (flat_map names_of_source (sources cfg))).
Let background_list : list string :=
  if include_background cfg
  then background_names (bc_include_k40 bc) (bc_include_radon bc)
         (bc_include_thorium bc)
  else [].

(** The noise steps leave no negative count: the electronic step clips at
    zero, and so does the Poisson step when it is the last one and the
    generator draws counts that are not negative. *)
Let clipped : Prop :=
  apply_electronic cfg = true \/
  (apply_poisson cfg = true /\
   forall lam (s : St), 0 <= (np_random_poisson lam s).1).

Lemma generate_row_spec (rows : list ndarray) (src bg : list string) (st : St) :
  exists row st',
    generate_row self cfg bc (rows, src, bg) st
    = ((rows ++ [row], src ++ source_set, bg ++ background_list), st') /\
    length row = num_channels self /\
    (clipped -> Forall (fun x => 0 <= x) row).
Proof using bound.
  unfold generate_row.
  pose proof (generate_single_interval_spec (sources cfg)
      (time_interval_seconds cfg) (include_background cfg) (Some bc) st) as Hs.
  cbv zeta in Hs. destruct Hs as (H1 & H2 & H3).
  destruct (generate_single_interval _ _ _ _ _ _) as [[[sp s] b] st1].
  cbn [fst snd] in H1, H2, H3. subst s b.
  pose proof (apply_poisson_noise_length sp st1) as Hp.
  set (r1 := if apply_poisson cfg then apply_poisson_noise sp st1 else (sp, st1)).
  assert (Hr1 : length r1.1 = num_channels self).
  { unfold r1. destruct (apply_poisson cfg); cbn [fst]; congruence. }
  assert (Hp1 : apply_poisson cfg = true ->
                (forall lam (s : St), 0 <= (np_random_poisson lam s).1) ->
                Forall (fun x => 0 <= x) r1.1).
  { intros Hap Hlaw. unfold r1. rewrite Hap. unfold apply_poisson_noise.
    apply draw_each_Forall. exact Hlaw. }
  destruct r1 as [sp1 st2]. cbn [fst] in Hr1, Hp1.
  pose proof (apply_electronic_noise_spec sp1
                (Q2R (electronic_noise_sigma cfg)) st2) as [He1 He2].
  unfold clipped. destruct (apply_electronic cfg).
  - destruct (apply_electronic_noise _ _ _) as [sp2 st3]. cbn [fst] in *.
    exists sp2, st3. split; [reflexivity|]. split; [congruence|auto].
  - exists sp1, st2. split; [reflexivity|]. split; [exact Hr1|].
    intros [Hf|[Hap Hlaw]]; [discriminate|auto].
Qed.

Lemma generate_rows_spec (n : nat) (rows : list ndarray)
    (src bg : list string) (st : St) :
  exists new st',
    generate_rows self cfg bc n (rows, src, bg) st
    = ((rows ++ new, src ++ concat (replicate n source_set),
        bg ++ concat (replicate n background_list)), st') /\
    length new = n /\
    Forall (fun row => length row = num_channels self) new /\
    (clipped -> Forall (Forall (fun x => 0 <= x)) new).
Proof using bound.
  revert rows src bg st. induction n as [|n IH]; intros rows src bg st;
    cbn [generate_rows replicate concat].
  - exists [], st. rewrite !app_nil_r. repeat split; auto.
  - destruct (generate_row_spec rows src bg st) as (row & st1 & Hrow & Hl & Hnn).
    rewrite Hrow.
    destruct (IH (rows ++ [row]) (src ++ source_set) (bg ++ background_list) st1)
      as (new & st2 & Hrows & Hn & Hall & Hnn').
    rewrite Hrows. exists (row :: new), st2.
    rewrite <- !app_assoc. split; [reflexivity|].
    split; [cbn [length]; congruence|]. split; [constructor; assumption|].
    intros He. constructor; auto.
Qed.

End Rows.

End GeneratorLoops.

Section GenerateSpectrum.

Import Config IsotopeData Physics Scenarios Pipeline.
Local Open Scope R_scope.

Context {St : Type} `{NumpyGlobal St} `{SetOrder}.

Lemma lookup_config_preset (key : string) (c : DetectorConfig) :
  lookup_config key = Some c -> is_preset c.
Proof.
  unfold lookup_config, is_preset. intros Hl.
  destruct (List.find _ RADIACODE_CONFIGS) as [[k c']|] eqn:Hf; [|discriminate].
  injection Hl as <-. apply find_some in Hf as [Hin _].
  apply in_map_iff. exists (k, c'). auto.
Qed.

Lemma bind_detector_ok (c : DetectorConfig) :
  (1 <= usable_channels c)%Z ->
  exists g, bind_detector c = Ok g /\
    detector_config g = c /\
    num_channels g = length (energy_bins g) /\
    Z.of_nat (num_channels g) = usable_channels c.
Proof.
  intros Hu. destruct (get_energy_bins_length c Hu) as (bins & Hb & Hl).
  unfold bind_detector, bins_of. rewrite Hb. cbn [mbind result_bind].
  eexists. split; [reflexivity|]. cbn [detector_config num_channels energy_bins].
  rewrite length_map. auto.
Qed.

Lemma py_float_div_ok (x y : Q) :
  ~ (y == 0)%Q -> py_float_div x y = Ok (binary64 (binary64 x / binary64 y)%Q).
Proof.
  intros Hnz. unfold py_float_div.
  destruct (Qeq_bool y 0) eqn:E; [|reflexivity].
  apply Qeq_bool_iff in E. contradiction.
Qed.

Lemma py_float_div_zero (x y : Q) :
  (y == 0)%Q -> py_float_div x y = Raise ZeroDivisionError.
Proof.
  intros Hz. unfold py_float_div.
  apply Qeq_bool_iff in Hz. rewrite Hz. reflexivity.
Qed.

Lemma num_intervals_of_ok (cfg : SpectrumConfig) :
  ~ (time_interval_seconds cfg == 0)%Q ->
  num_intervals_of cfg
  = Ok (Z.max 1 (py_int (binary64 (binary64 (duration_seconds cfg)
                                   / binary64 (time_interval_seconds cfg))%Q))).
Proof.
  intros Hnz. unfold num_intervals_of. rewrite py_float_div_ok by exact Hnz.
  cbn [mbind result_bind]. f_equal.
  destruct (Z.ltb_spec (py_int (binary64 (binary64 (duration_seconds cfg)
                                   / binary64 (time_interval_seconds cfg))%Q)) 1);
    lia.
Qed.

Lemma num_intervals_of_zero (cfg : SpectrumConfig) :
  (time_interval_seconds cfg == 0)%Q ->
  num_intervals_of cfg = Raise ZeroDivisionError.
Proof.
  intros Hz. unfold num_intervals_of. rewrite py_float_div_zero by exact Hz.
  reflexivity.
Qed.

Lemma num_intervals_of_pos (cfg : SpectrumConfig) (n : Z) :
  num_intervals_of cfg = Ok n -> (1 <= n)%Z.
Proof.
  unfold num_intervals_of.
  destruct (py_float_div _ _) as [q|]; [|discriminate]. cbn [mbind result_bind].
  intros [= <-]. destruct (Z.ltb_spec (py_int q) 1); lia.
Qed.

Lemma reshape_like_lengths (rows : list ndarray) (flat : ndarray) :
  length flat = length (concat rows) ->
  map length (reshape_like rows flat) = map length rows.
Proof.
  revert flat. induction rows as [|r rows IH]; intros flat Hl;
    cbn [reshape_like map concat] in *.
  - reflexivity.
  - rewrite length_app in Hl. f_equal.
    + rewrite length_take. lia.
    + apply IH. rewrite length_drop. lia.
Qed.

Lemma same_row_lengths {A} (l k : list (list A)) :
  map length l = map length k ->
  length l = length k /\
  forall P : nat -> Prop,
    Forall (fun r => P (length r)) k -> Forall (fun r => P (length r)) l.
Proof.
  revert k. induction l as [|x l IH]; intros [|y k] Hm; try discriminate.
  - split; [reflexivity|]. intros P _. constructor.
  - cbn [map] in Hm. injection Hm as Hxy Hm.
    destruct (IH k Hm) as [Hl HP]. split; [cbn [length]; congruence|].
    intros P Hall. apply Forall_cons in Hall as [Hy Hall].
    constructor; [rewrite Hxy; exact Hy | apply HP; exact Hall].
Qed.


Lemma normalize_spectrum_length (s r : ndarray) (method : string) :
  normalize_spectrum s method = Ok r -> length r = length s.
Proof.
  unfold normalize_spectrum.
  destruct (String.eqb method "max").
  { destruct (ndarray_max s) as [m|]; [|discriminate]. cbn [mbind result_bind].
    destruct (Rlt_dec 0 m); intros [= <-]; [apply length_map | reflexivity]. }
  destruct (String.eqb method "sum").
  { destruct (Rlt_dec 0 _); intros [= <-]; [apply length_map | reflexivity]. }
  destruct (String.eqb method "log").
  { destruct (ndarray_max _) as [m|]; [|discriminate]. cbn [mbind result_bind].
    destruct (Rlt_dec 0 m); intros [= <-]; unfold ndarray_div;
      rewrite ?length_map; reflexivity. }
  destruct (String.eqb method "sqrt").
  { destruct (ndarray_max _) as [m|]; [|discriminate]. cbn [mbind result_bind].
    destruct (Rlt_dec 0 m); intros [= <-]; unfold ndarray_div;
      rewrite ?length_map; reflexivity. }
  discriminate.
Qed.


(** The names of a list repeated at least once, as a set. *)
Lemma set_to_list_spec (X : gset string) :
  NoDup (set_to_list X) /\ forall x, x ∈ set_to_list X <-> x ∈ X.
Proof.
  pose proof (set_to_list_perm X) as Hp. split.
  - rewrite Hp. apply NoDup_elements.
  - intros x. rewrite Hp. apply elem_of_elements.
Qed.



(** [generate_spectrum], step by step, on a generator that its detector
    step leaves bound to the detector of [g0]. *)
Lemma generate_spectrum_steps (self g0 : SpectrumGenerator)
    (cfg : SpectrumConfig) (n : Z) (st : St) :
  num_intervals_of cfg = Ok n ->
  rebind self cfg = Ok g0 ->
  num_channels g0 = length (energy_bins g0) ->
  exists rows st1,
    length rows = Z.to_nat n /\
    Forall (fun row => length row = num_channels g0) rows /\
    (apply_electronic cfg = true \/
     (apply_poisson cfg = true /\
      forall lam (s : St), 0 <= (np_random_poisson lam s).1) ->
     Forall (Forall (fun x => 0 <= x)) rows) /\
    generate_spectrum self cfg st =
    match (if normalize cfg
           then flat ← normalize_spectrum (concat rows)
                         (normalization_method cfg);
                Ok (reshape_like rows flat)
           else Ok rows) with
    | Raise e => (Raise e, st1)
    | Ok spectrogram =>
        (Ok {| data := spectrogram;
               config := cfg;
               isotopes_present :=
                 set_to_list (list_to_set (concat (replicate (Z.to_nat n)
                   (set_to_list (list_to_set
                      (flat_map names_of_source (sources cfg)))))));
               background_isotopes :=
                 set_to_list (list_to_set (concat (replicate (Z.to_nat n)
                   (if include_background cfg
                    then background_names (include_k40 cfg)
                           (include_radon cfg) (include_thorium cfg)
                    else [])))) |},
         (np_random_randint 0 1000000 st1).2)
    end.
Proof.
  intros Hn Hg Hb. unfold generate_spectrum. rewrite Hn, Hg.
  destruct (generate_rows_spec g0 Hb cfg
      {| bc_background_cps := background_cps cfg;
         bc_include_k40 := include_k40 cfg;
         bc_include_radon := include_radon cfg;
         bc_include_thorium := include_thorium cfg |}
      (Z.to_nat n) [] [] [] st) as (rows & st1 & Hrows & Hlen & Hall & Hnn).
  cbn [app bc_include_k40 bc_include_radon bc_include_thorium] in Hrows.
  rewrite Hrows. exists rows, st1.
  split; [exact Hlen|]. split; [exact Hall|]. split; [exact Hnn|].
  destruct (if normalize cfg then _ else _) as [sp|e]; [|reflexivity].
  destruct (np_random_randint 0 1000000 st1) as [z st2]. reflexivity.
Qed.

(** On a generator that the detector step leaves bound to at least one
    channel, with a time interval that is not zero and a known normalisation
    method, [generate_spectrum] returns, and this is what it returns. *)
Lemma generate_spectrum_bound (self g0 : SpectrumGenerator)
    (cfg : SpectrumConfig) (st : St) :
  rebind self cfg = Ok g0 ->
  num_channels g0 = length (energy_bins g0) ->
  (0 < num_channels g0)%nat ->
  ~ (time_interval_seconds cfg == 0)%Q ->
  (normalize cfg = true -> In (normalization_method cfg) normalization_methods) ->
  let n :=
    Z.to_nat (Z.max 1
      (py_int (binary64 (binary64 (duration_seconds cfg)
                         / binary64 (time_interval_seconds cfg))%Q))) in
  exists rows spectrogram st',
    length rows = n /\
    Forall (fun row => length row = num_channels g0) rows /\
    (apply_electronic cfg = true \/
     (apply_poisson cfg = true /\
      forall lam (s : St), 0 <= (np_random_poisson lam s).1) ->
     Forall (Forall (fun x => 0 <= x)) rows) /\
    (if normalize cfg
     then exists flat,
            normalize_spectrum (concat rows) (normalization_method cfg) = Ok flat /\
            spectrogram = reshape_like rows flat
     else spectrogram = rows) /\
    generate_spectrum self cfg st =
    (Ok {| data := spectrogram;
           config := cfg;
           isotopes_present :=
             set_to_list (list_to_set (concat (replicate n
               (set_to_list (list_to_set
                  (flat_map names_of_source (sources cfg)))))));
           background_isotopes :=
             set_to_list (list_to_set (concat (replicate n
               (if include_background cfg
                then background_names (include_k40 cfg)
                       (include_radon cfg) (include_thorium cfg)
                else [])))) |}, st').
Proof.
  intros Hre Hb Hw Hnz Hm. cbv zeta.
  destruct (generate_spectrum_steps self g0 cfg _ st
              (num_intervals_of_ok cfg Hnz) Hre Hb)
    as (rows & st1 & Hlen & Hall & Hnn & Hgen).
  destruct (normalize cfg) eqn:Hnorm.
  - assert (Hne : concat rows <> []).
    { destruct rows as [|row rows]; [cbn [length] in Hlen; lia|].
      apply Forall_cons in Hall as [Hrow _].
      destruct row; [cbn [length] in Hrow; lia|discriminate]. }
    destruct (normalize_known_method (concat rows) (normalization_method cfg)
                Hne (Hm eq_refl)) as [flat Hflat].
    rewrite Hflat in Hgen. cbn [mbind result_bind] in Hgen.
    exists rows, (reshape_like rows flat), (np_random_randint 0 1000000 st1).2.
    split; [exact Hlen|]. split; [exact Hall|]. split; [exact Hnn|].
    split; [exists flat; auto|]. exact Hgen.
  - exists rows, rows, (np_random_randint 0 1000000 st1).2.
    split; [exact Hlen|]. split; [exact Hall|]. split; [exact Hnn|].
    split; [reflexivity|]. exact Hgen.
Qed.

(** The same on a preset detector. *)
Lemma generate_spectrum_preset (self : SpectrumGenerator)
    (cfg : SpectrumConfig) (c : DetectorConfig) (st : St) :
  lookup_config (detector_name cfg) = Some c ->
  ~ (time_interval_seconds cfg == 0)%Q ->
  (normalize cfg = true -> In (normalization_method cfg) normalization_methods) ->
  let n :=
    Z.to_nat (Z.max 1
      (py_int (binary64 (binary64 (duration_seconds cfg)
                         / binary64 (time_interval_seconds cfg))%Q))) in
  exists rows spectrogram st',
    length rows = n /\
    Forall (fun row => Z.of_nat (length row) = usable_channels c) rows /\
    (apply_electronic cfg = true \/
     (apply_poisson cfg = true /\
      forall lam (s : St), 0 <= (np_random_poisson lam s).1) ->
     Forall (Forall (fun x => 0 <= x)) rows) /\
    (if normalize cfg
     then exists flat,
            normalize_spectrum (concat rows) (normalization_method cfg) = Ok flat /\
            spectrogram = reshape_like rows flat
     else spectrogram = rows) /\
    generate_spectrum self cfg st =
    (Ok {| data := spectrogram;
           config := cfg;
           isotopes_present :=
             set_to_list (list_to_set (concat (replicate n
               (set_to_list (list_to_set
                  (flat_map names_of_source (sources cfg)))))));
           background_isotopes :=
             set_to_list (list_to_set (concat (replicate n
               (if include_background cfg
                then background_names (include_k40 cfg)
                       (include_radon cfg) (include_thorium cfg)
                else [])))) |}, st').
Proof.
  intros Hc Hnz Hm. cbv zeta.
  pose proof (preset_well_formed c (lookup_config_preset _ _ Hc)) as (_ & Hu & _).
  destruct (bind_detector_ok c Hu) as (g0 & Hg0 & _ & Hb & Hw).
  assert (Hre : rebind self cfg = Ok g0) by (unfold rebind; rewrite Hc; exact Hg0).
  destruct (generate_spectrum_bound self g0 cfg st Hre Hb ltac:(lia) Hnz Hm)
    as (rows & sp & st' & Hlen & Hall & Hrest).
  exists rows, sp, st'. split; [exact Hlen|]. split; [|exact Hrest].
  eapply Forall_impl; [exact Hall|]. cbv beta. intros row Hr. congruence.
Qed.

(** X24: [generate_spectrum] raises [ZeroDivisionError] when the time
    interval is zero.  On a preset detector, with a known normalisation
    method and, when the electronic noise is on, a sigma that is not
    negative, it returns max(1, int(q)) rows, where [q] is the binary64
    quotient of the duration by the interval, each row with one entry per
    usable channel of the detector named in the configuration, whatever
    detector the generator was built for. *)
Theorem generate_spectrum_shape (self : SpectrumGenerator)
    (cfg : SpectrumConfig) (c : DetectorConfig) (st : St) :
  lookup_config (detector_name cfg) = Some c ->
  (normalize cfg = true -> In (normalization_method cfg) normalization_methods) ->
  (apply_electronic cfg = true -> (0 <= electronic_noise_sigma cfg)%Q) ->
  ((time_interval_seconds cfg == 0)%Q ->
   generate_spectrum self cfg st = (Raise ZeroDivisionError, st)) /\
  (forall q,
   py_float_div (duration_seconds cfg) (time_interval_seconds cfg) = Ok q ->
   exists g st',
     generate_spectrum self cfg st = (Ok g, st') /\
     Z.of_nat (length (data g)) = Z.max 1 (py_int q) /\
     Forall (fun row => Z.of_nat (length row) = usable_channels c) (data g)).
Proof.
  intros Hc Hm _. split.
  - intros Hz. unfold generate_spectrum.
    rewrite num_intervals_of_zero by exact Hz. reflexivity.
  - intros q Hq.
    assert (Hnz : ~ (time_interval_seconds cfg == 0)%Q).
    { intros Hz. rewrite py_float_div_zero in Hq by exact Hz. discriminate. }
    rewrite py_float_div_ok in Hq by exact Hnz. injection Hq as <-.
    destruct (generate_spectrum_preset self cfg c st Hc Hnz Hm)
      as (rows & sp & st' & Hlen & Hall & _ & Hsp & Hgen).
    eexists. exists st'. split; [exact Hgen|]. cbn [data].
    assert (Hshape : map length sp = map length rows).
    { destruct (normalize cfg); [|subst sp; reflexivity].
      destruct Hsp as (flat & Hflat & ->). apply reshape_like_lengths.
      apply normalize_spectrum_length in Hflat. exact Hflat. }
    destruct (same_row_lengths sp rows Hshape) as [Hl Hrows].
    unfold ndarray in *. split; [rewrite Hl, Hlen; lia|].
    apply (Hrows (fun k => Z.of_nat k = usable_channels c)). exact Hall.
Qed.



End GenerateSpectrum.

Section PipelineExamples.

Import Config IsotopeData Physics Scenarios Pipeline.
Local Open Scope R_scope.

#[local] Existing Instance least_draws.
#[local] Existing Instance elements_order.

Lemma environmental_continuum_alone_witness :
  exists background,
    generate_environmental_background [20; 23] 1 5 false false false None 0%nat
    = ((background, []), 0%nat) /\
    length background = length [20; 23] /\
    Forall (fun x => 0 <= x) background /\
    (forall (cfg' : option DetectorConfig) (st' : nat),
       generate_environmental_background [20; 23] 1 5 false false false
         cfg' st'
       = ((background, []), st')).
Proof.
  apply (environmental_continuum_alone [20; 23] 1 5 None 0%nat). lra.
Defined.

Lemma generate_spectrum_shape_witness :
  exists g st',
    generate_spectrum example_generator fractional_config 0%nat = (Ok g, st') /\
    Z.of_nat (length (data g)) = 2%Z /\
    Forall (fun row => Z.of_nat (length row) = usable_channels radiacode_103)
           (data g).
Proof.
  assert (Hs : (apply_electronic fractional_config = true ->
                0 <= electronic_noise_sigma fractional_config)%Q)
    by (intros _; vm_compute; discriminate).
  destruct (generate_spectrum_shape example_generator fractional_config
              radiacode_103 0%nat eq_refl
              (fun _ => or_introl eq_refl) Hs) as [_ Hrows].
  destruct (Hrows (binary64 (binary64 0.3 / binary64 0.1)%Q))
    as (g & st' & Hg & Hlen & Hall).
  - vm_compute. reflexivity.
  - exists g, st'. split; [exact Hg|]. split; [|exact Hall].
    rewrite Hlen. vm_compute. reflexivity.
Defined.



End PipelineExamples.

(** ** The generation of one sample *)

Section SampleSteps.

Import Config IsotopeData Physics Labels Scenarios Pipeline SampleV4.
Local Open Scope Q_scope.

Context {G : Type} `{Generator G} `{SetOrder}.
Context {St : Type} `{NumpyGlobal St} `{Seeded G}.

Variable float16 : R -> R.

Lemma default_config_preset : is_preset get_default_config.
Proof. unfold is_preset. cbn [map snd RADIACODE_CONFIGS]. do 2 right. left. reflexivity. Qed.

(** The detector a sample is generated for: the preset of the name, or the
    default one when the name is no preset. *)
Lemma sample_detector_preset (key : string) :
  is_preset (default get_default_config (lookup_config key)).
Proof.
  destruct (lookup_config key) as [c|] eqn:Hc; cbn [default].
  - exact (lookup_config_preset key c Hc).
  - exact default_config_preset.
Qed.

Lemma init_lookup (key : string) (st : St) :
  exists g,
    init (lookup_config key) None st = (Ok g, st) /\
    num_channels g = length (energy_bins g) /\
    Z.of_nat (num_channels g)
    = usable_channels (default get_default_config (lookup_config key)).
Proof.
  pose proof (preset_well_formed _ (sample_detector_preset key)) as (_ & Hu & _).
  destruct (bind_detector_ok _ Hu) as (g & Hg & _ & Hb & Hw).
  exists g. unfold init.
  change (match lookup_config key with
          | Some c => c
          | None => get_default_config
          end) with (default get_default_config (lookup_config key)).
  rewrite Hg. auto.
Qed.

Lemma rebind_after_init (g : SpectrumGenerator) (cfg : SpectrumConfig) :
  num_channels g = length (energy_bins g) ->
  Z.of_nat (num_channels g)
  = usable_channels
      (default get_default_config (lookup_config (Pipeline.detector_name cfg))) ->
  exists g0,
    rebind g cfg = Ok g0 /\
    num_channels g0 = length (energy_bins g0) /\
    Z.of_nat (num_channels g0)
    = usable_channels
        (default get_default_config (lookup_config (Pipeline.detector_name cfg))).
Proof.
  intros Hb Hw. unfold rebind.
  pose proof (preset_well_formed _
                (sample_detector_preset (Pipeline.detector_name cfg))) as (_ & Hu & _).
  destruct (lookup_config (Pipeline.detector_name cfg)) as [c|];
    cbn [default] in *.
  - destruct (bind_detector_ok c Hu) as (g0 & Hg0 & _ & Hb0 & Hw0). eauto.
  - eauto.
Qed.

(** The configuration of a sample: three hundred intervals of one second,
    Poisson noise, "max" normalisation.  The only failure of the step is
    the draw of the background rate from a range whose bounds are out of
    order. *)
Lemma sample_spec_config_Ok (config : SampleConfig)
    (srcs : list IsotopeSource) (rng rng' : G) (cfg : SpectrumConfig) :
  sample_spec_config config srcs rng = Ok (cfg, rng') ->
  bg_min config <= bg_max config /\
  duration_seconds cfg = 300.0 /\
  time_interval_seconds cfg = 1.0 /\
  sources cfg = srcs /\
  include_background cfg = true /\
  Pipeline.detector_name cfg = detector_name config /\
  apply_poisson cfg = true /\
  apply_electronic cfg = false /\
  normalize cfg = true /\
  normalization_method cfg = "max"%string.
Proof.
  unfold sample_spec_config, checked_uniform.
  destruct (lt (bg_max config) (bg_min config)) eqn:Hlt;
    cbn [mbind result_bind]; [discriminate|].
  destruct (uniform _ _ rng) as [u0 rng0].
  destruct (random rng0) as [u1 rng1].
  destruct (random rng1) as [u2 rng2].
  destruct (random rng2) as [u3 rng3].
  cbv zeta. intros [= <- _]. cbn.
  split; [|repeat split].
  apply Qnot_lt_le. intros Hc. apply lt_spec in Hc. congruence.
Qed.



(** The isotope names written into the label of a sample. *)
Let sample_names (srcs : list IsotopeSource) : list string :=
  set_to_list (list_to_set (concat (replicate 300
    (set_to_list (list_to_set (flat_map names_of_source srcs)))))).

(** A sample, step by step: after the seeding, the choice of the sources
    and the draw of the background rate nothing can fail, and the label is
    packed from values that the global generator does not touch. *)
Lemma generate_single_sample_v4_steps (fuel : nat) (idx : Z)
    (config : SampleConfig) (st : St) :
  if (base_seed config + idx <? 0)%Z
  then generate_single_sample_v4 float16 fuel idx config st
       = Finished (None, [], st)
  else
    match select_sources fuel (default_rng (base_seed config + idx))
            (activity_range config) with
    | OutOfFuel =>
        generate_single_sample_v4 float16 fuel idx config st = OutOfFuel
    | Finished (Raise _) =>
        generate_single_sample_v4 float16 fuel idx config st
        = Finished (None, [], st)
    | Finished (Ok (_, srcs, rng)) =>
        match sample_spec_config config srcs rng with
        | Raise _ =>
            generate_single_sample_v4 float16 fuel idx config st
            = Finished (None, [], st)
        | Ok (cfg, _) =>
            exists array label_data st',
              generate_single_sample_v4 float16 fuel idx config st
              = Finished (Some (format_08d idx),
                          [NpyFile ("s" +:+ format_08d idx +:+ ".npy") array;
                           LblFile ("s" +:+ format_08d idx +:+ ".lbl")
                             label_data],
                          st') /\
              length array = 300%nat /\
              Forall (fun row =>
                  Z.of_nat (length row)
                  = usable_channels
                      (default get_default_config
                         (lookup_config (detector_name config)))) array /\
              pack_labels (sample_names srcs) (activities_of srcs)
                (flags_of (Pipeline.include_k40 cfg)
                   (Pipeline.include_radon cfg) (Pipeline.include_thorium cfg))
              = Ok label_data
        end
    end.
Proof.
  unfold generate_single_sample_v4.
  destruct (base_seed config + idx <? 0)%Z; [reflexivity|].
  destruct (init_lookup (detector_name config) st) as (g & Hinit & Hb & Hw).
  rewrite Hinit.
  destruct (select_sources _ _ _) as [[[[scenario srcs] rng]|e]|];
    [|reflexivity|reflexivity].
  destruct (sample_spec_config config srcs rng) as [[cfg rng']|e] eqn:Hcfg;
    [|reflexivity].
  destruct (sample_spec_config_Ok config srcs rng rng' cfg Hcfg)
    as (_ & Hdur & Hint & Hsrc & Hbg & Hdet & Hpo & Hel & Hnorm & Hmeth).
  rewrite <- Hdet in Hw |- *.
  destruct (rebind_after_init g cfg Hb Hw) as (g0 & Hre & Hb0 & Hw0).
  assert (Hpos : (0 < num_channels g0)%nat).
  { pose proof (preset_well_formed _
        (sample_detector_preset (Pipeline.detector_name cfg))) as (_ & Hu & _).
    lia. }
  assert (Hnz : ~ time_interval_seconds cfg == 0)
    by (rewrite Hint; vm_compute; discriminate).
  assert (Hm : normalize cfg = true ->
               In (normalization_method cfg) normalization_methods)
    by (intros _; rewrite Hmeth; left; reflexivity).
  destruct (generate_spectrum_bound g g0 cfg st Hre Hb0 Hpos Hnz Hm)
    as (rows & sp & st' & Hlen & Hall & _ & Hsp & Hgen).
  rewrite Hgen. unfold sample_label. cbn [isotopes_present data].
  assert (Hn : Z.to_nat (Z.max 1
                 (py_int (binary64 (binary64 (duration_seconds cfg)
                                    / binary64 (time_interval_seconds cfg)))))
               = 300%nat) by (rewrite Hdur, Hint; vm_compute; reflexivity).
  rewrite Hn in Hlen |- *. rewrite Hsrc.
  destruct (unpack_pack_labels (sample_names srcs) (activities_of srcs)
              (flags_of (Pipeline.include_k40 cfg) (Pipeline.include_radon cfg)
                 (Pipeline.include_thorium cfg))) as (label_data & Hpack & _).
  unfold sample_names in Hpack |- *. rewrite Hpack.
  exists (map (map float16) sp), label_data, st'.
  split; [reflexivity|].
  assert (Hshape : map length sp = map length rows).
  { rewrite Hnorm in Hsp. destruct Hsp as (flat & Hflat & ->).
    apply reshape_like_lengths.
    apply normalize_spectrum_length in Hflat. exact Hflat. }
  destruct (same_row_lengths sp rows Hshape) as [Hl Hrows].
  split; [rewrite length_map; unfold ndarray in *; congruence|].
  split; [|reflexivity].
  apply Forall_fmap. eapply Forall_impl.
  - apply (Hrows (fun k => Z.of_nat k
             = usable_channels (default get_default_config
                 (lookup_config (Pipeline.detector_name cfg))))).
    eapply Forall_impl; [exact Hall|]. cbv beta. intros row Hr. congruence.
  - cbv beta. intros row Hr. unfold compose. rewrite length_map. exact Hr.
Qed.


(** X28: what a sample writes besides the matrix does not depend on the
    state of the global numpy generator: from any two states the function
    returns the same value and writes files of the same names and label
    files of the same contents. *)
Theorem sample_label_independent_of_global_state (fuel : nat) (idx : Z)
    (config : SampleConfig) (st1 st2 : St) :
  match generate_single_sample_v4 float16 fuel idx config st1,
        generate_single_sample_v4 float16 fuel idx config st2 with
  | Finished (r1, files1, _), Finished (r2, files2, _) =>
      r1 = r2 /\
      map file_name_of files1 = map file_name_of files2 /\
      label_files files1 = label_files files2
  | OutOfFuel, OutOfFuel => True
  | _, _ => False
  end.
Proof.
  pose proof (generate_single_sample_v4_steps fuel idx config st1) as Hs1.
  pose proof (generate_single_sample_v4_steps fuel idx config st2) as Hs2.
  destruct (base_seed config + idx <? 0)%Z; [rewrite Hs1, Hs2; auto|].
  destruct (select_sources _ _ _) as [[[[scenario srcs] rng]|e]|].
  - destruct (sample_spec_config config srcs rng) as [[cfg rng']|e].
    + destruct Hs1 as (a1 & d1 & s1 & -> & _ & _ & Hp1).
      destruct Hs2 as (a2 & d2 & s2 & -> & _ & _ & Hp2).
      rewrite Hp1 in Hp2. injection Hp2 as <-. auto.
    + rewrite Hs1, Hs2. auto.
  - rewrite Hs1, Hs2. auto.
  - rewrite Hs1, Hs2. exact I.
Qed.

End SampleSteps.

Section SampleLabel.

Import Config IsotopeData Physics Labels Scenarios Pipeline SampleV4.
Local Open Scope Q_scope.

Context {St : Type} `{NumpyGlobal St} `{SetOrder}.





End SampleLabel.

(** ** The scenarios and the master index *)

Section ScenarioSources.

Import Config IsotopeData Labels Scenarios Pipeline SampleV4.
Local Open Scope Q_scope.

Context {G : Type} `{Generator G} `{SetOrder}.

(** What the code relies on from numpy: a pick comes from the pool. *)
Hypothesis choice_in : forall pool (g g' : G) x,
  choice pool g = (Ok x, g') -> x ∈ pool.
Hypothesis choice_distinct_in : forall pool k (g g' : G) l,
  choice_distinct pool k g = (Ok l, g') -> l ⊆ pool.

Lemma get_valid_isotopes_indexed (pool : list string) (n : string) :
  n ∈ get_valid_isotopes pool -> is_Some (ISOTOPE_INDEX !! n).
Proof.
  unfold get_valid_isotopes. intros Hn.
  apply list_elem_of_filter in Hn as [Hi _]. exact Hi.
Qed.

Lemma all_valid_indexed (n : string) :
  n ∈ ALL_VALID_ISOTOPES -> is_Some (ISOTOPE_INDEX !! n).
Proof.
  unfold ALL_VALID_ISOTOPES. intros Hn.
  apply (proj2 (set_to_list_spec _)), elem_of_list_to_set in Hn.
  repeat (apply elem_of_app in Hn as [Hn|Hn];
          [exact (get_valid_isotopes_indexed _ n Hn)|]).
  exact (get_valid_isotopes_indexed _ n Hn).
Qed.

(** Every indexed isotope has an entry in the database. *)
Lemma indexed_known (n : string) :
  is_Some (ISOTOPE_INDEX !! n) -> is_Some (get_isotope n).
Proof.
  intros [i Hi].
  assert (Hall : map_Forall (fun n (_ : Z) => is_Some (get_isotope n))
                   ISOTOPE_INDEX)
    by (apply (bool_decide_unpack _); vm_compute; exact I).
  exact (Hall n i Hi).
Qed.

Lemma single_source_names (pool : list string) (range : Q * Q) (rng rng' : G)
    (srcs : list IsotopeSource) :
  single_source pool range rng = Ok (srcs, rng') ->
  forall s, s ∈ srcs -> isotope_name s ∈ pool.
Proof using choice_in.
  unfold single_source. destruct (choice pool rng) as [[x|e] r1] eqn:Hx;
    cbn [mbind result_bind]; [|discriminate].
  destruct (uniform _ _ r1) as [a r2]. intros [= <- <-] s Hs.
  apply list_elem_of_singleton in Hs. subst s. cbn [isotope_name mk_source].
  exact (choice_in _ _ _ _ Hx).
Qed.

Lemma chain_loop_names (base : Q) (chain : list string)
    (acc : list IsotopeSource) (rng : G) :
  forall s,
    s ∈ (fold_left (fun (acc : list IsotopeSource * G) iso =>
             let '(sources, rng) := acc in
             let '(f, rng) := uniform 0.8 1.2 rng in
             let activity := base * f in
             (sources ++ [mk_source iso activity false], rng))
           chain (acc, rng)).1 ->
    s ∈ acc \/ isotope_name s ∈ chain.
Proof.
  revert acc rng. induction chain as [|iso chain IH]; intros acc rng s;
    cbn [fold_left fst].
  - auto.
  - destruct (uniform 0.8 1.2 rng) as [f r1]. cbv zeta. intros Hs.
    apply IH in Hs as [Hs|Hs]; [|right; right; exact Hs].
    apply elem_of_app in Hs as [Hs|Hs]; [left; exact Hs|].
    apply list_elem_of_singleton in Hs. subst s. right. left.
Qed.

Lemma chain_sources_names (chain : list string) (rng : G) (range : Q * Q) :
  forall s, s ∈ (chain_sources chain rng range).1 -> isotope_name s ∈ chain.
Proof.
  unfold chain_sources. destruct (uniform _ _ rng) as [base r1].
  intros s Hs. apply chain_loop_names in Hs as [Hs|Hs]; [inversion Hs|exact Hs].
Qed.

Lemma selected_loop_names (range : Q * Q) (selected : list string)
    (acc : list IsotopeSource) (rng : G) :
  forall s,
    s ∈ (fold_left (fun (acc : list IsotopeSource * G) iso =>
             let '(sources, rng) := acc in
             let '(activity, rng) := uniform range.1 range.2 rng in
             (sources ++ [mk_source iso activity true], rng))
           selected (acc, rng)).1 ->
    s ∈ acc \/ isotope_name s ∈ selected.
Proof.
  revert acc rng. induction selected as [|iso selected IH]; intros acc rng s;
    cbn [fold_left fst].
  - auto.
  - destruct (uniform _ _ rng) as [a r1]. intros Hs.
    apply IH in Hs as [Hs|Hs]; [|right; right; exact Hs].
    apply elem_of_app in Hs as [Hs|Hs]; [left; exact Hs|].
    apply list_elem_of_singleton in Hs. subst s. right. left.
Qed.

Lemma sources_of_selected_names (selected : list string) (rng : G)
    (range : Q * Q) :
  forall s, s ∈ (sources_of_selected selected rng range).1 ->
            isotope_name s ∈ selected.
Proof.
  unfold sources_of_selected. intros s Hs.
  apply selected_loop_names in Hs as [Hs|Hs]; [inversion Hs|exact Hs].
Qed.

Lemma generate_norm_names (rng rng' : G) (range : Q * Q)
    (srcs : list IsotopeSource) :
  generate_norm rng range = Ok (srcs, rng') ->
  forall s, s ∈ srcs -> isotope_name s ∈ VALID_NORM.
Proof using choice_distinct_in.
  unfold generate_norm. destruct (integers 2 5 rng) as [k r1].
  destruct (choice_distinct _ _ r1) as [[l|e] r2] eqn:Hl;
    cbn [mbind result_bind]; [|discriminate].
  intros Heq s Hs.
  assert (Hs' : s ∈ (sources_of_selected l r2 range).1)
    by (injection Heq as Heq; rewrite Heq; exact Hs).
  apply sources_of_selected_names in Hs'.
  exact (choice_distinct_in _ _ _ _ _ Hl _ Hs').
Qed.

Lemma generate_mixed_names (rng rng' : G) (range : Q * Q)
    (srcs : list IsotopeSource) :
  generate_mixed rng range = Ok (srcs, rng') ->
  forall s, s ∈ srcs -> isotope_name s ∈ ALL_VALID_ISOTOPES.
Proof using choice_distinct_in.
  unfold generate_mixed. destruct (integers 2 4 rng) as [k r1].
  destruct (choice_distinct _ _ r1) as [[l|e] r2] eqn:Hl;
    cbn [mbind result_bind]; [|discriminate].
  intros Heq s Hs.
  assert (Hs' : s ∈ (sources_of_selected l r2 range).1)
    by (injection Heq as Heq; rewrite Heq; exact Hs).
  apply sources_of_selected_names in Hs'.
  exact (choice_distinct_in _ _ _ _ _ Hl _ Hs').
Qed.

Lemma complex_pools_indexed (pools : list (list string)) (num : Z)
    (selected selected' : gset string) (rng rng' : G) :
  Forall (fun pool => forall n, n ∈ pool -> is_Some (ISOTOPE_INDEX !! n)) pools ->
  (forall n, n ∈ selected -> is_Some (ISOTOPE_INDEX !! n)) ->
  complex_pools pools num selected rng = Ok (selected', rng') ->
  forall n, n ∈ selected' -> is_Some (ISOTOPE_INDEX !! n).
Proof using choice_in.
  revert selected rng. induction pools as [|pool pools IH];
    intros selected rng Hpools Hsel; cbn [complex_pools].
  - intros [= <- <-]. exact Hsel.
  - apply Forall_cons in Hpools as [Hpool Hpools].
    destruct (num <=? Z.of_nat (size selected))%Z.
    { intros [= <- <-]. exact Hsel. }
    destruct (bool_decide (pool = [])).
    { apply IH; assumption. }
    destruct (choice pool rng) as [[x|e] r1] eqn:Hx;
      cbn [mbind result_bind]; [|discriminate].
    apply IH; [exact Hpools|]. intros n Hn.
    apply elem_of_union in Hn as [Hn|Hn]; [exact (Hsel n Hn)|].
    apply elem_of_singleton in Hn. subst n.
    apply Hpool. exact (choice_in _ _ _ _ Hx).
Qed.

Lemma complex_fill_indexed (fuel : nat) (num : Z)
    (selected selected' : gset string) (rng rng' : G) :
  (forall n, n ∈ selected -> is_Some (ISOTOPE_INDEX !! n)) ->
  complex_fill fuel num selected rng = Finished (Ok (selected', rng')) ->
  forall n, n ∈ selected' -> is_Some (ISOTOPE_INDEX !! n).
Proof using choice_in.
  revert selected rng. induction fuel as [|fuel IH]; intros selected rng Hsel;
    cbn [complex_fill];
    (destruct (Z.of_nat (size selected) <? num)%Z;
     [|intros [= <- <-]; exact Hsel]).
  - discriminate.
  - destruct (choice ALL_VALID_ISOTOPES rng) as [[x|e] r1] eqn:Hx;
      [|discriminate].
    apply IH. intros n Hn.
    apply elem_of_union in Hn as [Hn|Hn]; [exact (Hsel n Hn)|].
    apply elem_of_singleton in Hn. subst n.
    apply all_valid_indexed. exact (choice_in _ _ _ _ Hx).
Qed.

Lemma generate_complex_names (fuel : nat) (rng rng' : G) (range : Q * Q)
    (srcs : list IsotopeSource) :
  generate_complex fuel rng range = Finished (Ok (srcs, rng')) ->
  forall s, s ∈ srcs -> is_Some (ISOTOPE_INDEX !! isotope_name s).
Proof using choice_in.
  unfold generate_complex. destruct (integers 4 7 rng) as [num r1].
  destruct (complex_pools _ num ∅ r1) as [[sel1 r2]|e] eqn:Hp; [|discriminate].
  destruct (complex_fill fuel num sel1 r2) as [[[sel2 r3]|e]|] eqn:Hf;
    [|discriminate|discriminate].
  intros Heq s Hs.
  assert (Hs' : s ∈ (sources_of_selected (set_to_list sel2) r3 range).1)
    by (injection Heq as Heq; rewrite Heq; exact Hs).
  apply sources_of_selected_names, (proj2 (set_to_list_spec _)) in Hs'.
  revert Hs'. apply (complex_fill_indexed fuel num sel1 sel2 r2 r3); [|exact Hf].
  refine (complex_pools_indexed _ num ∅ sel1 r1 r2 _ _ Hp).
  - repeat (apply Forall_cons; split;
            [intros n Hn; exact (get_valid_isotopes_indexed _ n Hn)|]).
    apply Forall_nil. exact I.
  - intros n Hn. apply elem_of_empty in Hn. destruct Hn.
Qed.

Lemma generate_fallout_names (rng : G) (range : Q * Q) :
  forall s, s ∈ (generate_fallout rng range).1 ->
            isotope_name s ∈ ["Cs-137"; "Cs-134"; "I-131"]%string.
Proof.
  unfold generate_fallout. cbv zeta.
  destruct (uniform _ _ rng) as [a r1]. destruct (uniform 0.1 1.0 r1) as [f r2].
  destruct (random r2) as [u r3].
  destruct (contains VALID_FALLOUT "Cs-137");
    destruct (contains VALID_FALLOUT "Cs-134" && gt (a * f) 0.5);
    (destruct (lt u 0.3 && contains VALID_FALLOUT "I-131");
     [destruct (uniform 1 50 r3) as [i r4]|]);
    cbn [fst app]; intros s Hs;
    repeat (apply elem_of_cons in Hs as [->|Hs];
            [cbn [isotope_name mk_source];
             first [ left | right; left | right; right; left ] |]);
    inversion Hs.
Qed.

Lemma fallout_names_indexed (n : string) :
  n ∈ ["Cs-137"; "Cs-134"; "I-131"]%string -> is_Some (ISOTOPE_INDEX !! n).
Proof.
  intros Hn.
  repeat (apply elem_of_cons in Hn as [->|Hn];
          [apply (bool_decide_unpack _); vm_compute; exact I|]).
  inversion Hn.
Qed.

(** X30: provided the picks of the random generator come from the pool
    they are asked from, every source a scenario returns names an isotope of
    the master index, which the isotope database also knows: the label
    encodes each source under its own index and the spectrum drops none. *)
Theorem selected_sources_indexed (fuel : nat) (rng rng' : G) (range : Q * Q)
    (scenario : string) (srcs : list IsotopeSource) :
  select_sources fuel rng range = Finished (Ok (scenario, srcs, rng')) ->
  forall s, s ∈ srcs ->
    is_Some (ISOTOPE_INDEX !! isotope_name s) /\
    is_Some (get_isotope (isotope_name s)).
Proof using choice_in choice_distinct_in.
  intros Hsel s Hs.
  cut (is_Some (ISOTOPE_INDEX !! isotope_name s)).
  { intros Hi. split; [exact Hi | exact (indexed_known _ Hi)]. }
  revert Hsel. unfold select_sources.
  destruct (choice_index _ _ rng) as [idx r1].
  destruct idx as [|[|[|[|[|[|[|[|[|[|[|idx]]]]]]]]]]];
    cbn [lookup list_lookup SCENARIOS String.eqb Ascii.eqb Bool.eqb].
  - intros [= _ <- _]. inversion Hs.
  - destruct (generate_single_calibration r1 range) as [[l r2]|e] eqn:Hg;
      [|discriminate]. intros [= _ <- _].
    exact (get_valid_isotopes_indexed _ _ (single_source_names _ _ _ _ _ Hg s Hs)).
  - destruct (generate_single_medical r1 range) as [[l r2]|e] eqn:Hg;
      [|discriminate]. intros [= _ <- _].
    unfold generate_single_medical in Hg.
    destruct (bool_decide (VALID_MEDICAL = [])).
    + injection Hg as <- _. inversion Hs.
    + exact (get_valid_isotopes_indexed _ _ (single_source_names _ _ _ _ _ Hg s Hs)).
  - destruct (generate_single_industrial r1 range) as [[l r2]|e] eqn:Hg;
      [|discriminate]. intros [= _ <- _].
    unfold generate_single_industrial in Hg.
    destruct (bool_decide (VALID_INDUSTRIAL = [])).
    + injection Hg as <- _. inversion Hs.
    + exact (get_valid_isotopes_indexed _ _ (single_source_names _ _ _ _ _ Hg s Hs)).
  - pose proof (chain_sources_names VALID_U238_CHAIN r1 range) as Hc.
    unfold generate_uranium_chain.
    destruct (chain_sources _ r1 range) as [l r2]. intros [= _ <- _].
    exact (get_valid_isotopes_indexed _ _ (Hc s Hs)).
  - pose proof (chain_sources_names VALID_TH232_CHAIN r1 range) as Hc.
    unfold generate_thorium_chain.
    destruct (chain_sources _ r1 range) as [l r2]. intros [= _ <- _].
    exact (get_valid_isotopes_indexed _ _ (Hc s Hs)).
  - destruct (generate_norm r1 range) as [[l r2]|e] eqn:Hg; [|discriminate].
    intros [= _ <- _].
    exact (get_valid_isotopes_indexed _ _ (generate_norm_names _ _ _ _ Hg s Hs)).
  - pose proof (generate_fallout_names r1 range) as Hc.
    destruct (generate_fallout r1 range) as [l r2]. intros [= _ <- _].
    exact (fallout_names_indexed _ (Hc s Hs)).
  - destruct (generate_mixed r1 range) as [[l r2]|e] eqn:Hg; [|discriminate].
    intros [= _ <- _].
    exact (all_valid_indexed _ (generate_mixed_names _ _ _ _ Hg s Hs)).
  - destruct (generate_complex fuel r1 range) as [[[l r2]|e]|] eqn:Hg;
      [|discriminate|discriminate]. intros [= _ <- _].
    exact (generate_complex_names _ _ _ _ _ Hg s Hs).
  - destruct (generate_weak r1 range) as [[l r2]|e] eqn:Hg; [|discriminate].
    intros [= _ <- _].
    exact (all_valid_indexed _ (single_source_names _ _ _ _ _ Hg s Hs)).
  - discriminate.
Qed.

End ScenarioSources.

Section SampleExamples.

Import Config IsotopeData Physics Labels Scenarios Pipeline SampleV4.
Local Open Scope Q_scope.

#[local] Existing Instance least_draws.
#[local] Existing Instance elements_order.
#[local] Existing Instance tape_seeded.



(** The tape generator picks from the pool it is given. *)
Lemma tape_choice_in (pool : list string) (g g' : Tape) (x : string) :
  choice pool g = (Ok x, g') -> x ∈ pool.
Proof.
  cbn [choice tape_generator]. unfold tape_next.
  destruct (pool !! _) as [y|] eqn:Hy; [|discriminate].
  intros [= <- _]. exact (list_elem_of_lookup_2 _ _ _ Hy).
Qed.

Lemma tape_choice_distinct_in (pool : list string) (k : Z) (g g' : Tape)
    (l : list string) :
  choice_distinct pool k g = (Ok l, g') -> l ⊆ pool.
Proof.
  cbn [choice_distinct tape_generator]. unfold tape_next.
  destruct (k <=? Z.of_nat (length pool))%Z; [|discriminate].
  intros [= <- _]. apply subseteq_take.
Qed.

Lemma selected_sources_indexed_witness :
  is_Some (ISOTOPE_INDEX !! "Th-232"%string) /\
  is_Some (get_isotope "Th-232").
Proof.
  let v := eval vm_compute in
    (select_sources 0 (tape_of [0.6; 0.5; 0; 0.2; 0.4; 0.3]) (1, 100)) in
  match v with
  | Finished (Ok (?scenario, ?srcs, ?rng')) =>
      assert (Hsel : select_sources 0 (tape_of [0.6; 0.5; 0; 0.2; 0.4; 0.3])
                       (1, 100)
                     = Finished (Ok (scenario, srcs, rng')))
        by (vm_compute; reflexivity);
      apply (selected_sources_indexed tape_choice_in tape_choice_distinct_in
               0 _ rng' (1, 100) scenario srcs Hsel
               (mk_source "Th-232" (1 + (100 - 1) * 0.3) true))
  end.
  do 2 right. left.
Defined.

End SampleExamples.

